(** * Alphafold_Graph_Loader: the protein structure graph builder

  A shallow embedding of [transform/ALPHA_NX.py]: the per-protein job
  [protein_molecule_graphs] and the batch orchestrator [alpha_nx].

  Python dictionaries that the program iterates ([G.nodes],
  [residue_to_ca_atom]) are insertion-ordered association lists
  ([pydict]); dictionaries that are only read by key are [gmap]s.
  The external libraries (RDKit, Bio.PDB, DSSP, json, pickle, NetworkX,
  concurrent.futures) are modelled at their interface: what a call
  returns or raises. *)

From Stdlib Require Import ZArith String Ascii.
From stdpp Require Import gmap strings list fin_maps pretty sorting.

#[local] Set Warnings "-register-all".

(** ** Python strings *)

Module PyStr.

Definition chars (s : string) : list ascii := list_ascii_of_string s.
Definition of_chars (l : list ascii) : string := string_of_list_ascii l.

(** [str.isspace] on one ASCII character. *)
Definition isspace (c : ascii) : bool :=
  let n := nat_of_ascii c in
  (((9 <=? n) && (n <=? 13)) || ((28 <=? n) && (n <=? 32)))%nat.

Fixpoint lstrip_chars (l : list ascii) : list ascii :=
  match l with
  | c :: l' => if isspace c then lstrip_chars l' else l
  | [] => []
  end.

(** [s.strip()] *)
Definition strip (s : string) : string :=
  of_chars (reverse (lstrip_chars (reverse (lstrip_chars (chars s))))).

(** [s.endswith(suffix)] *)
Definition endswith (s suffix : string) : bool :=
  bool_decide (chars suffix `suffix_of` chars s).

(** [s.split(sep)[-1]] for a one-character separator: what follows the
    last occurrence of [sep]. *)
Fixpoint last_field_chars (sep : ascii) (acc l : list ascii) : list ascii :=
  match l with
  | [] => acc
  | c :: l' =>
      if decide (c = sep) then last_field_chars sep [] l'
      else last_field_chars sep (acc ++ [c]) l'
  end.

Definition split_last (sep : ascii) (s : string) : string :=
  of_chars (last_field_chars sep [] (chars s)).

(** [needle in s] for strings. *)
Fixpoint contains_chars (needle l : list ascii) : bool :=
  bool_decide (needle `prefix_of` l) ||
  match l with
  | [] => false
  | _ :: l' => contains_chars needle l'
  end.

Definition contains (s needle : string) : bool :=
  contains_chars (chars needle) (chars s).

(** [os.path.splitext(p)[0]] for a name without directory separator:
    the extension starts at the last dot, unless only dots precede it. *)
Fixpoint rindex_dot (l : list ascii) (i : nat) (found : option nat) : option nat :=
  match l with
  | [] => found
  | c :: l' => rindex_dot l' (S i) (if decide (c = "."%char) then Some i else found)
  end.

Definition splitext_root (p : string) : string :=
  match rindex_dot (chars p) 0 None with
  | None => p
  | Some dotIndex =>
      if forallb (λ c, bool_decide (c = "."%char)) (take dotIndex (chars p))
      then p
      else of_chars (take dotIndex (chars p))
  end.

End PyStr.

(** ** Exceptions and results *)

Inductive exn : Type :=
| AttributeError | KeyError | IndexError | TypeError | ValueError
| JSONDecodeError | OSError | OtherError.

Inductive result (A : Type) : Type :=
| Ok (a : A)
| Raise (e : exn).
Arguments Ok {A} a.
Arguments Raise {A} e.

#[global] Instance exn_eq_dec : EqDecision exn.
Proof. solve_decision. Defined.

#[global] Instance result_eq_dec {A : Type} `{!EqDecision A} : EqDecision (result A).
Proof. solve_decision. Defined.

#[global] Instance result_ret : MRet result := λ A a, Ok a.
#[global] Instance result_bind : MBind result := λ A B f r,
  match r with
  | Ok a => f a
  | Raise e => Raise e
  end.

(** [for x in l: acc = body(acc, x)], leaving the loop at the first
    exception. *)
Fixpoint for_each {A S : Type} (body : S → A → result S) (l : list A) (s : S)
  : result S :=
  match l with
  | [] => Ok s
  | x :: l' => s' ← body s x; for_each body l' s'
  end.

(** ** Insertion-ordered dictionaries *)

Section pydict.
Context {K V : Type} `{!EqDecision K}.

(** [d.get(k)] *)
Fixpoint pydict_get (k : K) (d : list (K * V)) : option V :=
  match d with
  | [] => None
  | (k', v') :: d' => if decide (k' = k) then Some v' else pydict_get k d'
  end.

(** [d[k] = v]: an existing key keeps its position, a new key goes last. *)
Fixpoint pydict_set (k : K) (v : V) (d : list (K * V)) : list (K * V) :=
  match d with
  | [] => [(k, v)]
  | (k', v') :: d' =>
      if decide (k' = k) then (k, v) :: d' else (k', v') :: pydict_set k v d'
  end.

Definition pydict_keys (d : list (K * V)) : list K := d.*1.

End pydict.

(** ** Data model *)

Section Model.

(** Python floats are kept abstract: the program stores and copies them,
    and computes with them only through the library calls below. *)
Variable float : Type.

(** RDKit's [Point3D]. *)
Record Point3D := { px : float; py : float; pz : float }.

(** Python values that end up as graph attributes or come out of
    [json.load]. *)
Inductive pyval : Type :=
| PNone
| PBool (b : bool)
| PInt (z : Z)
| PFloat (f : float)
| PStr (s : string)
| PList (l : list pyval)
| PDict (d : gmap string pyval)
| PPoint (p : Point3D).

(** An attribute dictionary of a node or an edge. *)
#[local] Abbreviation attrs := (gmap string pyval).

(** [d.update(attr)] *)
Definition update (d attr : attrs) : attrs := attr ∪ d.

(** *** RDKit molecule *)

Record AtomPDBResidueInfo := {
  SerialNumber : Z;
  ResidueNumber : Z;
  ResidueName : string }.

(** An atom, with [conf.GetAtomPosition] of its index. [GetIdx] is the
    position of the atom in [GetAtoms()]. *)
Record Atom := {
  AtomicNum : Z;
  Degree : Z;
  IsAromatic : bool;
  MonomerInfo : AtomPDBResidueInfo;
  AtomPosition : Point3D }.

(** A bond; [GetIdx] is its position in [GetBonds()]. *)
Record Bond := {
  BeginAtomIdx : nat;
  EndAtomIdx : nat;
  BondTypeAsDouble : float }.

(** A molecule as [Chem.MolFromPDBFile] returns it; [AtomPosition] is
    read in its first conformer. A molecule may have no conformer at
    all: the PDB parser adds one with the first atom it reads. *)
Record Mol := { Atoms : list Atom; Bonds : list Bond; NumConformers : nat }.

(** [mol.GetConformer()]: the first conformer, ValueError when the
    molecule has none. *)
Definition GetConformer (mol : Mol) : result unit :=
  match NumConformers mol with
  | 0 => Raise ValueError
  | S _ => Ok ()
  end.

(** [rdMolTransforms.GetBondLength(conf, i, j)] *)
Variable GetBondLength : Mol → nat → nat → float.

(** [np.linalg.norm(pos1 - pos2)] on two arrays of three floats:
    subtraction of floats and the norm of a vector. *)
Variable float_sub : float → float → float.
Variable linalg_norm : list float → float.

(** The text of a float in an f-string. *)
Variable float_str : float → string.

(** *** Bio.PDB structure *)

Record PDBAtom := {
  serial_number : Z;
  fullname : string;
  atom_id : string;
  bfactor : float }.

(** A residue; [resseq] is [residue.get_id()[1]]. *)
Record PDBResidue := { resseq : Z; child_list : list PDBAtom }.

#[local] Abbreviation PDBStructure := (list (list (list PDBResidue))).

(** [residue[name]] *)
Definition residue_getitem (residue : PDBResidue) (name : string) : result PDBAtom :=
  match list_find (λ a, atom_id a = name) (child_list residue) with
  | Some (_, a) => Ok a
  | None => Raise KeyError
  end.

(** The residues and the atoms in the order of the nested loops
    [for model in structure: for chain in model: for residue in chain]. *)
Definition structure_residues (structure : PDBStructure) : list PDBResidue :=
  concat (concat structure).

Definition structure_atoms (structure : PDBStructure) : list PDBAtom :=
  concat (child_list <$> structure_residues structure).

(** *** DSSP *)

(** One entry of the [DSSP] object: a tuple of fourteen values. *)
Record dssp_tuple := {
  dssp_index : Z;
  aa : pyval;
  ss : pyval;
  exposure : pyval;
  phi : pyval;
  psi : pyval;
  NH_O_1_relidx : pyval;
  NH_O_1_energy : pyval;
  O_NH_1_relidx : pyval;
  O_NH_1_energy : pyval;
  NH_O_2_relidx : pyval;
  NH_O_2_energy : pyval;
  O_NH_2_relidx : pyval;
  O_NH_2_energy : pyval }.

(** *** NetworkX undirected graph

    [nx.Graph] keeps a dictionary of node attribute dictionaries and a
    dictionary of adjacency dictionaries; [adj[u][v]] and [adj[v][u]] are
    one and the same attribute dictionary, so there is one edge per
    unordered pair. *)

Record Graph := {
  nodes : list (nat * attrs);
  adj : gmap nat (gmap nat attrs) }.

Definition empty_graph : Graph := {| nodes := []; adj := ∅ |}.

(** [G.add_node(n, **attr)] *)
Definition add_node (G : Graph) (n : nat) (attr : attrs) : Graph :=
  match pydict_get n (nodes G) with
  | None => {| nodes := pydict_set n attr (nodes G); adj := <[n := ∅]> (adj G) |}
  | Some d => {| nodes := pydict_set n (update d attr) (nodes G); adj := adj G |}
  end.

(** The first lines of [add_edge]: an endpoint that is not a node yet
    becomes one, without attributes. *)
Definition touch_node (G : Graph) (n : nat) : Graph :=
  match pydict_get n (nodes G) with
  | None => {| nodes := pydict_set n ∅ (nodes G); adj := <[n := ∅]> (adj G) |}
  | Some _ => G
  end.

(** [G.add_edge(u, v, **attr)] *)
Definition add_edge (G : Graph) (u v : nat) (attr : attrs) : Graph :=
  let G1 := touch_node (touch_node G u) v in
  let datadict := update (default ∅ (default ∅ (adj G1 !! u) !! v)) attr in
  let adj1 := <[u := <[v := datadict]> (default ∅ (adj G1 !! u))]> (adj G1) in
  let adj2 := <[v := <[u := datadict]> (default ∅ (adj1 !! v))]> adj1 in
  {| nodes := nodes G1; adj := adj2 |}.

(** [G.nodes[n]] *)
Definition node_data (G : Graph) (n : nat) : result attrs :=
  match pydict_get n (nodes G) with
  | Some d => Ok d
  | None => Raise KeyError
  end.

(** [G.nodes[n][key] = value] *)
Definition set_node_attr (G : Graph) (n : nat) (key : string) (value : pyval)
  : result Graph :=
  d ← node_data G n;
  Ok {| nodes := pydict_set n (<[key := value]> d) (nodes G); adj := adj G |}.

(** The attribute dictionary of the edge between [u] and [v], if any. *)
Definition edge (G : Graph) (u v : nat) : option attrs :=
  adj G !! u ≫= (λ nbrs, nbrs !! v).

(** [d[key]] on an attribute dictionary. *)
Definition attr_getitem (d : attrs) (key : string) : result pyval :=
  match d !! key with
  | Some v => Ok v
  | None => Raise KeyError
  end.

(** ** The per-protein job, stage by stage *)

(** *** Structure table (lines 39-45) *)

Definition serial_atom_dict (structure : PDBStructure) : gmap Z string :=
  foldl (λ d atom, <[serial_number atom := PyStr.strip (fullname atom)]> d)
        ∅ (structure_atoms structure).

(** *** Atoms as nodes (lines 47-66) *)

Definition atom_attrs (atom_name : option string) (atom : Atom) : attrs :=
  {[ "atom_name" := from_option PStr PNone atom_name;
     "atomic_number" := PInt (AtomicNum atom);
     "atom_coords" := PPoint (AtomPosition atom);
     "degree" := PInt (Degree atom);
     "aromatic" := PBool (IsAromatic atom);
     "residue_number" := PInt (ResidueNumber (MonomerInfo atom));
     "residue_name" := PStr (ResidueName (MonomerInfo atom)) ]}.

(** The loop [for atom in mol.GetAtoms()], from atom index [atom_idx] on;
    the state is the graph and [residue_to_ca_atom]. *)
Fixpoint add_atom_nodes (names : gmap Z string) (atoms : list Atom) (atom_idx : nat)
    (G : Graph) (residue_to_ca_atom : list (Z * nat)) : Graph * list (Z * nat) :=
  match atoms with
  | [] => (G, residue_to_ca_atom)
  | atom :: rest =>
      let atom_name := names !! SerialNumber (MonomerInfo atom) in
      let residue_number := ResidueNumber (MonomerInfo atom) in
      let G' := add_node G atom_idx (atom_attrs atom_name atom) in
      let residue_to_ca_atom' :=
        if decide (atom_name = Some "CA")
        then pydict_set residue_number atom_idx residue_to_ca_atom
        else residue_to_ca_atom in
      add_atom_nodes names rest (S atom_idx) G' residue_to_ca_atom'
  end.

(** *** Bonds as edges (lines 68-76) *)

Definition bond_attrs (mol : Mol) (bond_idx : nat) (bond : Bond) : attrs :=
  {[ "bond_idx" := PInt (Z.of_nat bond_idx);
     "bond_order" := PFloat (BondTypeAsDouble bond);
     "bond_length" :=
       PFloat (GetBondLength mol (BeginAtomIdx bond) (EndAtomIdx bond)) ]}.

Fixpoint add_bond_edges (mol : Mol) (bonds : list Bond) (bond_idx : nat) (G : Graph)
  : Graph :=
  match bonds with
  | [] => G
  | bond :: rest =>
      add_bond_edges mol rest (S bond_idx)
        (add_edge G (BeginAtomIdx bond) (EndAtomIdx bond) (bond_attrs mol bond_idx bond))
  end.

(** *** Backbone edges (lines 78-90) *)

(** [np.array(graph.nodes[idx]['atom_coords'])]: the three coordinates
    of a stored [Point3D]. *)
Definition stored_coords (graph : Graph) (atom_idx : nat) : result Point3D :=
  data ← node_data graph atom_idx;
  v ← attr_getitem data "atom_coords";
  match v with
  | PPoint p => Ok p
  | _ => Raise TypeError
  end.

Definition euclidean (pos1 pos2 : Point3D) : float :=
  linalg_norm [float_sub (px pos1) (px pos2);
               float_sub (py pos1) (py pos2);
               float_sub (pz pos1) (pz pos2)].

Definition calculate_distance (atom1_idx atom2_idx : nat) (graph : Graph)
  : result float :=
  pos1 ← stored_coords graph atom1_idx;
  pos2 ← stored_coords graph atom2_idx;
  Ok (euclidean pos1 pos2).

Definition backbone_attrs (bond_length : float) : attrs :=
  {[ "bond_idx" := PInt 0; "bond_order" := PInt 0;
     "bond_length" := PFloat bond_length ]}.

(** The body of [for res_num, ca_idx in residue_to_ca_atom.items()]. *)
Definition backbone_step (residue_to_ca_atom : list (Z * nat)) (G : Graph)
    (item : Z * nat) : result Graph :=
  match pydict_get (item.1 + 1)%Z residue_to_ca_atom with
  | Some next_ca_idx =>
      bond_length ← calculate_distance item.2 next_ca_idx G;
      Ok (add_edge G item.2 next_ca_idx (backbone_attrs bond_length))
  | None => Ok G
  end.

Definition add_backbone_edges (residue_to_ca_atom : list (Z * nat)) (G : Graph)
  : result Graph :=
  for_each (backbone_step residue_to_ca_atom) residue_to_ca_atom G.

(** *** pLDDT as node attribute (lines 92-106) *)

Definition plddt_step (d : gmap Z float) (residue : PDBResidue)
  : result (gmap Z float) :=
  ca ← residue_getitem residue "CA";
  Ok (<[resseq residue := bfactor ca]> d).

Definition plddt_dict (structure : PDBStructure) : result (gmap Z float) :=
  for_each plddt_step (structure_residues structure) ∅.

Fixpoint add_plddt (plddt : gmap Z float) (atoms : list Atom) (atom_idx : nat)
    (G : Graph) : result Graph :=
  match atoms with
  | [] => Ok G
  | atom :: rest =>
      G' ← set_node_attr G atom_idx "plddt"
             (from_option PFloat PNone (plddt !! ResidueNumber (MonomerInfo atom)));
      add_plddt plddt rest (S atom_idx) G'
  end.

(** *** PAE as edges (lines 108-137) *)

(** [len(v)], [v[i]], [key in v] and [v[key]] on a value read by
    [json.load]. *)
Definition py_len (v : pyval) : result nat :=
  match v with
  | PList l => Ok (length l)
  | PStr s => Ok (String.length s)
  | PDict d => Ok (size d)
  | _ => Raise TypeError
  end.

Definition py_getitem (v : pyval) (i : nat) : result pyval :=
  match v with
  | PList l => match l !! i with Some x => Ok x | None => Raise IndexError end
  | PStr s =>
      match String.get i s with
      | Some c => Ok (PStr (String c EmptyString))
      | None => Raise IndexError
      end
  | PDict _ => Raise KeyError
  | _ => Raise TypeError
  end.

Definition is_str (key : string) (v : pyval) : bool :=
  match v with
  | PStr s => bool_decide (s = key)
  | _ => false
  end.

Definition py_contains (v : pyval) (key : string) : result bool :=
  match v with
  | PDict d => Ok (bool_decide (is_Some (d !! key)))
  | PList l => Ok (existsb (is_str key) l)
  | PStr s => Ok (PyStr.contains s key)
  | _ => Raise TypeError
  end.

Definition py_getitem_str (v : pyval) (key : string) : result pyval :=
  match v with
  | PDict d => match d !! key with Some x => Ok x | None => Raise KeyError end
  | _ => Raise TypeError
  end.

(** The body of the inner loop, for row index [i] and column index [j]. *)
Definition pae_step (residue_to_ca_atom : list (Z * nat)) (row : pyval) (i : nat)
    (G : Graph) (j : nat) : result Graph :=
  if decide (i ≠ j) then
    pae ← py_getitem row j;
    match pydict_get (Z.of_nat i + 1)%Z residue_to_ca_atom,
          pydict_get (Z.of_nat j + 1)%Z residue_to_ca_atom with
    | Some ca_atom_i, Some ca_atom_j =>
        Ok (add_edge G ca_atom_i ca_atom_j {[ "pae" := pae ]})
    | _, _ => Ok G
    end
  else Ok G.

(** The body of the outer loop: [for j in range(len(pae_matrix[i]))]. *)
Definition pae_row (residue_to_ca_atom : list (Z * nat)) (pae_matrix : pyval)
    (G : Graph) (i : nat) : result Graph :=
  row ← py_getitem pae_matrix i;
  n ← py_len row;
  for_each (pae_step residue_to_ca_atom row i) (seq 0 n) G.

Definition add_pae_edges (residue_to_ca_atom : list (Z * nat)) (pae_matrix : pyval)
    (G : Graph) : result Graph :=
  m ← py_len pae_matrix;
  for_each (pae_row residue_to_ca_atom pae_matrix) (seq 0 m) G.

(** The [try] block; [json_load] is what [open] and [json.load] give for
    the side file. *)
Definition pae_block (json_load : result pyval) (residue_to_ca_atom : list (Z * nat))
    (G : Graph) : result Graph :=
  pae_data ← json_load;
  record ← py_getitem pae_data 0;
  present ← py_contains record "predicted_aligned_error";
  if negb present then Raise ValueError
  else
    pae_matrix ← py_getitem_str record "predicted_aligned_error";
    add_pae_edges residue_to_ca_atom pae_matrix G.

(** *** DSSP as node attributes (lines 139-182) *)

Definition dssp_dict (dssp : list dssp_tuple) : gmap Z dssp_tuple :=
  foldl (λ d res, <[dssp_index res := res]> d) ∅ dssp.

(** [run_dssp]: the structure is parsed again, its model 0 is given to
    the analyzer [DSSP], whose entries are keyed by their first
    component. *)
Definition run_dssp (get_structure : result PDBStructure)
    (DSSP : result (list dssp_tuple)) : result (gmap Z dssp_tuple) :=
  s ← get_structure;
  model ← match s with m :: _ => Ok m | [] => Raise KeyError end;
  dssp ← DSSP;
  Ok (dssp_dict dssp).

(** The twelve assignments [G.nodes[node][...] = ...]. *)
Definition dssp_attrs (res : dssp_tuple) (data : attrs) : attrs :=
  <["O_NH_2_energy" := O_NH_2_energy res]>
  (<["O_NH_2_relidx" := O_NH_2_relidx res]>
  (<["NH_O_2_energy" := NH_O_2_energy res]>
  (<["NH_O_2_relidx" := NH_O_2_relidx res]>
  (<["O_NH_1_energy" := O_NH_1_energy res]>
  (<["O_NH_1_relidx" := O_NH_1_relidx res]>
  (<["NH_O_1_energy" := NH_O_1_energy res]>
  (<["NH_O_1_relidx" := NH_O_1_relidx res]>
  (<["psi" := psi res]>
  (<["phi" := phi res]>
  (<["exposure" := exposure res]>
  (<["secondary_structure" := ss res]> data))))))))))).

(** [data['residue_number'] in dssp_data] and [dssp_data[...]]: the keys
    are ints, and the attribute is the int stored by [add_node]. *)
Definition dssp_lookup (dssp_data : gmap Z dssp_tuple) (residue_number : pyval)
  : option dssp_tuple :=
  match residue_number with
  | PInt z => dssp_data !! z
  | _ => None
  end.

(** The body of [for node, data in G.nodes(data=True)]; [data] is the
    node's own dictionary, so [G.nodes[node][k] = v] writes into it. *)
Definition dssp_node (dssp_data : gmap Z dssp_tuple) (data : attrs) : result attrs :=
  residue_number ← attr_getitem data "residue_number";
  match dssp_lookup dssp_data residue_number with
  | Some res => Ok (dssp_attrs res data)
  | None => Ok data
  end.

(** A loop over [G.nodes(data=True)] that rewrites each node's data. *)
Fixpoint for_node_data (body : attrs → result attrs) (l : list (nat * attrs))
  : result (list (nat * attrs)) :=
  match l with
  | [] => Ok []
  | (node, data) :: l' =>
      data' ← body data;
      l'' ← for_node_data body l';
      Ok ((node, data') :: l'')
  end.

Definition dssp_block (get_structure : result PDBStructure)
    (DSSP : result (list dssp_tuple)) (G : Graph) : result Graph :=
  dssp_data ← run_dssp get_structure DSSP;
  nodes' ← for_node_data (dssp_node dssp_data) (nodes G);
  Ok {| nodes := nodes'; adj := adj G |}.

(** *** Coordinates as text (lines 184-188) *)

Definition coords_node (data : attrs) : result attrs :=
  atom_coords ← attr_getitem data "atom_coords";
  match atom_coords with
  | PPoint p =>
      Ok (<["atom_coords" :=
              PStr (float_str (px p) +:+ "," +:+ float_str (py p) +:+ ","
                    +:+ float_str (pz p))]> data)
  | _ => Raise AttributeError
  end.

Definition coords_to_str (G : Graph) : result Graph :=
  nodes' ← for_node_data coords_node (nodes G);
  Ok {| nodes := nodes'; adj := adj G |}.

(** ** The job [protein_molecule_graphs] *)

(** A file of the input directory, as the libraries read it:
    [Chem.MolFromPDBFile] (which returns [None] for a file it cannot
    parse), [PDBParser().get_structure], [DSSP(model, file)] and
    [json.load]. *)
Record file_content := {
  MolFromPDBFile : option Mol;
  get_structure : result PDBStructure;
  DSSP : result (list dssp_tuple);
  json_load : result pyval }.

(** How a job that does not raise ends: the three early [return]s with
    their message, or the end of the function after [pickle.dump]. *)
Inductive job_end : Type :=
| AlreadyExists
| PaeFailed (e : exn)
| DsspFailed (e : exn)
| Pickled.

#[global] Instance job_end_eq_dec : EqDecision job_end.
Proof. solve_decision. Defined.

(** Lines 47-76: the nodes of the atoms with [residue_to_ca_atom], then
    the edges of the bonds. *)
Definition assemble (names : gmap Z string) (mol : Mol) : Graph * list (Z * nat) :=
  let '(G0, residue_to_ca_atom) :=
    add_atom_nodes names (Atoms mol) 0 empty_graph [] in
  (add_bond_edges mol (Bonds mol) 0 G0, residue_to_ca_atom).

(** Lines 25-106: parsing, the assembly, the backbone edges and the
    pLDDT attribute. None of this is inside a [try]: an exception here
    leaves the job. A path without file makes RDKit raise; a file it
    cannot parse gives [mol = None], and [mol.UpdatePropertyCache]
    raises AttributeError; [mol.GetConformer] raises ValueError for a
    molecule without conformer. *)
Definition graph_before_pae (pdb_file : option file_content)
  : result (file_content * Graph * list (Z * nat)) :=
  pdb ← match pdb_file with Some f => Ok f | None => Raise OSError end;
  mol ← match MolFromPDBFile pdb with
        | Some m => Ok m
        | None => Raise AttributeError
        end;
  GetConformer mol;;
  structure ← get_structure pdb;
  let '(G1, residue_to_ca_atom) := assemble (serial_atom_dict structure) mol in
  G2 ← add_backbone_edges residue_to_ca_atom G1;
  plddt ← plddt_dict structure;
  G3 ← add_plddt plddt (Atoms mol) 0 G2;
  Ok (pdb, G3, residue_to_ca_atom).

(** [open(json_file_path)] and [json.load]. *)
Definition read_json (json_file : option file_content) : result pyval :=
  match json_file with
  | Some f => json_load f
  | None => Raise OSError
  end.

(** Lines 108-188: the two [try] blocks and the coordinates. [inl G] is
    the finished graph, [inr r] an early [return] from an [except]
    clause, [Raise e] an exception no clause catches. *)
Definition graph_after_pae (pdb : file_content) (G3 : Graph)
    (residue_to_ca_atom : list (Z * nat)) (json_file : option file_content)
    (include_pae : bool) : result (Graph + job_end) :=
  match
    (if include_pae then pae_block (read_json json_file) residue_to_ca_atom G3
     else Ok G3)
  with
  | Raise e => Ok (inr (PaeFailed e))
  | Ok G4 =>
      match dssp_block (get_structure pdb) (DSSP pdb) G4 with
      | Raise e => Ok (inr (DsspFailed e))
      | Ok G5 => G6 ← coords_to_str G5; Ok (inl G6)
      end
  end.

Definition build_graph (pdb_file json_file : option file_content) (include_pae : bool)
  : result (Graph + job_end) :=
  '(pdb, G3, residue_to_ca_atom) ← graph_before_pae pdb_file;
  graph_after_pae pdb G3 residue_to_ca_atom json_file include_pae.

(** The input directory maps relative paths to files, in the order
    [os.listdir] reports them; the output directory maps file names to
    pickled graphs. The job returns the output directory it leaves and
    how it ended. *)
Definition protein_molecule_graphs (input_dir : list (string * file_content))
    (output_dir : gmap string Graph) (file_name : string) (include_pae : bool)
  : gmap string Graph * result job_end :=
  let pdb_file_path := file_name +:+ ".pdb" in
  let json_file_path := file_name +:+ ".json" in
  let output_file_name := PyStr.split_last "/" file_name +:+ ".pkl" in
  if decide (is_Some (output_dir !! output_file_name)) then
    (output_dir, Ok AlreadyExists)
  else
    match build_graph (pydict_get pdb_file_path input_dir)
                      (pydict_get json_file_path input_dir) include_pae with
    | Raise e => (output_dir, Raise e)
    | Ok (inr stop) => (output_dir, Ok stop)
    | Ok (inl G) => (<[output_file_name := G]> output_dir, Ok Pickled)
    end.

(** ** The batch orchestrator [alpha_nx] *)

(** [os.listdir]: the names directly in the directory. *)
Definition listdir {A : Type} (dir : list (string * A)) : list string :=
  filter (λ name, PyStr.contains name "/" = false) dir.*1.

(** [executor.map] followed by [list(...)]: the results are collected in
    the order of the tasks. The first job that raised makes the collector
    raise the same exception; jobs not started by then are cancelled and
    the [in_flight] jobs already started run to completion, their result
    unread ([max_workers] and the timing of the pool decide how many
    these are). Jobs share nothing but the output directory and write
    different files, so they are run here one after the other. *)
Fixpoint run_in_flight (job : gmap string Graph → string → gmap string Graph * result job_end)
    (in_flight : nat) (tasks : list string) (output_dir : gmap string Graph)
  : gmap string Graph :=
  match in_flight, tasks with
  | S n, task :: rest => run_in_flight job n rest (job output_dir task).1
  | _, _ => output_dir
  end.

Fixpoint executor_map (job : gmap string Graph → string → gmap string Graph * result job_end)
    (in_flight : nat) (tasks : list string) (output_dir : gmap string Graph)
  : gmap string Graph * result (list job_end) :=
  match tasks with
  | [] => (output_dir, Ok [])
  | task :: rest =>
      match job output_dir task with
      | (output_dir', Raise e) =>
          (run_in_flight job in_flight rest output_dir', Raise e)
      | (output_dir', Ok r) =>
          match executor_map job in_flight rest output_dir' with
          | (output_dir'', Ok results) => (output_dir'', Ok (r :: results))
          | (output_dir'', Raise e) => (output_dir'', Raise e)
          end
      end
  end.

(** Lines 202-215: the tasks, one per [.pdb] file without a pickle in
    the snapshot of the output directory. *)
Definition pending_tasks (input_dir : list (string * file_content))
    (output_dir : gmap string Graph) : list string :=
  let processed_files :=
    filter (λ f, PyStr.endswith f ".pkl" = true) (elements (dom output_dir)) in
  omap (λ file,
          if PyStr.endswith file ".pdb" then
            let file_name_without_extension := PyStr.splitext_root file in
            let output_file_name := file_name_without_extension +:+ ".pkl" in
            if decide (output_file_name ∈ processed_files) then None
            else Some file_name_without_extension
          else None)
       (listdir input_dir).

(** [os.makedirs(output_dir, exist_ok=True)] leaves an existing
    directory as it is; the tasks are then handed to the pool. *)
Definition alpha_nx (input_dir : list (string * file_content))
    (output_dir : gmap string Graph) (include_pae : bool) (in_flight : nat)
  : gmap string Graph * result (list job_end) :=
  executor_map (λ out file_name,
                  protein_molecule_graphs input_dir out file_name include_pae)
               in_flight (pending_tasks input_dir output_dir) output_dir.

(** * Properties *)

(** ** Loops *)

Lemma for_each_app {A S : Type} (body : S → A → result S) (l1 l2 : list A) (s : S) :
  for_each body (l1 ++ l2) s = (s' ← for_each body l1 s; for_each body l2 s').
Proof.
  revert s. induction l1 as [|x l1 IH]; intros s; simpl; [done|].
  destruct (body s x) as [s'|e]; simpl; [apply IH|done].
Qed.

(** A loop whose body cannot raise on the states it meets is a fold. *)
Lemma for_each_pure {A S : Type} (body : S → A → result S) (step : S → A → S)
    (I : S → Prop) (l : list A) (s : S) :
  I s →
  (∀ s x, x ∈ l → I s → body s x = Ok (step s x) ∧ I (step s x)) →
  for_each body l s = Ok (foldl step s l) ∧ I (foldl step s l).
Proof.
  revert s. induction l as [|x l IH]; intros s Hs Hbody; simpl; [done|].
  destruct (Hbody s x) as [-> Hs']; [left|done|]. simpl.
  apply IH; [done|]. intros s' y Hy. apply Hbody. by right.
Qed.

(** ** Insertion-ordered dictionaries *)

Section pydict_facts.
Context {K V : Type} `{!EqDecision K}.
Implicit Types (k : K) (v : V) (d : list (K * V)).

Lemma pydict_get_set_eq k v d : pydict_get k (pydict_set k v d) = Some v.
Proof.
  induction d as [|[k' v'] d IH]; simpl.
  - by rewrite decide_True.
  - destruct (decide (k' = k)) as [->|Hne]; simpl.
    + by rewrite decide_True.
    + by rewrite decide_False.
Qed.

Lemma pydict_get_set_ne k k' v d :
  k ≠ k' → pydict_get k' (pydict_set k v d) = pydict_get k' d.
Proof.
  intros Hne. induction d as [|[k0 v0] d IH]; simpl.
  - by rewrite decide_False.
  - destruct (decide (k0 = k)) as [->|Hne0]; simpl.
    + by rewrite !decide_False.
    + destruct (decide (k0 = k')); [done|apply IH].
Qed.

Lemma pydict_get_set k k' v d :
  pydict_get k' (pydict_set k v d) =
  if decide (k = k') then Some v else pydict_get k' d.
Proof.
  destruct (decide (k = k')) as [->|Hne];
    [apply pydict_get_set_eq|by apply pydict_get_set_ne].
Qed.

Lemma pydict_get_None k d : pydict_get k d = None ↔ k ∉ pydict_keys d.
Proof.
  unfold pydict_keys. induction d as [|[k' v'] d IH]; simpl.
  - split; [intros _; apply not_elem_of_nil|done].
  - rewrite not_elem_of_cons. destruct (decide (k' = k)) as [->|Hne].
    + split; [done|]. by intros [? _].
    + rewrite IH. split; [by intros ?; split|by intros [_ ?]].
Qed.

Lemma pydict_get_is_Some k d : is_Some (pydict_get k d) ↔ k ∈ pydict_keys d.
Proof.
  rewrite <-not_eq_None_Some, pydict_get_None.
  split; [apply dec_stable|by intros ? ?].
Qed.

Lemma pydict_get_elem_of k v d : pydict_get k d = Some v → (k, v) ∈ d.
Proof.
  induction d as [|[k' v'] d IH]; simpl; [done|].
  destruct (decide (k' = k)) as [->|Hne].
  - intros [= ->]. left.
  - intros Hget. right. by apply IH.
Qed.

Lemma pydict_elem_of_get k v d :
  NoDup (pydict_keys d) → (k, v) ∈ d → pydict_get k d = Some v.
Proof.
  unfold pydict_keys. induction d as [|[k' v'] d IH]; simpl.
  - intros _ Hin. by apply elem_of_nil in Hin.
  - intros [Hnotin Hnd]%NoDup_cons [[= -> ->]|Hin]%elem_of_cons.
    + by rewrite decide_True.
    + rewrite decide_False; [by apply IH|].
      intros ->. apply Hnotin. apply list_elem_of_fmap. by exists (k, v).
Qed.

Lemma pydict_keys_set k v d :
  pydict_keys (pydict_set k v d) =
  if decide (k ∈ pydict_keys d) then pydict_keys d else pydict_keys d ++ [k].
Proof.
  unfold pydict_keys. induction d as [|[k' v'] d IH].
  - rewrite decide_False; [done|apply not_elem_of_nil].
  - cbn [pydict_set]. destruct (decide (k' = k)) as [->|Hne]; rewrite !fmap_cons.
    + rewrite decide_True; [done|left].
    + rewrite IH. cbn [fst]. destruct (decide (k ∈ d.*1)) as [Hin|Hnin].
      * rewrite decide_True; [done|by right].
      * rewrite decide_False; [done|].
        rewrite not_elem_of_cons. by split.
Qed.

Lemma pydict_set_NoDup k v d :
  NoDup (pydict_keys d) → NoDup (pydict_keys (pydict_set k v d)).
Proof.
  intros Hnd. rewrite pydict_keys_set. case_decide; [done|].
  apply NoDup_app. split_and!; [done| |apply NoDup_singleton].
  intros x Hx ->%list_elem_of_singleton. done.
Qed.

End pydict_facts.

(** ** The graph operations *)

(** NetworkX keeps an adjacency dictionary for every node and for nodes
    only. *)
Definition graph_inv (G : Graph) : Prop :=
  ∀ n, pydict_get n (nodes G) = None → adj G !! n = None.

(** The two endpoints of an edge, in either order. *)
Definition same_pair (x y u v : nat) : Prop := (x = u ∧ y = v) ∨ (x = v ∧ y = u).

#[local] Instance same_pair_dec x y u v : Decision (same_pair x y u v).
Proof. unfold same_pair. apply _. Defined.

Lemma edge_default (G : Graph) (u y : nat) :
  default ∅ (adj G !! u) !! y = edge G u y.
Proof. unfold edge. by destruct (adj G !! u). Qed.

Lemma empty_graph_inv : graph_inv empty_graph.
Proof. by intros n _. Qed.

Lemma touch_node_inv G n : graph_inv G → graph_inv (touch_node G n).
Proof.
  intros HG m. unfold touch_node.
  destruct (pydict_get n (nodes G)) eqn:Hn; simpl; [apply HG|].
  rewrite pydict_get_set. case_decide as Hm; [done|].
  rewrite lookup_insert_ne by done. apply HG.
Qed.

Lemma touch_node_edge G n x y : graph_inv G → edge (touch_node G n) x y = edge G x y.
Proof.
  intros HG. unfold touch_node.
  destruct (pydict_get n (nodes G)) eqn:Hn; [done|].
  unfold edge; simpl. destruct (decide (n = x)) as [->|Hne].
  - rewrite lookup_insert_eq, (HG x Hn). done.
  - by rewrite lookup_insert_ne.
Qed.

Lemma touch_node_get G n m :
  pydict_get m (nodes (touch_node G n)) =
  match pydict_get m (nodes G) with
  | Some d => Some d
  | None => if decide (n = m) then Some ∅ else None
  end.
Proof.
  unfold touch_node. destruct (pydict_get n (nodes G)) eqn:Hn; simpl.
  - destruct (pydict_get m (nodes G)) eqn:Hm; [done|].
    case_decide; [congruence|done].
  - rewrite pydict_get_set. case_decide as Hnm.
    + subst. by rewrite Hn.
    + by destruct (pydict_get m (nodes G)).
Qed.

Lemma touch_node_keys G n :
  n ∈ pydict_keys (nodes G) → touch_node G n = G.
Proof.
  intros [d Hd]%pydict_get_is_Some. unfold touch_node. by rewrite Hd.
Qed.

Lemma add_edge_inv G u v a : graph_inv G → graph_inv (add_edge G u v a).
Proof.
  intros HG n. unfold add_edge; simpl. intros Hn.
  assert (graph_inv (touch_node (touch_node G u) v)) as HG1
    by by do 2 apply touch_node_inv.
  rewrite !touch_node_get in Hn.
  destruct (pydict_get n (nodes G)) eqn:Hget; [done|].
  destruct (decide (u = n)); [done|]. destruct (decide (v = n)); [done|].
  rewrite !lookup_insert_ne by done. apply HG1.
  rewrite !touch_node_get, Hget. by rewrite !decide_False.
Qed.

(** What [add_edge] does to the attribute dictionary of every pair. *)
Lemma edge_add_edge G u v a x y :
  graph_inv G →
  edge (add_edge G u v a) x y =
  if decide (same_pair x y u v)
  then Some (update (default ∅ (edge G u v)) a)
  else edge G x y.
Proof.
  intros HG.
  assert (graph_inv (touch_node (touch_node G u) v)) as HG1
    by by do 2 apply touch_node_inv.
  assert (∀ p q, edge (touch_node (touch_node G u) v) p q = edge G p q) as Hedge.
  { intros p q. rewrite touch_node_edge by by apply touch_node_inv.
    by apply touch_node_edge. }
  unfold add_edge. set (G1 := touch_node (touch_node G u) v) in *.
  rewrite edge_default, Hedge.
  set (dd := update (default ∅ (edge G u v)) a).
  unfold edge at 1; simpl. unfold same_pair.
  destruct (decide (x = v)) as [->|Hxv].
  - rewrite lookup_insert_eq; simpl.
    destruct (decide (y = u)) as [->|Hyu].
    + rewrite lookup_insert_eq. rewrite decide_True; [done|by right].
    + rewrite lookup_insert_ne by done.
      rewrite decide_False by (intros [[? ?]|[? ?]]; congruence).
      destruct (decide (u = v)) as [->|Huv].
      * rewrite lookup_insert_eq; simpl.
        rewrite lookup_insert_ne by done. rewrite edge_default. apply Hedge.
      * rewrite lookup_insert_ne by done. rewrite edge_default. apply Hedge.
  - rewrite lookup_insert_ne by done.
    destruct (decide (x = u)) as [->|Hxu].
    + rewrite lookup_insert_eq; simpl.
      destruct (decide (y = v)) as [->|Hyv].
      * rewrite lookup_insert_eq. rewrite decide_True; [done|by left].
      * rewrite lookup_insert_ne by done.
        rewrite decide_False by (intros [[? ?]|[? ?]]; congruence).
        rewrite edge_default. apply Hedge.
    + rewrite lookup_insert_ne by done.
      rewrite decide_False by (intros [[? ?]|[? ?]]; congruence).
      apply Hedge.
Qed.

(** [add_edge] leaves the data of the nodes that exist alone. *)
Lemma add_edge_node_get G u v a n d :
  pydict_get n (nodes G) = Some d →
  pydict_get n (nodes (add_edge G u v a)) = Some d.
Proof.
  intros Hn. unfold add_edge; simpl. by rewrite !touch_node_get, Hn.
Qed.

Lemma add_edge_nodes G u v a :
  u ∈ pydict_keys (nodes G) → v ∈ pydict_keys (nodes G) →
  nodes (add_edge G u v a) = nodes G.
Proof.
  intros Hu Hv. unfold add_edge; simpl.
  rewrite (touch_node_keys G u) by done. by rewrite touch_node_keys.
Qed.

(** One attribute dictionary per unordered pair of nodes. *)
Definition simple_graph (G : Graph) : Prop :=
  graph_inv G ∧ ∀ x y, edge G x y = edge G y x.

Lemma same_pair_swap x y u v : same_pair x y u v ↔ same_pair y x u v.
Proof. unfold same_pair. tauto. Qed.

Lemma empty_graph_simple : simple_graph empty_graph.
Proof. split; [apply empty_graph_inv|done]. Qed.

Lemma add_edge_simple G u v a : simple_graph G → simple_graph (add_edge G u v a).
Proof.
  intros [HG Hsym]. split; [by apply add_edge_inv|].
  intros x y. rewrite !edge_add_edge by done.
  destruct (decide (same_pair x y u v)) as [Hp|Hp].
  - rewrite decide_True; [done|by apply same_pair_swap].
  - rewrite decide_False; [apply Hsym|by rewrite same_pair_swap].
Qed.

Lemma add_node_get G n a m :
  pydict_get m (nodes (add_node G n a)) =
  if decide (n = m)
  then Some (match pydict_get n (nodes G) with
             | Some d => update d a
             | None => a
             end)
  else pydict_get m (nodes G).
Proof.
  unfold add_node. destruct (pydict_get n (nodes G)); simpl; apply pydict_get_set.
Qed.

Lemma add_node_keys G n a :
  pydict_keys (nodes (add_node G n a)) =
  if decide (n ∈ pydict_keys (nodes G)) then pydict_keys (nodes G)
  else pydict_keys (nodes G) ++ [n].
Proof.
  unfold add_node. destruct (pydict_get n (nodes G)); simpl; apply pydict_keys_set.
Qed.

Lemma add_node_inv G n a : graph_inv G → graph_inv (add_node G n a).
Proof.
  intros HG m. rewrite add_node_get. case_decide as Hm; [done|].
  intros Hget. unfold add_node.
  destruct (pydict_get n (nodes G)); simpl; [by apply HG|].
  rewrite lookup_insert_ne by done. by apply HG.
Qed.

Lemma add_node_edge G n a x y : graph_inv G → edge (add_node G n a) x y = edge G x y.
Proof.
  intros HG. unfold add_node.
  destruct (pydict_get n (nodes G)) eqn:Hn; [done|].
  unfold edge; simpl. destruct (decide (n = x)) as [->|Hne].
  - by rewrite lookup_insert_eq, (HG x Hn).
  - by rewrite lookup_insert_ne.
Qed.

Lemma add_node_simple G n a : simple_graph G → simple_graph (add_node G n a).
Proof.
  intros [HG Hsym]. split; [by apply add_node_inv|].
  intros x y. rewrite !add_node_edge by done. apply Hsym.
Qed.

(** ** The molecule graph assembly *)

(** The data [add_node] stores for the atoms of a list, each under its
    index. *)
Definition atom_nodes (names : gmap Z string) (atoms : list Atom) (G : Graph) : Prop :=
  ∀ i atom, atoms !! i = Some atom →
    pydict_get i (nodes G) =
      Some (atom_attrs (names !! SerialNumber (MonomerInfo atom)) atom).

(** Every entry of [residue_to_ca_atom] sends the residue number of an
    atom named CA to the index of that atom. *)
Definition ca_atoms (names : gmap Z string) (atoms : list Atom)
    (residue_to_ca_atom : list (Z * nat)) : Prop :=
  NoDup (pydict_keys residue_to_ca_atom) ∧
  ∀ r i, pydict_get r residue_to_ca_atom = Some i →
    ∃ atom, atoms !! i = Some atom ∧ ResidueNumber (MonomerInfo atom) = r ∧
            names !! SerialNumber (MonomerInfo atom) = Some "CA".

Lemma ca_atoms_lt names atoms r2ca r i :
  ca_atoms names atoms r2ca → pydict_get r r2ca = Some i → i < length atoms.
Proof.
  intros [_ H] Hget. destruct (H r i Hget) as (atom & Hat & _).
  by apply lookup_lt_Some in Hat.
Qed.

Lemma ca_atoms_inj names atoms r2ca r1 r2 i :
  ca_atoms names atoms r2ca →
  pydict_get r1 r2ca = Some i → pydict_get r2 r2ca = Some i → r1 = r2.
Proof.
  intros [_ H] H1 H2.
  destruct (H r1 i H1) as (a1 & Ha1 & <- & _).
  destruct (H r2 i H2) as (a2 & Ha2 & <- & _). congruence.
Qed.

Lemma add_atom_nodes_spec names atoms : ∀ pre G r2ca,
  pydict_keys (nodes G) = seq 0 (length pre) →
  simple_graph G → atom_nodes names pre G → ca_atoms names pre r2ca →
  let G' := (add_atom_nodes names atoms (length pre) G r2ca).1 in
  let r2ca' := (add_atom_nodes names atoms (length pre) G r2ca).2 in
  pydict_keys (nodes G') = seq 0 (length (pre ++ atoms)) ∧
  simple_graph G' ∧ atom_nodes names (pre ++ atoms) G' ∧
  ca_atoms names (pre ++ atoms) r2ca' ∧
  ∀ x y, edge G' x y = edge G x y.
Proof.
  induction atoms as [|atom atoms IH]; intros pre G r2ca Hkeys HG Hnodes Hca; simpl.
  { by rewrite app_nil_r. }
  assert (length pre ∉ pydict_keys (nodes G)) as Hfresh.
  { rewrite Hkeys, elem_of_seq. lia. }
  set (name := names !! SerialNumber (MonomerInfo atom)).
  set (G1 := add_node G (length pre) (atom_attrs name atom)).
  set (r1 := if decide (name = Some "CA")
             then pydict_set (ResidueNumber (MonomerInfo atom)) (length pre) r2ca
             else r2ca).
  specialize (IH (pre ++ [atom]) G1 r1).
  rewrite length_app, Nat.add_1_r in IH. rewrite <-(assoc_L (++)) in IH. cbn [app] in IH.
  destruct IH as (Hk & Hs & Hn & Hc & He).
  - unfold G1. rewrite add_node_keys, decide_False by done.
    by rewrite Hkeys, seq_S.
  - by apply add_node_simple.
  - intros i a Hi. unfold G1. rewrite add_node_get.
    apply lookup_snoc_Some in Hi as [[Hlt Hi]|[-> <-]].
    + rewrite decide_False by lia. by apply Hnodes.
    + rewrite decide_True by done.
      apply pydict_get_None in Hfresh. by rewrite Hfresh.
  - destruct Hca as [Hnd Hca]. unfold r1. case_decide as Hname.
    + split; [by apply pydict_set_NoDup|].
      intros r i. rewrite pydict_get_set. case_decide as Hr.
      * intros [= <-]. exists atom. by rewrite list_lookup_middle.
      * intros Hget. destruct (Hca r i Hget) as (a & Ha & ? & ?).
        exists a. split; [|done]. by apply lookup_app_l_Some.
    + split; [done|]. intros r i Hget.
      destruct (Hca r i Hget) as (a & Ha & ? & ?).
      exists a. split; [|done]. by apply lookup_app_l_Some.
  - split_and!; try done.
    intros x y. rewrite He. unfold G1. apply add_node_edge, HG.
Qed.

(** In an RDKit molecule the two ends of a bond are atoms of the
    molecule. *)
Definition bonds_in_range (mol : Mol) : Prop :=
  Forall (λ bond, BeginAtomIdx bond < length (Atoms mol) ∧
                  EndAtomIdx bond < length (Atoms mol)) (Bonds mol).

Lemma add_edge_simple' G u v a x y :
  simple_graph G →
  edge (add_edge G u v a) x y =
  if decide (same_pair x y u v)
  then Some (update (default ∅ (edge G x y)) a)
  else edge G x y.
Proof.
  intros [HG Hsym]. rewrite edge_add_edge by done.
  case_decide as Hp; [|done].
  destruct Hp as [[-> ->]|[-> ->]]; [done|]. by rewrite (Hsym u v).
Qed.

Lemma add_bond_edges_spec mol bonds : ∀ bond_idx G,
  simple_graph G →
  simple_graph (add_bond_edges mol bonds bond_idx G) ∧
  (∀ n d, pydict_get n (nodes G) = Some d →
          pydict_get n (nodes (add_bond_edges mol bonds bond_idx G)) = Some d) ∧
  (Forall (λ bond, BeginAtomIdx bond ∈ pydict_keys (nodes G) ∧
                   EndAtomIdx bond ∈ pydict_keys (nodes G)) bonds →
   nodes (add_bond_edges mol bonds bond_idx G) = nodes G).
Proof.
  induction bonds as [|bond bonds IH]; intros bond_idx G HG; simpl; [done|].
  set (G1 := add_edge G (BeginAtomIdx bond) (EndAtomIdx bond)
               (bond_attrs mol bond_idx bond)).
  destruct (IH (S bond_idx) G1) as (Hs & Hn & Hk); [by apply add_edge_simple|].
  split_and!; [done| |].
  - intros n d Hget. apply Hn. by apply add_edge_node_get.
  - intros [[Hb He] Hall]%Forall_cons.
    assert (nodes G1 = nodes G) as HG1 by by apply add_edge_nodes.
    rewrite Hk; [done|]. by rewrite HG1.
Qed.

Lemma assemble_spec names mol :
  let G1 := (assemble names mol).1 in
  let r2ca := (assemble names mol).2 in
  simple_graph G1 ∧ atom_nodes names (Atoms mol) G1 ∧
  ca_atoms names (Atoms mol) r2ca ∧
  (bonds_in_range mol → pydict_keys (nodes G1) = seq 0 (length (Atoms mol))).
Proof.
  unfold assemble.
  pose proof (add_atom_nodes_spec names (Atoms mol) [] empty_graph []) as H.
  simpl in H.
  destruct (add_atom_nodes names (Atoms mol) 0 empty_graph []) as [G0 r2ca] eqn:HG0.
  simpl in *.
  destruct H as (Hk & Hs & Hn & Hc & _).
  - done.
  - apply empty_graph_simple.
  - intros i a Hi. by rewrite lookup_nil in Hi.
  - split; [apply NoDup_nil_2|]. intros r i Hget. done.
  - destruct (add_bond_edges_spec mol (Bonds mol) 0 G0 Hs) as (Hs1 & Hn1 & Hk1).
    split_and!; [done| |done|].
    + intros i a Hi. apply Hn1. by apply Hn.
    + intros Hwf. rewrite Hk1; [done|].
      eapply Forall_impl; [apply Hwf|]. simpl. intros bond [? ?].
      rewrite Hk, !elem_of_seq. lia.
Qed.

(** ** Folds that act on one attribute dictionary *)

Section fold_facts.
Context {X E : Type} (g : X → E → E).

Lemma foldl_fixed (l : list X) (e : E) :
  (∀ b, b ∈ l → ∀ e, g b e = e) → foldl (λ e b, g b e) e l = e.
Proof.
  revert e. induction l as [|b l IH]; intros e H; simpl; [done|].
  rewrite H by left. apply IH. intros b' Hb'. apply H. by right.
Qed.

Lemma foldl_once (l : list X) (a : X) (e : E) :
  NoDup l → a ∈ l → (∀ b, b ∈ l → b ≠ a → ∀ e, g b e = e) →
  foldl (λ e b, g b e) e l = g a e.
Proof.
  revert e. induction l as [|b l IH]; intros e Hnd Ha H; simpl.
  { by apply elem_of_nil in Ha. }
  apply NoDup_cons in Hnd as [Hb Hnd].
  apply elem_of_cons in Ha as [->|Ha].
  - apply foldl_fixed. intros b' Hb'. apply H; [by right|]. by intros ->.
  - rewrite H; [|left|by intros ->]. apply IH; [done..|].
    intros b' Hb'. apply H. by right.
Qed.

Lemma foldl_twice (l1 l2 l3 : list X) (a b : X) (e : E) :
  (∀ c, c ∈ l1 ++ l2 ++ l3 → ∀ e, g c e = e) →
  foldl (λ e c, g c e) e (l1 ++ a :: l2 ++ b :: l3) = g b (g a e).
Proof.
  intros H. rewrite foldl_app; simpl. rewrite foldl_app; simpl.
  rewrite (foldl_fixed l1) by (intros c Hc; apply H; set_solver).
  rewrite (foldl_fixed l2) by (intros c Hc; apply H; set_solver).
  apply foldl_fixed. intros c Hc; apply H; set_solver.
Qed.

End fold_facts.

Lemma seq_split2 (a b m : nat) :
  a < b → b < m →
  seq 0 m = seq 0 a ++ a :: seq (S a) (b - S a) ++ b :: seq (S b) (m - S b).
Proof.
  intros Hab Hbm.
  replace m with (a + S ((b - S a) + S (m - S b))) at 1 by lia.
  rewrite seq_app. cbn [seq Nat.add]. do 2 f_equal.
  rewrite seq_app. cbn [seq]. do 2 f_equal; [lia|f_equal; lia].
Qed.

(** The attribute dictionary of a pair after a loop of graph updates is
    the fold of what each update does to that pair. *)
Lemma foldl_edge {X : Type} (step : Graph → X → Graph)
    (g : X → option attrs → option attrs) (I : Graph → Prop) (x y : nat)
    (l : list X) (G : Graph) :
  (∀ G a, a ∈ l → I G → I (step G a) ∧ edge (step G a) x y = g a (edge G x y)) →
  I G →
  I (foldl step G l) ∧
  edge (foldl step G l) x y = foldl (λ e a, g a e) (edge G x y) l.
Proof.
  revert G. induction l as [|a l IH]; intros G Hstep HG; simpl; [done|].
  destruct (Hstep G a) as [HI He]; [left|done|].
  rewrite <-He. apply IH; [|done]. intros G' b Hb. apply Hstep. by right.
Qed.

(** ** Edge writes *)

(** An optional [add_edge], and what it does to the attribute dictionary
    of the pair [x], [y]. *)
Definition write_edge (G : Graph) (w : option (nat * nat * attrs)) : Graph :=
  match w with
  | Some (u, v, a) => add_edge G u v a
  | None => G
  end.

Definition edge_write (x y : nat) (w : option (nat * nat * attrs))
    (e : option attrs) : option attrs :=
  match w with
  | Some (u, v, a) =>
      if decide (same_pair x y u v) then Some (update (default ∅ e) a) else e
  | None => e
  end.

Lemma write_edge_simple G w : simple_graph G → simple_graph (write_edge G w).
Proof. destruct w as [[[u v] a]|]; [apply add_edge_simple|done]. Qed.

Lemma write_edge_edge G w x y :
  simple_graph G → edge (write_edge G w) x y = edge_write x y w (edge G x y).
Proof. destruct w as [[[u v] a]|]; [apply add_edge_simple'|done]. Qed.

Lemma write_edge_nodes G w :
  (∀ u v a, w = Some (u, v, a) →
     u ∈ pydict_keys (nodes G) ∧ v ∈ pydict_keys (nodes G)) →
  nodes (write_edge G w) = nodes G.
Proof.
  destruct w as [[[u v] a]|]; [|done]. intros H.
  destruct (H u v a eq_refl). by apply add_edge_nodes.
Qed.

(** ** Backbone edges *)

Definition coords_stored (atoms : list Atom) (G : Graph) : Prop :=
  ∀ i atom, atoms !! i = Some atom → stored_coords G i = Ok (AtomPosition atom).

Lemma atom_nodes_coords names atoms G :
  atom_nodes names atoms G → coords_stored atoms G.
Proof.
  intros H i atom Hi. unfold stored_coords, node_data.
  by rewrite (H i atom Hi).
Qed.

Lemma atom_nodes_keys names atoms G i :
  atom_nodes names atoms G → i < length atoms → i ∈ pydict_keys (nodes G).
Proof.
  intros H [atom Hi]%lookup_lt_is_Some. apply pydict_get_is_Some.
  by rewrite (H i atom Hi).
Qed.

Lemma stored_coords_nodes G G' i :
  nodes G' = nodes G → stored_coords G' i = stored_coords G i.
Proof. unfold stored_coords, node_data. by intros ->. Qed.

(** The edge a backbone step adds, computed from the molecule. *)
Definition backbone_edge (atoms : list Atom) (residue_to_ca_atom : list (Z * nat))
    (item : Z * nat) : option (nat * nat * attrs) :=
  next_ca_idx ← pydict_get (item.1 + 1)%Z residue_to_ca_atom;
  atom1 ← atoms !! item.2;
  atom2 ← atoms !! next_ca_idx;
  Some (item.2, next_ca_idx,
        backbone_attrs (euclidean (AtomPosition atom1) (AtomPosition atom2))).

Lemma backbone_step_pure names atoms r2ca G item :
  ca_atoms names atoms r2ca → item ∈ r2ca → coords_stored atoms G →
  backbone_step r2ca G item = Ok (write_edge G (backbone_edge atoms r2ca item)).
Proof.
  intros Hca Hitem Hcoords. destruct item as [r u].
  unfold backbone_step, backbone_edge; simpl.
  assert (pydict_get r r2ca = Some u) as Hu
    by (apply pydict_elem_of_get; [apply Hca|done]).
  destruct (pydict_get (r + 1)%Z r2ca) as [v|] eqn:Hv; simpl; [|done].
  destruct Hca as [_ Hca].
  destruct (Hca _ _ Hu) as (a1 & Ha1 & _). destruct (Hca _ _ Hv) as (a2 & Ha2 & _).
  rewrite Ha1, Ha2; simpl. unfold calculate_distance.
  by rewrite (Hcoords _ _ Ha1), (Hcoords _ _ Ha2).
Qed.

Lemma backbone_edge_keys names atoms r2ca G item u v a :
  ca_atoms names atoms r2ca → atom_nodes names atoms G →
  backbone_edge atoms r2ca item = Some (u, v, a) →
  u ∈ pydict_keys (nodes G) ∧ v ∈ pydict_keys (nodes G).
Proof.
  intros Hca Hnodes. unfold backbone_edge.
  destruct (pydict_get _ r2ca) as [next|] eqn:Hnext; simpl; [|done].
  destruct (atoms !! item.2) as [a1|] eqn:Ha1; simpl; [|done].
  destruct (atoms !! next) as [a2|] eqn:Ha2; simpl; [|done].
  intros [= <- <- <-].
  split; (eapply atom_nodes_keys; [done|by eapply lookup_lt_Some]).
Qed.

Lemma add_backbone_edges_spec names atoms r2ca G :
  ca_atoms names atoms r2ca → atom_nodes names atoms G → simple_graph G →
  let G2 := foldl (λ G item, write_edge G (backbone_edge atoms r2ca item)) G r2ca in
  add_backbone_edges r2ca G = Ok G2 ∧ simple_graph G2 ∧ nodes G2 = nodes G ∧
  ∀ x y, edge G2 x y =
         foldl (λ e item, edge_write x y (backbone_edge atoms r2ca item) e)
               (edge G x y) r2ca.
Proof.
  intros Hca Hnodes HG G2.
  set (I := λ G', simple_graph G' ∧ nodes G' = nodes G).
  assert (∀ G' item, I G' → I (write_edge G' (backbone_edge atoms r2ca item)))
    as Hstep.
  { intros G' item [Hs Hn]. split; [by apply write_edge_simple|].
    rewrite write_edge_nodes; [done|]. intros u v a Hw. rewrite Hn.
    by eapply backbone_edge_keys. }
  destruct (for_each_pure (backbone_step r2ca)
              (λ G item, write_edge G (backbone_edge atoms r2ca item))
              I r2ca G) as [Hrun [HG2 HnG2]].
  { by split. }
  { intros G' item Hitem HI. split; [|by apply Hstep].
    eapply backbone_step_pure; [done..|].
    intros i atom Hi. destruct HI as [_ Hn].
    rewrite (stored_coords_nodes G G') by done.
    by eapply atom_nodes_coords. }
  split_and!; [done..|].
  intros x y.
  eapply (foldl_edge _ (λ item, edge_write x y (backbone_edge atoms r2ca item)) I).
  - intros G' item _ HI. split; [by apply Hstep|].
    apply write_edge_edge, HI.
  - by split.
Qed.

Lemma pydict_NoDup {K V : Type} (d : list (K * V)) :
  NoDup (pydict_keys d) → NoDup d.
Proof. apply NoDup_fmap_1. Qed.

(** Whether the backbone step of [item] writes the pair [x], [y]. *)
Definition backbone_hits (atoms : list Atom) (r2ca : list (Z * nat)) (x y : nat)
    (item : Z * nat) : Prop :=
  match backbone_edge atoms r2ca item with
  | Some (u, v, _) => same_pair x y u v
  | None => False
  end.

#[local] Instance backbone_hits_dec atoms r2ca x y item :
  Decision (backbone_hits atoms r2ca x y item).
Proof.
  unfold backbone_hits.
  destruct (backbone_edge atoms r2ca item) as [[[u v] a]|]; apply _.
Defined.

Lemma backbone_miss atoms r2ca x y item e :
  ¬ backbone_hits atoms r2ca x y item →
  edge_write x y (backbone_edge atoms r2ca item) e = e.
Proof.
  unfold backbone_hits, edge_write.
  destruct (backbone_edge atoms r2ca item) as [[[u v] a]|]; [|done].
  intros Hmiss. by rewrite decide_False.
Qed.

Lemma backbone_hits_inv names atoms r2ca x y item :
  ca_atoms names atoms r2ca → item ∈ r2ca → backbone_hits atoms r2ca x y item →
  ∃ v, pydict_get item.1 r2ca = Some item.2 ∧
       pydict_get (item.1 + 1)%Z r2ca = Some v ∧ same_pair x y item.2 v.
Proof.
  intros Hca Hitem. unfold backbone_hits, backbone_edge.
  destruct (pydict_get (item.1 + 1)%Z r2ca) as [v|] eqn:Hv; simpl; [|done].
  destruct (atoms !! item.2) as [a1|]; simpl; [|done].
  destruct (atoms !! v) as [a2|]; simpl; [|done].
  intros Hp. exists v. split_and!; [|done..].
  destruct item as [r u]. apply pydict_elem_of_get; [apply Hca|done].
Qed.

(** C7. After the backbone-linking stage the representative atoms of two
    consecutive residue numbers r and r+1 that both have one are joined
    by one edge, the same dictionary in both directions, with bond_idx 0,
    bond_order 0 and as bond_length the norm of the difference, taken
    coordinate by coordinate, of the points stored as atom_coords on the
    two nodes (the positions of the two atoms); what else the pair's
    edge carried is kept; and a pair of nodes whose edge the stage
    created or changed is such a pair of consecutive residues. *)
Theorem backbone_edge_correct (names : gmap Z string) (mol : Mol) :
  let G1 := (assemble names mol).1 in
  let r2ca := (assemble names mol).2 in
  ∃ G2, add_backbone_edges r2ca G1 = Ok G2 ∧
    simple_graph G2 ∧ nodes G2 = nodes G1 ∧
    (∀ r u v,
       pydict_get r r2ca = Some u → pydict_get (r + 1)%Z r2ca = Some v →
       ∃ atom_u atom_v data_u data_v pu pv e,
         u ≠ v ∧
         Atoms mol !! u = Some atom_u ∧ Atoms mol !! v = Some atom_v ∧
         pu = AtomPosition atom_u ∧ pv = AtomPosition atom_v ∧
         pydict_get u (nodes G1) = Some data_u ∧
         data_u !! "atom_coords" = Some (PPoint pu) ∧
         pydict_get v (nodes G1) = Some data_v ∧
         data_v !! "atom_coords" = Some (PPoint pv) ∧
         edge G2 u v = Some e ∧ edge G2 v u = Some e ∧
         e !! "bond_idx" = Some (PInt 0) ∧ e !! "bond_order" = Some (PInt 0) ∧
         e !! "bond_length" =
           Some (PFloat (linalg_norm [float_sub (px pu) (px pv);
                                      float_sub (py pu) (py pv);
                                      float_sub (pz pu) (pz pv)])) ∧
         ∀ key, key ≠ "bond_idx" → key ≠ "bond_order" → key ≠ "bond_length" →
           e !! key = default ∅ (edge G1 u v) !! key) ∧
    (∀ x y, edge G2 x y ≠ edge G1 x y →
       ∃ r u v, pydict_get r r2ca = Some u ∧ pydict_get (r + 1)%Z r2ca = Some v ∧
                same_pair x y u v).
Proof.
  intros G1 r2ca.
  destruct (assemble_spec names mol) as (HG1 & Hnodes & Hca & _).
  fold G1 r2ca in HG1, Hnodes, Hca.
  destruct (add_backbone_edges_spec names (Atoms mol) r2ca G1 Hca Hnodes HG1)
    as (Hrun & HG2 & Hn & Hedge).
  eexists. split; [exact Hrun|]. split; [done|]. split; [done|]. split.
  - intros r u v Hu Hv.
    destruct Hca as [Hnd Hat].
    destruct (Hat _ _ Hu) as (a1 & Ha1 & _). destruct (Hat _ _ Hv) as (a2 & Ha2 & _).
    assert (u ≠ v) as Huv.
    { intros ->. pose proof (ca_atoms_inj _ _ _ _ _ _ (conj Hnd Hat) Hu Hv). lia. }
    assert (edge (foldl (λ G item, write_edge G (backbone_edge (Atoms mol) r2ca item))
                        G1 r2ca) u v
            = Some (update (default ∅ (edge G1 u v))
                      (backbone_attrs (euclidean (AtomPosition a1) (AtomPosition a2)))))
      as Huv_edge.
    { rewrite Hedge.
      rewrite (foldl_once (λ item, edge_write u v (backbone_edge (Atoms mol) r2ca item))
                 r2ca (r, u)).
      - unfold backbone_edge; simpl. rewrite Hv; simpl. rewrite Ha1, Ha2; simpl.
        rewrite decide_True; [done|by left].
      - by apply pydict_NoDup.
      - by apply pydict_get_elem_of.
      - intros item Hitem Hne e. apply backbone_miss. intros Hhit.
        destruct (backbone_hits_inv names _ _ _ _ _ (conj Hnd Hat) Hitem Hhit)
          as (v' & Hi1 & Hi2 & [[Hp1 Hp2]|[Hp1 Hp2]]).
        + apply Hne. destruct item as [r' u']; simpl in *. subst u'.
          by rewrite (ca_atoms_inj _ _ _ _ _ _ (conj Hnd Hat) Hi1 Hu).
        + destruct item as [r' u']; simpl in *. subst.
          pose proof (ca_atoms_inj _ _ _ _ _ _ (conj Hnd Hat) Hi1 Hv).
          pose proof (ca_atoms_inj _ _ _ _ _ _ (conj Hnd Hat) Hi2 Hu). lia. }
    assert (∀ name atom, atom_attrs name atom !! "atom_coords"
                         = Some (PPoint (AtomPosition atom))) as Hcoords.
    { intros name atom. unfold atom_attrs. by simplify_map_eq. }
    exists a1, a2. eexists _, _. exists (AtomPosition a1), (AtomPosition a2). eexists.
    split; [done|]. split; [done|]. split; [done|]. split; [done|]. split; [done|].
    split; [exact (Hnodes u a1 Ha1)|]. split; [apply Hcoords|].
    split; [exact (Hnodes v a2 Ha2)|]. split; [apply Hcoords|].
    split; [exact Huv_edge|].
    split; [by destruct HG2 as [_ <-]|].
    unfold update, backbone_attrs, euclidean. split_and!.
    + apply lookup_union_Some_l. done.
    + apply lookup_union_Some_l. done.
    + apply lookup_union_Some_l. done.
    + intros key H1 H2 H3. apply lookup_union_r. by simplify_map_eq.
  - intros x y Hchanged.
    destruct (decide (Exists (backbone_hits (Atoms mol) r2ca x y) r2ca)) as [Hex|Hnex].
    + apply Exists_exists in Hex as (item & Hitem & Hhit).
      destruct (backbone_hits_inv names _ _ _ _ _ Hca Hitem Hhit) as (v & ? & ? & ?).
      by exists item.1, item.2, v.
    + exfalso. apply Hchanged. rewrite Hedge. apply foldl_fixed.
      intros item Hitem e. apply backbone_miss. intros Hhit.
      apply Hnex, Exists_exists. by exists item.
Qed.

(** ** pLDDT *)

Lemma set_node_attr_spec G n key value d :
  pydict_get n (nodes G) = Some d →
  ∃ G', set_node_attr G n key value = Ok G' ∧ adj G' = adj G ∧
    pydict_keys (nodes G') = pydict_keys (nodes G) ∧
    ∀ m, pydict_get m (nodes G') =
         if decide (n = m) then Some (<[key := value]> d) else pydict_get m (nodes G).
Proof.
  intros Hd. unfold set_node_attr, node_data. rewrite Hd; simpl.
  eexists. split; [done|]. simpl. split; [done|]. split.
  - rewrite pydict_keys_set, decide_True; [done|].
    apply pydict_get_is_Some. by rewrite Hd.
  - intros m. apply pydict_get_set.
Qed.

(** The confidence value a node gets. *)
Definition plddt_value (plddt : gmap Z float) (atom : Atom) : pyval :=
  from_option PFloat PNone (plddt !! ResidueNumber (MonomerInfo atom)).

Lemma add_plddt_spec plddt atoms : ∀ atom_idx G,
  (∀ i, i < length atoms → atom_idx + i ∈ pydict_keys (nodes G)) →
  ∃ G', add_plddt plddt atoms atom_idx G = Ok G' ∧ adj G' = adj G ∧
    pydict_keys (nodes G') = pydict_keys (nodes G) ∧
    (∀ i atom, atoms !! i = Some atom →
       pydict_get (atom_idx + i) (nodes G') =
       (λ d, <["plddt" := plddt_value plddt atom]> d)
         <$> pydict_get (atom_idx + i) (nodes G)) ∧
    (∀ m, m < atom_idx ∨ atom_idx + length atoms ≤ m →
       pydict_get m (nodes G') = pydict_get m (nodes G)).
Proof.
  induction atoms as [|atom atoms IH]; intros atom_idx G Hkeys; simpl.
  { exists G. by split_and!. }
  assert (is_Some (pydict_get atom_idx (nodes G))) as [d Hd].
  { apply pydict_get_is_Some. rewrite <-(Nat.add_0_r atom_idx).
    apply Hkeys. simpl. lia. }
  destruct (set_node_attr_spec G atom_idx "plddt" (plddt_value plddt atom) d Hd)
    as (G1 & Hset & Hadj1 & Hkeys1 & Hget1).
  unfold plddt_value in Hset. rewrite Hset; simpl.
  destruct (IH (S atom_idx) G1) as (G' & Hrun & Hadj & Hk & Hin & Hout).
  { intros i Hi. rewrite Hkeys1.
    replace (S atom_idx + i) with (atom_idx + S i) by lia.
    apply Hkeys. simpl. lia. }
  exists G'. split; [done|]. split; [congruence|]. split; [congruence|]. split.
  - intros [|i] a Hi; simpl in Hi.
    + injection Hi as <-. rewrite Hout by lia.
      rewrite Nat.add_0_r, Hget1, decide_True, Hd; done.
    + replace (atom_idx + S i) with (S atom_idx + i) by lia.
      rewrite (Hin i a Hi), Hget1, decide_False; [done|lia].
  - intros m Hm. rewrite Hout by (simpl in Hm; lia).
    rewrite Hget1, decide_False; [done|simpl in Hm; lia].
Qed.

(** The residue whose confidence the mapping keeps for a residue number:
    the last one with that number in file order. *)
Definition last_residue (r : Z) (residues : list PDBResidue) : option PDBResidue :=
  last (filter (λ residue, resseq residue = r) residues).

Definition has_ca (residue : PDBResidue) : Prop :=
  ∃ ca, residue_getitem residue "CA" = Ok ca.

Lemma plddt_loop_spec residues : ∀ d,
  Forall has_ca residues →
  ∃ d', for_each plddt_step residues d = Ok d' ∧
    ∀ r, d' !! r =
         match last_residue r residues with
         | Some residue =>
             match residue_getitem residue "CA" with
             | Ok ca => Some (bfactor ca)
             | Raise _ => None
             end
         | None => d !! r
         end.
Proof.
  induction residues as [|residue residues IH]; intros d Hall; simpl.
  { by exists d. }
  apply Forall_cons in Hall as [[ca Hca] Hall].
  assert (plddt_step d residue = Ok (<[resseq residue := bfactor ca]> d)) as ->
    by (unfold plddt_step; by rewrite Hca).
  simpl.
  destruct (IH (<[resseq residue := bfactor ca]> d) Hall) as (d' & Hrun & Hd').
  exists d'. split; [done|]. intros r. rewrite Hd'. unfold last_residue.
  rewrite filter_cons. case_decide as Hr.
  - rewrite last_cons.
    destruct (last (filter _ residues)) as [res'|]; [done|].
    subst r. by rewrite lookup_insert_eq, Hca.
  - destruct (last (filter _ residues)) as [res'|]; [done|].
    by rewrite lookup_insert_ne.
Qed.

(** X23. When every residue of the structure has a CA atom, the
    confidence stage completes; the mapping sends a residue number to the
    B-factor of the CA atom of the (last) residue with that number; every
    atom's node gets as plddt the mapping's value for the atom's residue
    number, None when the number is not a key; so two atoms with the same
    residue number get the same value. *)
Theorem confidence_broadcast (structure : PDBStructure) (mol : Mol) (G : Graph) :
  (∀ i, i < length (Atoms mol) → i ∈ pydict_keys (nodes G)) →
  Forall has_ca (structure_residues structure) →
  ∃ plddt G3,
    plddt_dict structure = Ok plddt ∧ add_plddt plddt (Atoms mol) 0 G = Ok G3 ∧
    (∀ r, plddt !! r =
          residue ← last_residue r (structure_residues structure);
          match residue_getitem residue "CA" with
          | Ok ca => Some (bfactor ca)
          | Raise _ => None
          end) ∧
    (∀ i atom, Atoms mol !! i = Some atom →
       ∃ data, pydict_get i (nodes G) = Some data ∧
         pydict_get i (nodes G3) =
           Some (<["plddt" := from_option PFloat PNone
                                (plddt !! ResidueNumber (MonomerInfo atom))]> data)) ∧
    (∀ i j atom_i atom_j data_i data_j,
       Atoms mol !! i = Some atom_i → Atoms mol !! j = Some atom_j →
       ResidueNumber (MonomerInfo atom_i) = ResidueNumber (MonomerInfo atom_j) →
       pydict_get i (nodes G3) = Some data_i → pydict_get j (nodes G3) = Some data_j →
       data_i !! "plddt" = data_j !! "plddt").
Proof.
  intros Hkeys Hca.
  destruct (plddt_loop_spec (structure_residues structure) ∅ Hca) as (plddt & Hdict & Hmap).
  destruct (add_plddt_spec plddt (Atoms mol) 0 G Hkeys) as (G3 & Hrun & _ & _ & Hin & _).
  assert (∀ i atom, Atoms mol !! i = Some atom →
            ∃ data, pydict_get i (nodes G) = Some data ∧
              pydict_get i (nodes G3) = Some (<["plddt" := plddt_value plddt atom]> data))
    as Hnode.
  { intros i atom Hi.
    assert (is_Some (pydict_get i (nodes G))) as [data Hdata].
    { apply pydict_get_is_Some, Hkeys. by eapply lookup_lt_Some. }
    exists data. split; [done|].
    specialize (Hin i atom Hi). simpl in Hin. by rewrite Hin, Hdata. }
  exists plddt, G3. split; [done|]. split; [done|]. split; [|split].
  - intros r. rewrite Hmap.
    by destruct (last_residue r (structure_residues structure)).
  - exact Hnode.
  - intros i j ai aj di dj Hi Hj Hr Hdi Hdj.
    destruct (Hnode i ai Hi) as (di0 & _ & Hi3).
    destruct (Hnode j aj Hj) as (dj0 & _ & Hj3).
    rewrite Hdi in Hi3. rewrite Hdj in Hj3.
    injection Hi3 as ->. injection Hj3 as ->.
    rewrite !lookup_insert_eq. unfold plddt_value. by rewrite Hr.
Qed.

(** ** PAE edges *)

(** Every atom index is a node. *)
Definition atom_keys (atoms : list Atom) (G : Graph) : Prop :=
  ∀ i, i < length atoms → i ∈ pydict_keys (nodes G).

(** [pae_matrix] is a list of [M] lists of [M] values, and [entry i j] is
    [pae_matrix[i][j]]. *)
Definition square_matrix (M : nat) (pae_matrix : pyval) (entry : nat → nat → pyval)
  : Prop :=
  ∃ rows, pae_matrix = PList rows ∧ length rows = M ∧
    ∀ i, i < M → ∃ row, rows !! i = Some (PList row) ∧ length row = M ∧
      ∀ j, j < M → row !! j = Some (entry i j).

(** The edge the loop body adds for the indices [i], [j]. *)
Definition pae_edge (r2ca : list (Z * nat)) (entry : nat → nat → pyval) (i j : nat)
  : option (nat * nat * attrs) :=
  if decide (i ≠ j) then
    ca_atom_i ← pydict_get (Z.of_nat i + 1)%Z r2ca;
    ca_atom_j ← pydict_get (Z.of_nat j + 1)%Z r2ca;
    Some (ca_atom_i, ca_atom_j, {[ "pae" := entry i j ]})
  else None.

Definition pae_row_writes (r2ca : list (Z * nat)) (entry : nat → nat → pyval)
    (M : nat) (G : Graph) (i : nat) : Graph :=
  foldl (λ G j, write_edge G (pae_edge r2ca entry i j)) G (seq 0 M).

Lemma pae_step_pure r2ca entry row i j G :
  row !! j = Some (entry i j) →
  pae_step r2ca (PList row) i G j = Ok (write_edge G (pae_edge r2ca entry i j)).
Proof.
  intros Hj. unfold pae_step, pae_edge. case_decide; [|done].
  simpl. rewrite Hj; simpl.
  destruct (pydict_get (Z.of_nat i + 1)%Z r2ca) as [u|]; simpl; [|done].
  by destruct (pydict_get (Z.of_nat j + 1)%Z r2ca) as [v|].
Qed.

Lemma pae_edge_keys names atoms r2ca entry G i j u v a :
  ca_atoms names atoms r2ca → atom_keys atoms G →
  pae_edge r2ca entry i j = Some (u, v, a) →
  u ∈ pydict_keys (nodes G) ∧ v ∈ pydict_keys (nodes G).
Proof.
  intros Hca Hnodes. unfold pae_edge. case_decide; [|done].
  destruct (pydict_get (Z.of_nat i + 1)%Z r2ca) as [u'|] eqn:Hu; simpl; [|done].
  destruct (pydict_get (Z.of_nat j + 1)%Z r2ca) as [v'|] eqn:Hv; simpl; [|done].
  intros [= <- <- <-].
  split; (apply Hnodes; by eapply ca_atoms_lt).
Qed.

(** The nodes are those of [G0] and carry the atoms' data. *)
Definition pae_inv (G0 : Graph) (G : Graph) : Prop :=
  simple_graph G ∧ nodes G = nodes G0.

Lemma pae_write_inv names atoms r2ca entry G0 G i j :
  ca_atoms names atoms r2ca → atom_keys atoms G0 →
  pae_inv G0 G → pae_inv G0 (write_edge G (pae_edge r2ca entry i j)).
Proof.
  intros Hca Hnodes [Hs Hn]. split; [by apply write_edge_simple|].
  rewrite write_edge_nodes; [done|]. intros u v a Hw. rewrite Hn.
  by eapply pae_edge_keys.
Qed.

Lemma pae_row_writes_inv names atoms r2ca entry M G0 G i :
  ca_atoms names atoms r2ca → atom_keys atoms G0 →
  pae_inv G0 G → pae_inv G0 (pae_row_writes r2ca entry M G i).
Proof.
  intros Hca Hnodes. unfold pae_row_writes. revert G.
  induction (seq 0 M) as [|j l IH]; intros G HG; simpl; [done|].
  apply IH. by eapply pae_write_inv.
Qed.

Lemma pae_row_pure names atoms r2ca entry M pae_matrix G0 G i :
  ca_atoms names atoms r2ca → atom_keys atoms G0 →
  square_matrix M pae_matrix entry → i < M → pae_inv G0 G →
  pae_row r2ca pae_matrix G i = Ok (pae_row_writes r2ca entry M G i).
Proof.
  intros Hca Hnodes (rows & -> & Hlen & Hrows) Hi HG.
  destruct (Hrows i Hi) as (row & Hrow & Hrowlen & Hentry).
  unfold pae_row; simpl. rewrite Hrow; simpl. rewrite Hrowlen.
  apply (for_each_pure (pae_step r2ca (PList row) i)
           (λ G j, write_edge G (pae_edge r2ca entry i j)) (pae_inv G0)); [done|].
  intros G' j Hj HG'. split; [|by eapply pae_write_inv].
  apply pae_step_pure, Hentry. apply elem_of_seq in Hj. lia.
Qed.

Lemma add_pae_edges_spec names atoms r2ca entry M pae_matrix G :
  ca_atoms names atoms r2ca → atom_keys atoms G → simple_graph G →
  square_matrix M pae_matrix entry →
  let G' := foldl (pae_row_writes r2ca entry M) G (seq 0 M) in
  add_pae_edges r2ca pae_matrix G = Ok G' ∧ simple_graph G' ∧ nodes G' = nodes G ∧
  ∀ x y, edge G' x y =
         foldl (λ e i, foldl (λ e j, edge_write x y (pae_edge r2ca entry i j) e)
                             e (seq 0 M))
               (edge G x y) (seq 0 M).
Proof.
  intros Hca Hnodes HG Hsq G'.
  assert (pae_inv G G) as HI by by split.
  destruct (for_each_pure (pae_row r2ca pae_matrix) (pae_row_writes r2ca entry M)
              (pae_inv G) (seq 0 M) G HI) as [Hrun [HG' Hn]].
  { intros G1 i Hi HG1. split; [|by eapply pae_row_writes_inv].
    eapply pae_row_pure; [done..| |done]. apply elem_of_seq in Hi. lia. }
  split.
  { unfold add_pae_edges. destruct Hsq as (rows & -> & Hlen & _).
    simpl. by rewrite Hlen. }
  split; [done|]. split; [done|]. intros x y.
  eapply (foldl_edge _ (λ i e, foldl (λ e j, edge_write x y (pae_edge r2ca entry i j) e)
                                     e (seq 0 M)) (pae_inv G)); [|done].
  intros G1 i _ HG1. split; [by eapply pae_row_writes_inv|].
  unfold pae_row_writes.
  eapply (foldl_edge _ (λ j, edge_write x y (pae_edge r2ca entry i j)) (pae_inv G));
    [|done].
  intros G2 j _ HG2. split; [by eapply pae_write_inv|].
  apply write_edge_edge, HG2.
Qed.

Section pae_pair.
Context (names : gmap Z string) (atoms : list Atom) (r2ca : list (Z * nat)).
Context (entry : nat → nat → pyval) (M : nat).
Context (Hca : ca_atoms names atoms r2ca).
Context (a b u v : nat).
Context (Hu : pydict_get (Z.of_nat a + 1)%Z r2ca = Some u).
Context (Hv : pydict_get (Z.of_nat b + 1)%Z r2ca = Some v).

Lemma pae_miss i j e :
  ¬ (i = a ∧ j = b) → ¬ (i = b ∧ j = a) →
  edge_write u v (pae_edge r2ca entry i j) e = e.
Proof.
  intros Hab Hba. unfold pae_edge, edge_write. case_decide as Hij; [|done].
  destruct (pydict_get (Z.of_nat i + 1)%Z r2ca) as [u'|] eqn:Hu'; simpl; [|done].
  destruct (pydict_get (Z.of_nat j + 1)%Z r2ca) as [v'|] eqn:Hv'; simpl; [|done].
  rewrite decide_False; [done|].
  intros [[-> ->]|[-> ->]].
  - apply Hab.
    pose proof (ca_atoms_inj _ _ _ _ _ _ Hca Hu Hu').
    pose proof (ca_atoms_inj _ _ _ _ _ _ Hca Hv Hv'). lia.
  - apply Hba.
    pose proof (ca_atoms_inj _ _ _ _ _ _ Hca Hu Hv').
    pose proof (ca_atoms_inj _ _ _ _ _ _ Hca Hv Hu'). lia.
Qed.

Lemma pae_hit_ab e :
  a ≠ b →
  edge_write u v (pae_edge r2ca entry a b) e =
  Some (<["pae" := entry a b]> (default ∅ e)).
Proof.
  intros Hab. unfold pae_edge, edge_write. rewrite decide_True by done.
  rewrite Hu, Hv; simpl. rewrite decide_True by by left.
  unfold update. by rewrite insert_union_singleton_l.
Qed.

Lemma pae_hit_ba e :
  a ≠ b →
  edge_write u v (pae_edge r2ca entry b a) e =
  Some (<["pae" := entry b a]> (default ∅ e)).
Proof.
  intros Hab. unfold pae_edge, edge_write. rewrite decide_True by done.
  rewrite Hu, Hv; simpl. rewrite decide_True by by right.
  unfold update. by rewrite insert_union_singleton_l.
Qed.

(** What one row of the matrix does to the pair. *)
Definition pae_row_edge (i : nat) (e : option attrs) : option attrs :=
  foldl (λ e j, edge_write u v (pae_edge r2ca entry i j) e) e (seq 0 M).

Lemma pae_row_edge_other i e : i ≠ a → i ≠ b → pae_row_edge i e = e.
Proof.
  intros Hia Hib. unfold pae_row_edge.
  apply (foldl_fixed (λ j, edge_write u v (pae_edge r2ca entry i j))).
  intros j _ e'. apply pae_miss; lia.
Qed.

Lemma pae_row_edge_a e :
  a ≠ b → b < M →
  pae_row_edge a e = Some (<["pae" := entry a b]> (default ∅ e)).
Proof.
  intros Hab Hb. unfold pae_row_edge.
  rewrite (foldl_once (λ j, edge_write u v (pae_edge r2ca entry a j)) _ b).
  - by apply pae_hit_ab.
  - apply NoDup_seq.
  - apply elem_of_seq. lia.
  - intros j _ Hj e'. apply pae_miss; lia.
Qed.

Lemma pae_row_edge_b e :
  a ≠ b → a < M →
  pae_row_edge b e = Some (<["pae" := entry b a]> (default ∅ e)).
Proof.
  intros Hab Ha. unfold pae_row_edge.
  rewrite (foldl_once (λ j, edge_write u v (pae_edge r2ca entry b j)) _ a).
  - by apply pae_hit_ba.
  - apply NoDup_seq.
  - apply elem_of_seq. lia.
  - intros j _ Hj e'. apply pae_miss; lia.
Qed.

(** Row [a] is visited before row [b], so the value written in row [b]
    stays. *)
Lemma pae_rows_edge e :
  a < b → b < M →
  foldl (λ e i, pae_row_edge i e) e (seq 0 M) =
  Some (<["pae" := entry b a]> (default ∅ e)).
Proof.
  intros Hab Hb. rewrite (seq_split2 a b M) by done.
  rewrite (foldl_twice (λ i, pae_row_edge i)).
  - rewrite pae_row_edge_a, pae_row_edge_b by lia. simpl.
    by rewrite insert_insert_eq.
  - intros i Hi e'. apply pae_row_edge_other.
    + intros ->. rewrite !elem_of_app, !elem_of_seq in Hi. lia.
    + intros ->. rewrite !elem_of_app, !elem_of_seq in Hi. lia.
Qed.

End pae_pair.

(** No step of the loop writes an edge from a node to itself. *)
Lemma pae_no_loop names atoms r2ca entry i j x e :
  ca_atoms names atoms r2ca →
  edge_write x x (pae_edge r2ca entry i j) e = e.
Proof.
  intros Hca. unfold pae_edge, edge_write. case_decide as Hij; [|done].
  destruct (pydict_get (Z.of_nat i + 1)%Z r2ca) as [u'|] eqn:Hu'; simpl; [|done].
  destruct (pydict_get (Z.of_nat j + 1)%Z r2ca) as [v'|] eqn:Hv'; simpl; [|done].
  rewrite decide_False; [done|].
  intros [[-> ->]|[-> ->]];
    pose proof (ca_atoms_inj _ _ _ _ _ _ Hca Hu' Hv'); lia.
Qed.

Lemma simple_graph_same G G' :
  adj G' = adj G → pydict_keys (nodes G') = pydict_keys (nodes G) →
  simple_graph G → simple_graph G'.
Proof.
  intros Hadj Hkeys [HG Hsym]. split.
  - intros n Hn. rewrite Hadj. apply HG.
    apply pydict_get_None. rewrite <-Hkeys. by apply pydict_get_None.
  - intros x y. unfold edge. rewrite Hadj. apply Hsym.
Qed.

(** What lines 25-106 establish for the graph handed to the later
    stages. *)
Lemma before_pae_spec names mol plddt G2 G3 :
  add_backbone_edges (assemble names mol).2 (assemble names mol).1 = Ok G2 →
  add_plddt plddt (Atoms mol) 0 G2 = Ok G3 →
  simple_graph G2 ∧ simple_graph G3 ∧
  ca_atoms names (Atoms mol) (assemble names mol).2 ∧
  atom_keys (Atoms mol) G3 ∧
  adj G3 = adj G2 ∧
  pydict_keys (nodes G3) = pydict_keys (nodes (assemble names mol).1) ∧
  (∀ i atom, Atoms mol !! i = Some atom →
     pydict_get i (nodes G3) =
       Some (<["plddt" := plddt_value plddt atom]>
               (atom_attrs (names !! SerialNumber (MonomerInfo atom)) atom))).
Proof.
  intros Hbb Hpl.
  destruct (assemble_spec names mol) as (HG1 & Hnodes & Hca & _).
  destruct (add_backbone_edges_spec names (Atoms mol) _ _ Hca Hnodes HG1)
    as (Hbb' & HG2 & Hn2 & _).
  rewrite Hbb in Hbb'. injection Hbb' as Heq. rewrite <-Heq in HG2, Hn2.
  assert (atom_keys (Atoms mol) G2) as Hk2.
  { intros i Hi. rewrite Hn2. by eapply atom_nodes_keys. }
  destruct (add_plddt_spec plddt (Atoms mol) 0 G2 Hk2)
    as (G3' & Hpl' & Hadj & Hkeys & Hin & _).
  rewrite Hpl in Hpl'. injection Hpl' as <-.
  split; [done|]. split; [by eapply simple_graph_same|]. split; [done|].
  split; [intros i Hi; rewrite Hkeys; by apply Hk2|].
  split; [done|]. split; [by rewrite Hkeys, Hn2|].
  intros i atom Hi. specialize (Hin i atom Hi). simpl in Hin.
  by rewrite Hin, Hn2, (Hnodes i atom Hi).
Qed.

(** The DSSP and coordinate stages rewrite node data only. *)
Lemma for_node_data_fst body l l' :
  for_node_data body l = Ok l' → l'.*1 = l.*1.
Proof.
  revert l'. induction l as [|[node data] l IH]; intros l'; simpl.
  - by intros [= <-].
  - destruct (body data) as [data'|]; simpl; [|done].
    destruct (for_node_data body l) as [l''|]; simpl; [|done].
    intros [= <-]. simpl. f_equal. by apply IH.
Qed.

Lemma dssp_block_simple get_st dssp G G' :
  dssp_block get_st dssp G = Ok G' → simple_graph G → simple_graph G'.
Proof.
  unfold dssp_block. destruct (run_dssp get_st dssp) as [dssp_data|]; simpl; [|done].
  destruct (for_node_data _ (nodes G)) as [nodes'|] eqn:Hloop; simpl; [|done].
  intros [= <-]. apply simple_graph_same; [done|]. simpl.
  by eapply for_node_data_fst.
Qed.

Lemma coords_to_str_simple G G' :
  coords_to_str G = Ok G' → simple_graph G → simple_graph G'.
Proof.
  unfold coords_to_str.
  destruct (for_node_data _ (nodes G)) as [nodes'|] eqn:Hloop; simpl; [|done].
  intros [= <-]. apply simple_graph_same; [done|]. simpl.
  by eapply for_node_data_fst.
Qed.

(** C10. The graph is simple and undirected after every stage, from the
    assembly to the graph that is dumped, with or without the PAE loop: a
    pair of nodes has one attribute dictionary, the same in both
    directions. So for matrix indices a < b whose residues a+1 and b+1 both have a
    representative atom, the PAE loop adds no second edge: it leaves on
    the pair the dictionary it had before the loop (empty when the two
    atoms were not joined) with pae set to matrix[b][a], the later of the
    two writes. *)
Theorem simple_graph_pae_merge (names : gmap Z string) (mol : Mol)
    (plddt : gmap Z float) (G2 G3 : Graph) (M : nat) (pae_matrix : pyval)
    (entry : nat → nat → pyval) :
  let G1 := (assemble names mol).1 in
  let r2ca := (assemble names mol).2 in
  add_backbone_edges r2ca G1 = Ok G2 →
  add_plddt plddt (Atoms mol) 0 G2 = Ok G3 →
  square_matrix M pae_matrix entry →
  ∃ G4, add_pae_edges r2ca pae_matrix G3 = Ok G4 ∧
    simple_graph G1 ∧ simple_graph G2 ∧ simple_graph G3 ∧ simple_graph G4 ∧
    (∀ G get_st dssp_out G5 G6,
       G = G3 ∨ G = G4 →
       dssp_block get_st dssp_out G = Ok G5 → coords_to_str G5 = Ok G6 →
       simple_graph G5 ∧ simple_graph G6) ∧
    ∀ a b u v,
      a < b → b < M →
      pydict_get (Z.of_nat a + 1)%Z r2ca = Some u →
      pydict_get (Z.of_nat b + 1)%Z r2ca = Some v →
      edge G4 u v = Some (<["pae" := entry b a]> (default ∅ (edge G3 u v))) ∧
      edge G4 v u = edge G4 u v ∧
      ∀ e3 key, edge G3 u v = Some e3 → key ≠ "pae" →
        edge G4 u v ≫= (λ e4, e4 !! key) = e3 !! key.
Proof.
  intros G1 r2ca Hbb Hpl Hsq.
  destruct (before_pae_spec names mol plddt G2 G3 Hbb Hpl)
    as (HG2 & HG3 & Hca & Hkeys & _).
  destruct (add_pae_edges_spec names (Atoms mol) r2ca entry M pae_matrix G3
              Hca Hkeys HG3 Hsq) as (Hrun & HG4 & _ & Hedge).
  eexists. split; [exact Hrun|].
  split; [apply assemble_spec|]. split; [done|]. split; [done|]. split; [done|].
  split.
  { intros G get_st dssp_out G5 G6 HG Hdssp Hcoords.
    assert (simple_graph G5) as HG5.
    { eapply dssp_block_simple; [exact Hdssp|]. by destruct HG as [->| ->]. }
    split; [done|]. by eapply coords_to_str_simple. }
  intros a b u v Hab Hb Hu Hv.
  assert (edge (foldl (pae_row_writes r2ca entry M) G3 (seq 0 M)) u v
          = Some (<["pae" := entry b a]> (default ∅ (edge G3 u v)))) as Hfinal.
  { rewrite Hedge. by apply (pae_rows_edge names (Atoms mol) r2ca entry M Hca a b u v). }
  split; [done|]. split; [by destruct HG4 as [_ ->]|].
  intros e3 key He3 Hkey. rewrite Hfinal, He3; simpl.
  by rewrite lookup_insert_ne.
Qed.

(** C5, amended. For a square M x M matrix and indices i ≠ j below M
    whose residues i+1 and j+1 both have a representative atom, the two
    atoms differ and the graph after the loop has between them an edge
    whose pae is the entry of the later of the two visits,
    matrix[max i j][min i j]; and the loop changes no edge from a node to
    itself. *)
Theorem pae_edges_lower_triangle (names : gmap Z string) (mol : Mol)
    (plddt : gmap Z float) (G2 G3 : Graph) (M : nat) (pae_matrix : pyval)
    (entry : nat → nat → pyval) :
  let G1 := (assemble names mol).1 in
  let r2ca := (assemble names mol).2 in
  add_backbone_edges r2ca G1 = Ok G2 →
  add_plddt plddt (Atoms mol) 0 G2 = Ok G3 →
  square_matrix M pae_matrix entry →
  ∃ G4, add_pae_edges r2ca pae_matrix G3 = Ok G4 ∧ nodes G4 = nodes G3 ∧
    (∀ i j u v,
       i ≠ j → i < M → j < M →
       pydict_get (Z.of_nat i + 1)%Z r2ca = Some u →
       pydict_get (Z.of_nat j + 1)%Z r2ca = Some v →
       u ≠ v ∧
       ∃ e, edge G4 u v = Some e ∧ edge G4 v u = Some e ∧
            e !! "pae" = Some (entry (i `max` j) (i `min` j))) ∧
    (∀ x, edge G4 x x = edge G3 x x).
Proof.
  intros G1 r2ca Hbb Hpl Hsq.
  destruct (before_pae_spec names mol plddt G2 G3 Hbb Hpl)
    as (HG2 & HG3 & Hca & Hkeys & _).
  destruct (add_pae_edges_spec names (Atoms mol) r2ca entry M pae_matrix G3
              Hca Hkeys HG3 Hsq) as (Hrun & HG4 & Hn4 & Hedge).
  eexists. split; [exact Hrun|]. split; [done|]. split.
  - intros i j u v Hij Hi Hj Hu Hv. split.
    { intros ->. pose proof (ca_atoms_inj _ _ _ _ _ _ Hca Hu Hv). lia. }
    destruct HG4 as [_ Hsym4].
    destruct (decide (i < j)) as [Hlt|Hge].
    + exists (<["pae" := entry j i]> (default ∅ (edge G3 u v))).
      assert (edge (foldl (pae_row_writes r2ca entry M) G3 (seq 0 M)) u v
              = Some (<["pae" := entry j i]> (default ∅ (edge G3 u v)))) as Hfinal.
      { rewrite Hedge.
        by apply (pae_rows_edge names (Atoms mol) r2ca entry M Hca i j u v). }
      split; [done|]. split; [by rewrite Hsym4|].
      rewrite lookup_insert_eq. do 2 f_equal; lia.
    + exists (<["pae" := entry i j]> (default ∅ (edge G3 v u))).
      assert (edge (foldl (pae_row_writes r2ca entry M) G3 (seq 0 M)) v u
              = Some (<["pae" := entry i j]> (default ∅ (edge G3 v u)))) as Hfinal.
      { rewrite Hedge.
        apply (pae_rows_edge names (Atoms mol) r2ca entry M Hca j i v u); [done..|lia|done]. }
      split; [by rewrite Hsym4|]. split; [done|].
      rewrite lookup_insert_eq. do 2 f_equal; lia.
  - intros x. rewrite Hedge.
    apply (foldl_fixed (λ i e, foldl (λ e j, edge_write x x (pae_edge r2ca entry i j) e)
                                     e (seq 0 M))).
    intros i _ e.
    apply (foldl_fixed (λ j, edge_write x x (pae_edge r2ca entry i j))).
    intros j _ e'. by eapply pae_no_loop.
Qed.

(** ** The node set through the stages *)

Lemma for_each_inv {A S : Type} (body : S → A → result S) (I : S → Prop)
    (l : list A) (s s' : S) :
  (∀ s x s', I s → body s x = Ok s' → I s') →
  I s → for_each body l s = Ok s' → I s'.
Proof.
  intros Hbody. revert s. induction l as [|x l IH]; intros s Hs; simpl.
  - by intros [= <-].
  - destruct (body s x) as [s1|e] eqn:Hx; simpl; [|done].
    apply IH. by eapply Hbody.
Qed.

Lemma pae_step_inv names atoms r2ca row i j G0 G G' :
  ca_atoms names atoms r2ca → atom_keys atoms G0 →
  pae_inv G0 G → pae_step r2ca row i G j = Ok G' → pae_inv G0 G'.
Proof.
  intros Hca Hkeys [Hs Hn]. unfold pae_step. case_decide; [|by intros [= <-]].
  destruct (py_getitem row j) as [pae|]; simpl; [|done].
  destruct (pydict_get (Z.of_nat i + 1)%Z r2ca) as [u|] eqn:Hu;
    [|by intros [= <-]].
  destruct (pydict_get (Z.of_nat j + 1)%Z r2ca) as [v|] eqn:Hv;
    [|by intros [= <-]].
  intros [= <-]. split; [by apply add_edge_simple|].
  rewrite add_edge_nodes; [done|rewrite Hn..];
    apply Hkeys; by eapply ca_atoms_lt.
Qed.

Lemma pae_block_inv names atoms r2ca json G G' :
  ca_atoms names atoms r2ca → atom_keys atoms G → simple_graph G →
  pae_block json r2ca G = Ok G' → simple_graph G' ∧ nodes G' = nodes G.
Proof.
  intros Hca Hkeys HG. unfold pae_block.
  destruct json as [pae_data|]; simpl; [|done].
  destruct (py_getitem pae_data 0) as [record|]; simpl; [|done].
  destruct (py_contains record _) as [[]|]; simpl; [|done..].
  destruct (py_getitem_str record _) as [pae_matrix|]; simpl; [|done].
  unfold add_pae_edges. destruct (py_len pae_matrix) as [m|]; simpl; [|done].
  apply (for_each_inv _ (pae_inv G)); [|by split].
  intros G1 i G1' HG1. unfold pae_row.
  destruct (py_getitem pae_matrix i) as [row|]; simpl; [|done].
  destruct (py_len row) as [n|]; simpl; [|done].
  apply (for_each_inv _ (pae_inv G)); [|done].
  intros G2 j G2' HG2. by eapply pae_step_inv.
Qed.

Lemma for_node_data_keys body l l' :
  for_node_data body l = Ok l' → pydict_keys l' = pydict_keys l.
Proof.
  unfold pydict_keys. revert l'.
  induction l as [|[node data] l IH]; intros l'; simpl.
  - by intros [= <-].
  - destruct (body data) as [data'|]; simpl; [|done].
    destruct (for_node_data body l) as [l''|]; simpl; [|done].
    intros [= <-]. simpl. f_equal. by apply IH.
Qed.

(** The loop rewrites the data of each node with the loop body. *)
Lemma for_node_data_get body l l' n :
  for_node_data body l = Ok l' →
  match pydict_get n l with
  | Some data => ∃ data', body data = Ok data' ∧ pydict_get n l' = Some data'
  | None => pydict_get n l' = None
  end.
Proof.
  revert l'. induction l as [|[node data] l IH]; intros l'; simpl.
  - by intros [= <-].
  - destruct (body data) as [data'|] eqn:Hbody; simpl; [|done].
    destruct (for_node_data body l) as [l''|]; simpl; [|done].
    intros [= <-]. simpl. case_decide; [by exists data'|]. by apply IH.
Qed.

Lemma for_node_data_total body l :
  (∀ node data, (node, data) ∈ l → ∃ data', body data = Ok data') →
  ∃ l', for_node_data body l = Ok l'.
Proof.
  induction l as [|[node data] l IH]; intros Hbody; simpl; [by eexists|].
  destruct (Hbody node data) as [data' ->]; [left|]. simpl.
  destruct IH as [l' ->]; [|by eexists].
  intros node' d' Hin. apply (Hbody node'). by right.
Qed.

Lemma dssp_block_keys get_st dssp G G' :
  dssp_block get_st dssp G = Ok G' →
  adj G' = adj G ∧ pydict_keys (nodes G') = pydict_keys (nodes G).
Proof.
  unfold dssp_block. destruct (run_dssp get_st dssp) as [dssp_data|]; simpl; [|done].
  destruct (for_node_data _ (nodes G)) as [nodes'|] eqn:Hloop; simpl; [|done].
  intros [= <-]. simpl. split; [done|]. by eapply for_node_data_keys.
Qed.

Lemma coords_to_str_keys G G' :
  coords_to_str G = Ok G' →
  adj G' = adj G ∧ pydict_keys (nodes G') = pydict_keys (nodes G).
Proof.
  unfold coords_to_str.
  destruct (for_node_data _ (nodes G)) as [nodes'|] eqn:Hloop; simpl; [|done].
  intros [= <-]. simpl. split; [done|]. by eapply for_node_data_keys.
Qed.

(** ** The stages of a job that reaches the dump *)

Record job_stages (pdb : file_content) (json_file : option file_content)
    (include_pae : bool) (mol : Mol) (structure : PDBStructure)
    (plddt : gmap Z float) (G2 G3 G4 G5 G6 : Graph) : Prop := {
  stage_mol : MolFromPDBFile pdb = Some mol;
  stage_structure : get_structure pdb = Ok structure;
  stage_backbone :
    add_backbone_edges (assemble (serial_atom_dict structure) mol).2
      (assemble (serial_atom_dict structure) mol).1 = Ok G2;
  stage_plddt_dict : plddt_dict structure = Ok plddt;
  stage_plddt : add_plddt plddt (Atoms mol) 0 G2 = Ok G3;
  stage_pae :
    (if include_pae
     then pae_block (read_json json_file)
            (assemble (serial_atom_dict structure) mol).2 G3
     else Ok G3) = Ok G4;
  stage_dssp : dssp_block (get_structure pdb) (DSSP pdb) G4 = Ok G5;
  stage_coords : coords_to_str G5 = Ok G6 }.

Lemma build_graph_inl pdb_file json_file include_pae G :
  build_graph pdb_file json_file include_pae = Ok (inl G) →
  ∃ pdb mol structure plddt G2 G3 G4 G5,
    pdb_file = Some pdb ∧
    job_stages pdb json_file include_pae mol structure plddt G2 G3 G4 G5 G.
Proof.
  unfold build_graph, graph_before_pae, graph_after_pae.
  destruct pdb_file as [pdb|]; simpl; [|done].
  destruct (MolFromPDBFile pdb) as [mol|] eqn:Hmol; simpl; [|done].
  destruct (GetConformer mol) as [[]|]; simpl; [|done].
  destruct (get_structure pdb) as [structure|] eqn:Hst; simpl; [|done].
  destruct (assemble (serial_atom_dict structure) mol) as [G1 r2ca] eqn:Has.
  destruct (add_backbone_edges r2ca G1) as [G2|] eqn:Hbb; simpl; [|done].
  destruct (plddt_dict structure) as [plddt|] eqn:Hpd; simpl; [|done].
  destruct (add_plddt plddt (Atoms mol) 0 G2) as [G3|] eqn:Hpl; simpl; [|done].
  destruct (if include_pae then _ else _) as [G4|] eqn:Hpae; [|done].
  destruct (dssp_block _ _ G4) as [G5|] eqn:Hdssp; [|done].
  destruct (coords_to_str G5) as [G6|] eqn:Hco; simpl; [|done].
  intros [= <-]. exists pdb, mol, structure, plddt, G2, G3, G4, G5.
  split; [done|]. split; rewrite ?Has; done.
Qed.

(** C8. For a molecule with N atoms (whose bonds join atoms of the
    molecule) the graph after the assembly stage has exactly N nodes, with
    the indices 0, ..., N-1 in this order; and every later stage of a job
    keeps exactly these node indices, up to the graph that is dumped. *)
Theorem node_coverage (names : gmap Z string) (mol : Mol) :
  bonds_in_range mol →
  let N := length (Atoms mol) in
  let G1 := (assemble names mol).1 in
  length (nodes G1) = N ∧ pydict_keys (nodes G1) = seq 0 N ∧
  ∀ pdb json_file include_pae structure plddt G2 G3 G4 G5 G6,
    names = serial_atom_dict structure →
    job_stages pdb json_file include_pae mol structure plddt G2 G3 G4 G5 G6 →
    Forall (λ G, pydict_keys (nodes G) = seq 0 N) [G2; G3; G4; G5; G6].
Proof.
  intros Hbonds N G1.
  destruct (assemble_spec names mol) as (HG1 & Hnodes & Hca & Hkeys).
  specialize (Hkeys Hbonds). fold G1 in Hkeys.
  split; [|split; [done|]].
  { unfold pydict_keys in Hkeys.
    by rewrite <-(length_fmap fst), Hkeys, length_seq. }
  intros pdb json_file include_pae structure plddt G2 G3 G4 G5 G6 -> Hst.
  destruct Hst as [_ _ Hbb _ Hpl Hpae Hdssp Hco].
  destruct (before_pae_spec _ _ _ _ _ Hbb Hpl)
    as (HG2 & HG3 & _ & Hk3 & Hadj3 & Hkeys3 & _).
  destruct (add_backbone_edges_spec _ _ _ _ Hca Hnodes HG1) as (Hbb' & _ & Hn2 & _).
  rewrite Hbb in Hbb'. injection Hbb' as Heq. rewrite <-Heq in Hn2.
  assert (nodes G4 = nodes G3) as Hn4.
  { destruct include_pae; [|by injection Hpae as <-].
    by eapply pae_block_inv. }
  apply dssp_block_keys in Hdssp as [_ Hk5].
  apply coords_to_str_keys in Hco as [_ Hk6].
  fold G1 in Hkeys3, Hn2. rewrite Hkeys in Hkeys3.
  subst N. repeat (apply Forall_cons_2; [cbn beta; congruence|]).
  apply Forall_nil_2.
Qed.

(** ** DSSP attributes *)

(** The attributes the loop writes on a node whose residue number is a
    key of [dssp_data], with the component of the tuple each one gets. *)
Definition dssp_items (res : dssp_tuple) : list (string * pyval) :=
  [ ("secondary_structure", ss res); ("exposure", exposure res);
    ("phi", phi res); ("psi", psi res);
    ("NH_O_1_relidx", NH_O_1_relidx res); ("NH_O_1_energy", NH_O_1_energy res);
    ("O_NH_1_relidx", O_NH_1_relidx res); ("O_NH_1_energy", O_NH_1_energy res);
    ("NH_O_2_relidx", NH_O_2_relidx res); ("NH_O_2_energy", NH_O_2_energy res);
    ("O_NH_2_relidx", O_NH_2_relidx res); ("O_NH_2_energy", O_NH_2_energy res) ].

Definition dssp_keys : list string :=
  [ "secondary_structure"; "exposure"; "phi"; "psi";
    "NH_O_1_relidx"; "NH_O_1_energy"; "O_NH_1_relidx"; "O_NH_1_energy";
    "NH_O_2_relidx"; "NH_O_2_energy"; "O_NH_2_relidx"; "O_NH_2_energy" ].

Lemma dssp_items_keys res : (dssp_items res).*1 = dssp_keys.
Proof. reflexivity. Qed.

Lemma dssp_keys_NoDup : NoDup dssp_keys.
Proof. apply (bool_decide_unpack _). by vm_compute. Qed.

Lemma dssp_attrs_items res data :
  Forall (λ kv, dssp_attrs res data !! kv.1 = Some kv.2) (dssp_items res).
Proof. unfold dssp_attrs, dssp_items. repeat constructor; by simplify_map_eq. Qed.

Lemma dssp_attrs_other res data key :
  key ∉ dssp_keys → dssp_attrs res data !! key = data !! key.
Proof.
  unfold dssp_keys. rewrite !not_elem_of_cons. intros Hkey. destruct_and!.
  unfold dssp_attrs. by rewrite !lookup_insert_ne.
Qed.

Lemma atom_attrs_no_dssp name atom value :
  Forall (λ key, (<["plddt" := value]> (atom_attrs name atom)) !! key = None)
         dssp_keys.
Proof. unfold dssp_keys, atom_attrs. repeat constructor; by simplify_map_eq. Qed.

Lemma atom_attrs_residue_number name atom value :
  (<["plddt" := value]> (atom_attrs name atom)) !! "residue_number" =
  Some (PInt (ResidueNumber (MonomerInfo atom))).
Proof. unfold atom_attrs. by simplify_map_eq. Qed.

Lemma dssp_dict_elem_of (dssp : list dssp_tuple) (key : Z) (res : dssp_tuple) :
  dssp_dict dssp !! key = Some res → res ∈ dssp.
Proof.
  unfold dssp_dict.
  assert (∀ d : gmap Z dssp_tuple,
            foldl (λ d res, <[dssp_index res := res]> d) d dssp !! key = Some res →
               res ∈ dssp ∨ d !! key = Some res) as Hgen.
  { induction dssp as [|r dssp IH]; intros d; simpl; [by right|].
    intros [Hin|Hd]%IH; [left; by right|].
    destruct (decide (dssp_index r = key)) as [<-|Hne].
    - rewrite lookup_insert_eq in Hd. injection Hd as ->. left. left.
    - rewrite lookup_insert_ne in Hd by done. by right. }
  intros [?|Hempty]%Hgen; [done|]. by rewrite lookup_empty in Hempty.
Qed.

(** C4, amended. In a job that reaches the DSSP stage, with
    [dssp_data] the mapping [run_dssp] returns, the loop completes; the
    node of every atom whose residue number is a key of [dssp_data] gets
    twelve attributes - secondary_structure, exposure, phi, psi and the
    relidx and the energy of each of the four hydrogen-bond pairs - all
    twelve with the values of one record of the analyzer's output, its
    other attributes unchanged; the node of an atom whose residue
    number is not a key is unchanged and has none of the twelve. Which
    record a residue number selects is not part of the statement. *)
Theorem secondary_structure_twelve (names : gmap Z string) (mol : Mol)
    (plddt : gmap Z float) (json : result pyval) (include_pae : bool)
    (G2 G3 G4 : Graph) (get_st : result PDBStructure)
    (dssp_out : result (list dssp_tuple)) (dssp_data : gmap Z dssp_tuple) :
  let G1 := (assemble names mol).1 in
  let r2ca := (assemble names mol).2 in
  bonds_in_range mol →
  add_backbone_edges r2ca G1 = Ok G2 →
  add_plddt plddt (Atoms mol) 0 G2 = Ok G3 →
  (if include_pae then pae_block json r2ca G3 else Ok G3) = Ok G4 →
  run_dssp get_st dssp_out = Ok dssp_data →
  length dssp_keys = 12 ∧ NoDup dssp_keys ∧
  ∃ records G5, dssp_out = Ok records ∧
    dssp_block get_st dssp_out G4 = Ok G5 ∧
    pydict_keys (nodes G5) = pydict_keys (nodes G4) ∧
    ∀ i atom, Atoms mol !! i = Some atom →
      ∃ data data',
        pydict_get i (nodes G4) = Some data ∧
        pydict_get i (nodes G5) = Some data' ∧
        if decide (ResidueNumber (MonomerInfo atom) ∈ dom dssp_data) then
          ∃ res, res ∈ records ∧
            (dssp_items res).*1 = dssp_keys ∧
            (∀ key value, (key, value) ∈ dssp_items res → data' !! key = Some value) ∧
            (∀ key, key ∉ dssp_keys → data' !! key = data !! key)
        else
          data' = data ∧ ∀ key, key ∈ dssp_keys → data' !! key = None.
Proof.
  intros G1 r2ca Hbonds Hbb Hpl Hpae Hdssp.
  split; [done|]. split; [apply dssp_keys_NoDup|].
  assert (∃ records, dssp_out = Ok records ∧ dssp_data = dssp_dict records)
    as (records & Hout & Hdict).
  { unfold run_dssp in Hdssp. destruct get_st as [[|model s]|]; simpl in Hdssp; [done| |done].
    destruct dssp_out as [records|]; simpl in Hdssp; [|done].
    injection Hdssp as <-. by exists records. }
  exists records.
  destruct (before_pae_spec _ _ _ _ _ Hbb Hpl)
    as (HG2 & HG3 & Hca & Hk3 & Hadj3 & Hkeys3 & Hdata3).
  destruct (assemble_spec names mol) as (_ & _ & _ & Hkeys1).
  rewrite (Hkeys1 Hbonds) in Hkeys3.
  assert (nodes G4 = nodes G3) as Hn4.
  { destruct include_pae; [|by injection Hpae as <-]. by eapply pae_block_inv. }
  assert (∀ node data, (node, data) ∈ nodes G4 →
            ∃ atom, Atoms mol !! node = Some atom ∧
              data = <["plddt" := plddt_value plddt atom]>
                       (atom_attrs (names !! SerialNumber (MonomerInfo atom)) atom))
    as Hitems.
  { intros node data Hin. rewrite Hn4 in Hin.
    assert (node ∈ pydict_keys (nodes G3)) as Hnode
      by (apply list_elem_of_fmap; by exists (node, data)).
    rewrite Hkeys3, elem_of_seq in Hnode.
    destruct (lookup_lt_is_Some_2 (Atoms mol) node) as [atom Hatom]; [lia|].
    exists atom. split; [done|].
    apply pydict_elem_of_get in Hin; [|rewrite Hkeys3; apply NoDup_seq].
    rewrite (Hdata3 node atom Hatom) in Hin. by injection Hin. }
  destruct (for_node_data_total (dssp_node dssp_data) (nodes G4)) as [nodes5 Hloop].
  { intros node data Hin. destruct (Hitems node data Hin) as (atom & _ & ->).
    unfold dssp_node, attr_getitem. rewrite atom_attrs_residue_number; simpl.
    destruct (dssp_data !! _); by eexists. }
  exists {| nodes := nodes5; adj := adj G4 |}.
  split; [exact Hout|].
  split; [unfold dssp_block; by rewrite Hdssp; simpl; rewrite Hloop|].
  split; [simpl; by eapply for_node_data_keys|].
  intros i atom Hatom. simpl.
  pose proof (for_node_data_get _ _ _ i Hloop) as Hget.
  rewrite Hn4, (Hdata3 i atom Hatom) in Hget. destruct Hget as (data' & Hbody & Hget).
  eexists _, data'. rewrite Hn4. split; [by apply Hdata3|]. split; [done|].
  unfold dssp_node, attr_getitem in Hbody.
  rewrite atom_attrs_residue_number in Hbody; simpl in Hbody.
  destruct (dssp_data !! ResidueNumber (MonomerInfo atom)) as [res|] eqn:Hres;
    injection Hbody as <-.
  - rewrite decide_True by (apply elem_of_dom; by eexists).
    exists res.
    split; [apply (dssp_dict_elem_of records (ResidueNumber (MonomerInfo atom)));
            by rewrite <-Hdict|].
    split; [done|]. split.
    + intros key value Hin.
      pose proof (dssp_attrs_items res
        (<["plddt" := plddt_value plddt atom]>
           (atom_attrs (names !! SerialNumber (MonomerInfo atom)) atom))) as Hall.
      rewrite Forall_forall in Hall. by apply (Hall (key, value)).
    + intros key Hkey. by apply dssp_attrs_other.
  - rewrite decide_False by (by apply not_elem_of_dom).
    split; [done|]. intros key Hkey.
    pose proof (atom_attrs_no_dssp (names !! SerialNumber (MonomerInfo atom)) atom
                  (plddt_value plddt atom)) as Hall.
    rewrite Forall_forall in Hall. by apply Hall.
Qed.

(** ** The job and its artifact *)

Lemma job_skips_existing input_dir output_dir file_name include_pae :
  is_Some (output_dir !! (PyStr.split_last "/" file_name +:+ ".pkl")) →
  protein_molecule_graphs input_dir output_dir file_name include_pae =
  (output_dir, Ok AlreadyExists).
Proof. intros H. unfold protein_molecule_graphs. by rewrite decide_True. Qed.

Lemma job_runs_absent input_dir output_dir file_name include_pae :
  output_dir !! (PyStr.split_last "/" file_name +:+ ".pkl") = None →
  protein_molecule_graphs input_dir output_dir file_name include_pae =
  match build_graph (pydict_get (file_name +:+ ".pdb") input_dir)
                    (pydict_get (file_name +:+ ".json") input_dir) include_pae with
  | Raise e => (output_dir, Raise e)
  | Ok (inr stop) => (output_dir, Ok stop)
  | Ok (inl G) =>
      (<[PyStr.split_last "/" file_name +:+ ".pkl" := G]> output_dir, Ok Pickled)
  end.
Proof.
  intros H. unfold protein_molecule_graphs. rewrite decide_False; [done|].
  rewrite H. by intros [? ?].
Qed.

Lemma build_graph_stop pdb_file json_file include_pae stop :
  build_graph pdb_file json_file include_pae = Ok (inr stop) →
  (∃ e, stop = PaeFailed e) ∨ (∃ e, stop = DsspFailed e).
Proof.
  unfold build_graph.
  destruct (graph_before_pae pdb_file) as [[[pdb G3] r2ca]|]; simpl; [|done].
  unfold graph_after_pae.
  destruct (if include_pae then _ else _) as [G4|e]; [|intros [= <-]; left; by eexists].
  destruct (dssp_block _ _ G4) as [G5|e]; [|intros [= <-]; right; by eexists].
  by destruct (coords_to_str G5).
Qed.

Lemma dssp_block_raise get_st e G :
  ∃ e', dssp_block get_st (Raise e) G = Raise e'.
Proof.
  unfold dssp_block, run_dssp. destruct get_st as [[|model s]|e0]; simpl; by eexists.
Qed.

(** C9. A job changes the output directory only by the dump at its end,
    and it reaches the dump only when the artifact was absent and every
    stage returned a graph: the artifact is then the graph of the last
    stage. In every other case - the job skipped, an exception raised, an
    early return after a PAE or DSSP failure - the output directory is
    left as it was; in particular when the analyzer [DSSP] raises. *)
Theorem artifact_only_after_all_stages (input_dir : list (string * file_content))
    (output_dir : gmap string Graph) (file_name : string) (include_pae : bool) :
  let output_file_name := PyStr.split_last "/" file_name +:+ ".pkl" in
  let json_file := pydict_get (file_name +:+ ".json") input_dir in
  let job := protein_molecule_graphs input_dir output_dir file_name include_pae in
  (job.2 = Ok Pickled ↔ job.1 ≠ output_dir) ∧
  (job.2 = Ok Pickled →
     output_dir !! output_file_name = None ∧
     ∃ pdb mol structure plddt G2 G3 G4 G5 G6,
       pydict_get (file_name +:+ ".pdb") input_dir = Some pdb ∧
       job_stages pdb json_file include_pae mol structure plddt G2 G3 G4 G5 G6 ∧
       job.1 = <[output_file_name := G6]> output_dir) ∧
  (∀ pdb e, pydict_get (file_name +:+ ".pdb") input_dir = Some pdb →
     DSSP pdb = Raise e → job.1 = output_dir ∧ job.2 ≠ Ok Pickled).
Proof.
  cbv zeta.
  set (output_file_name := PyStr.split_last "/" file_name +:+ ".pkl").
  set (json_file := pydict_get (file_name +:+ ".json") input_dir).
  set (job := protein_molecule_graphs input_dir output_dir file_name include_pae).
  assert (job.2 = Ok Pickled →
     output_dir !! output_file_name = None ∧
     ∃ pdb mol structure plddt G2 G3 G4 G5 G6,
       pydict_get (file_name +:+ ".pdb") input_dir = Some pdb ∧
       job_stages pdb json_file include_pae mol structure plddt G2 G3 G4 G5 G6 ∧
       job.1 = <[output_file_name := G6]> output_dir) as Hdump.
  { subst job. destruct (output_dir !! output_file_name) as [G|] eqn:Hout.
    { rewrite job_skips_existing; [done|]. fold output_file_name. by rewrite Hout. }
    rewrite job_runs_absent by done. fold json_file output_file_name.
    destruct (build_graph _ json_file include_pae) as [[G|stop]|e] eqn:Hbuild;
      simpl; [| |done].
    2:{ by destruct (build_graph_stop _ _ _ _ Hbuild) as [[e ->]|[e ->]]. }
    intros _. split; [done|].
    apply build_graph_inl in Hbuild
      as (pdb & mol & structure & plddt & G2 & G3 & G4 & G5 & Hpdb & Hstages).
    by exists pdb, mol, structure, plddt, G2, G3, G4, G5, G. }
  assert (job.2 ≠ Ok Pickled → job.1 = output_dir) as Hkeep.
  { subst job. destruct (output_dir !! output_file_name) as [G|] eqn:Hout.
    { rewrite job_skips_existing; [done|]. fold output_file_name. by rewrite Hout. }
    rewrite job_runs_absent by done. fold json_file output_file_name.
    by destruct (build_graph _ json_file include_pae) as [[G|stop]|e]. }
  split; [|split; [done|]].
  - split.
    + intros Hp.
      destruct (Hdump Hp)
        as (Habsent & _ & _ & _ & _ & _ & _ & _ & _ & G6 & _ & _ & Hjob).
      rewrite Hjob. intros Heq. by rewrite <-Heq, lookup_insert_eq in Habsent.
    + intros Hne. destruct (decide (job.2 = Ok Pickled)) as [|Hn]; [done|].
      by destruct (Hne (Hkeep Hn)).
  - intros pdb e Hpdb Hdssp.
    assert (job.2 ≠ Ok Pickled) as Hn; [|by split; [apply Hkeep|]].
    intros Hp.
    destruct (Hdump Hp)
      as (_ & pdb' & mol & structure & plddt & G2 & G3 & G4 & G5 & G6
          & Hpdb' & Hstages & _).
    rewrite Hpdb in Hpdb'. injection Hpdb' as <-.
    destruct Hstages as [_ _ _ _ _ _ Hrun _]. rewrite Hdssp in Hrun.
    destruct (dssp_block_raise (get_structure pdb) e G4) as [e' He'].
    by rewrite He' in Hrun.
Qed.

(** ** Failures and the batch *)

Lemma executor_map_ok job in_flight task rest output_dir r :
  job output_dir task = (output_dir, Ok r) →
  executor_map job in_flight (task :: rest) output_dir =
  ((executor_map job in_flight rest output_dir).1,
   match (executor_map job in_flight rest output_dir).2 with
   | Ok results => Ok (r :: results)
   | Raise e => Raise e
   end).
Proof.
  intros Hjob. simpl. rewrite Hjob.
  by destruct (executor_map job in_flight rest output_dir) as [out' [results|e]].
Qed.

Lemma executor_map_raise job in_flight task rest output_dir output_dir' e :
  job output_dir task = (output_dir', Raise e) →
  executor_map job in_flight (task :: rest) output_dir =
  (run_in_flight job in_flight rest output_dir', Raise e).
Proof. intros Hjob. simpl. by rewrite Hjob. Qed.

(** The side file cannot be read as JSON, or the record [pae_data[0]]
    does not contain the field. *)
Definition pae_input_malformed (json : result pyval) : Prop :=
  (∃ e, json = Raise e) ∨
  (∃ pae_data record, json = Ok pae_data ∧ py_getitem pae_data 0 = Ok record ∧
     py_contains record "predicted_aligned_error" = Ok false).

Lemma pae_block_malformed json r2ca G :
  pae_input_malformed json → ∃ e, pae_block json r2ca G = Raise e.
Proof.
  intros [[e ->]|(pae_data & record & -> & Hrec & Hin)]; unfold pae_block; simpl.
  - by eexists.
  - rewrite Hrec; simpl. rewrite Hin; simpl. by eexists.
Qed.

(** A structure file RDKit cannot parse: the job raises, and so does the
    orchestrator when it collects the results. *)
Lemma job_parse_failure input_dir output_dir file_name include_pae pdb :
  output_dir !! (PyStr.split_last "/" file_name +:+ ".pkl") = None →
  pydict_get (file_name +:+ ".pdb") input_dir = Some pdb →
  MolFromPDBFile pdb = None →
  protein_molecule_graphs input_dir output_dir file_name include_pae =
  (output_dir, Raise AttributeError).
Proof.
  intros Habsent Hpdb Hmol. rewrite job_runs_absent by done.
  unfold build_graph, graph_before_pae. rewrite Hpdb; simpl. by rewrite Hmol.
Qed.

Lemma executor_map_parse_failure input_dir output_dir file_name include_pae pdb
    in_flight rest :
  output_dir !! (PyStr.split_last "/" file_name +:+ ".pkl") = None →
  pydict_get (file_name +:+ ".pdb") input_dir = Some pdb →
  MolFromPDBFile pdb = None →
  executor_map (λ out name, protein_molecule_graphs input_dir out name include_pae)
    in_flight (file_name :: rest) output_dir =
  (run_in_flight (λ out name, protein_molecule_graphs input_dir out name include_pae)
     in_flight rest output_dir, Raise AttributeError).
Proof.
  intros Habsent Hpdb Hmol. apply executor_map_raise.
  by eapply job_parse_failure.
Qed.

(** ** File names *)

Lemma chars_of_chars l : PyStr.chars (PyStr.of_chars l) = l.
Proof. apply list_ascii_of_string_of_list_ascii. Qed.

Lemma of_chars_chars s : PyStr.of_chars (PyStr.chars s) = s.
Proof. apply string_of_list_ascii_of_string. Qed.

Lemma chars_app s1 s2 : PyStr.chars (s1 +:+ s2) = PyStr.chars s1 ++ PyStr.chars s2.
Proof.
  unfold PyStr.chars. induction s1 as [|c s1 IH]; simpl; [done|]. by rewrite IH.
Qed.

Lemma endswith_app s suffix : PyStr.endswith (s +:+ suffix) suffix = true.
Proof.
  unfold PyStr.endswith. apply bool_decide_eq_true.
  rewrite chars_app. by apply suffix_app_r.
Qed.

Lemma contains_chars_elem_of c l :
  PyStr.contains_chars [c] l = false → c ∉ l.
Proof.
  induction l as [|c' l IH]; simpl; [intros _; apply not_elem_of_nil|].
  intros [Hhead Htail]%orb_false_iff. apply not_elem_of_cons. split; [|by apply IH].
  intros ->. apply bool_decide_eq_false in Hhead. apply Hhead.
  by apply (prefix_cons c' []), prefix_nil.
Qed.

Lemma last_field_chars_id sep l : ∀ acc,
  sep ∉ l → PyStr.last_field_chars sep acc l = acc ++ l.
Proof.
  induction l as [|c l IH]; intros acc Hsep; simpl; [by rewrite app_nil_r|].
  apply not_elem_of_cons in Hsep as [Hc Hl].
  rewrite decide_False by done. rewrite IH by done. by rewrite <-(assoc_L (++)).
Qed.

Lemma split_last_id s :
  "/"%char ∉ PyStr.chars s → PyStr.split_last "/" s = s.
Proof.
  intros Hs. unfold PyStr.split_last.
  rewrite last_field_chars_id by done. apply of_chars_chars.
Qed.

Lemma splitext_root_chars c p :
  c ∉ PyStr.chars p → c ∉ PyStr.chars (PyStr.splitext_root p).
Proof.
  intros Hc. unfold PyStr.splitext_root.
  destruct (PyStr.rindex_dot _ _ _) as [dotIndex|]; [|done].
  destruct (forallb _ _); [done|].
  rewrite chars_of_chars. intros Hin. apply Hc.
  by apply (subseteq_take dotIndex (PyStr.chars p)).
Qed.

(** A task made from a name of the input directory names its own
    pickle. *)
Lemma task_output_name (name : string) :
  PyStr.contains name "/" = false →
  PyStr.split_last "/" (PyStr.splitext_root name) = PyStr.splitext_root name.
Proof.
  intros Hname. apply split_last_id, splitext_root_chars.
  by apply contains_chars_elem_of.
Qed.

(** ** Running the batch again *)

Section rerun.
Context (input_dir : list (string * file_content)) (include_pae : bool).

#[local] Abbreviation job :=
  (λ out name, protein_molecule_graphs input_dir out name include_pae).
#[local] Abbreviation output_name file_name :=
  (PyStr.split_last "/" file_name +:+ ".pkl").
#[local] Abbreviation build file_name :=
  (build_graph (pydict_get (file_name +:+ ".pdb") input_dir)
               (pydict_get (file_name +:+ ".json") input_dir) include_pae).

(** A job never rewrites a file of the output directory. *)
Lemma job_keeps_artifacts (output_dir : gmap string Graph) file_name key G :
  output_dir !! key = Some G → (job output_dir file_name).1 !! key = Some G.
Proof.
  intros Hkey. destruct (output_dir !! output_name file_name) as [G'|] eqn:Hout.
  { rewrite job_skips_existing; [done|]. by rewrite Hout. }
  rewrite job_runs_absent by done.
  destruct (build file_name) as [[G'|stop]|e]; simpl; [|done..].
  rewrite lookup_insert_ne; [done|]. intros <-. congruence.
Qed.

Lemma run_in_flight_keeps_artifacts in_flight tasks : ∀ (output_dir : gmap string Graph) key G,
  output_dir !! key = Some G →
  run_in_flight job in_flight tasks output_dir !! key = Some G.
Proof.
  revert tasks. induction in_flight as [|n IH]; intros [|task rest] output_dir key G Hkey;
    simpl; try done.
  apply IH. by apply job_keeps_artifacts.
Qed.

Lemma executor_map_keeps_artifacts in_flight tasks : ∀ (output_dir : gmap string Graph) key G,
  output_dir !! key = Some G →
  (executor_map job in_flight tasks output_dir).1 !! key = Some G.
Proof.
  induction tasks as [|task rest IH]; intros output_dir key G Hkey; simpl; [done|].
  pose proof (job_keeps_artifacts output_dir task key G Hkey) as Hjob.
  destruct (job output_dir task) as [out' [r|e]]; simpl in *.
  - specialize (IH out' key G Hjob).
    by destruct (executor_map job in_flight rest out') as [out'' [results|e]].
  - by apply run_in_flight_keeps_artifacts.
Qed.

(** In a run that raised nothing, a task that left no artifact ended in
    one of the two except clauses. *)
Lemma executor_map_no_artifact in_flight tasks : ∀ (output_dir out1 : gmap string Graph) results,
  executor_map job in_flight tasks output_dir = (out1, Ok results) →
  ∀ file_name, file_name ∈ tasks → out1 !! output_name file_name = None →
    ∃ stop, build file_name = Ok (inr stop).
Proof.
  induction tasks as [|task rest IH]; intros output_dir out1 results Hrun file_name Hin Hnone.
  { by apply elem_of_nil in Hin. }
  simpl in Hrun.
  destruct (job output_dir task) as [out' [r|e]] eqn:Hjob; [|done].
  destruct (executor_map job in_flight rest out') as [out'' [results'|e]] eqn:Hrest;
    [|done].
  injection Hrun as -> <-.
  apply elem_of_cons in Hin as [->|Hin]; [|by eapply IH].
  assert (∀ key G, out' !! key = Some G → out1 !! key = Some G) as Hmono.
  { intros key G Hkey.
    pose proof (executor_map_keeps_artifacts in_flight rest out' key G Hkey) as H.
    by rewrite Hrest in H. }
  destruct (output_dir !! output_name task) as [G|] eqn:Hout.
  { rewrite job_skips_existing in Hjob by by rewrite Hout.
    injection Hjob as <- _. rewrite (Hmono _ _ Hout) in Hnone. done. }
  rewrite job_runs_absent in Hjob by done.
  destruct (build task) as [[G|stop]|e]; [|by eexists|done].
  injection Hjob as <- _.
  rewrite (Hmono (output_name task) G) in Hnone; [done|apply lookup_insert_eq].
Qed.

Lemma executor_map_all_stop in_flight tasks (output_dir : gmap string Graph) :
  (∀ file_name, file_name ∈ tasks →
     output_dir !! output_name file_name = None ∧
     ∃ stop, build file_name = Ok (inr stop)) →
  ∃ results, executor_map job in_flight tasks output_dir = (output_dir, Ok results).
Proof.
  induction tasks as [|task rest IH]; intros Hall; simpl; [by eexists|].
  destruct (Hall task) as [Hnone [stop Hstop]]; [left|].
  rewrite job_runs_absent, Hstop by done.
  destruct IH as [results ->]; [|by eexists].
  intros file_name Hin. apply Hall. by right.
Qed.

Lemma pending_tasks_spec (output_dir : gmap string Graph) file_name :
  file_name ∈ pending_tasks input_dir output_dir ↔
  ∃ file, file ∈ listdir input_dir ∧ PyStr.endswith file ".pdb" = true ∧
    file_name = PyStr.splitext_root file ∧
    output_dir !! (file_name +:+ ".pkl") = None.
Proof.
  unfold pending_tasks. rewrite list_elem_of_omap.
  assert (∀ name, name +:+ ".pkl" ∈
            filter (λ f, PyStr.endswith f ".pkl" = true) (elements (dom output_dir))
            ↔ is_Some (output_dir !! (name +:+ ".pkl"))) as Hproc.
  { intros name. rewrite list_elem_of_filter, elem_of_elements, elem_of_dom.
    split; [by intros [_ ?]|]. split; [apply endswith_app|done]. }
  split.
  - intros (file & Hfile & Htask). exists file. split; [done|].
    destruct (PyStr.endswith file ".pdb"); [|done]. split; [done|].
    case_decide as Hin; [done|]. injection Htask as <-. split; [done|].
    rewrite Hproc in Hin. by apply eq_None_not_Some.
  - intros (file & Hfile & Hpdb & -> & Hnone). exists file. split; [done|].
    rewrite Hpdb. rewrite decide_False; [done|].
    rewrite Hproc, Hnone. by intros [? ?].
Qed.

(** After a run of the batch in which no job raised, a second run on the
    same directories dispatches only tasks that again end in an except
    clause: it writes nothing and raises nothing, whatever the pool
    does. *)
Lemma alpha_nx_rerun (output_dir out1 : gmap string Graph) in_flight in_flight' results :
  alpha_nx input_dir output_dir include_pae in_flight = (out1, Ok results) →
  ∃ results', alpha_nx input_dir out1 include_pae in_flight' = (out1, Ok results').
Proof.
  unfold alpha_nx. intros Hrun. apply executor_map_all_stop.
  intros file_name (file & Hfile & Hpdb & -> & Hnone)%pending_tasks_spec.
  assert (output_name (PyStr.splitext_root file) = PyStr.splitext_root file +:+ ".pkl")
    as Hname.
  { f_equal. apply task_output_name.
    unfold listdir in Hfile. by apply list_elem_of_filter in Hfile as [? _]. }
  rewrite Hname. split; [done|].
  eapply executor_map_no_artifact; [exact Hrun| |by rewrite Hname].
  apply pending_tasks_spec. exists file. split_and!; try done.
  destruct (output_dir !! (PyStr.splitext_root file +:+ ".pkl")) as [G|] eqn:Hout;
    [|done].
  pose proof (executor_map_keeps_artifacts in_flight
                (pending_tasks input_dir output_dir) output_dir _ G Hout) as Hkeep.
  rewrite Hrun in Hkeep. simpl in Hkeep. congruence.
Qed.

End rerun.

(** ** A failure of the PAE block and the rest of the batch *)

Section batch_queue.
Context (input_dir : list (string * file_content)) (include_pae : bool).

#[local] Abbreviation job' :=
  (λ out name, protein_molecule_graphs input_dir out name include_pae).

(** A job writes no file but its own artifact. *)
Lemma job_frame (output_dir : gmap string Graph) file_name key :
  key ≠ PyStr.split_last "/" file_name +:+ ".pkl" →
  (job' output_dir file_name).1 !! key = output_dir !! key.
Proof.
  intros Hkey. unfold protein_molecule_graphs. case_decide; [done|].
  destruct (build_graph _ _ _) as [[G|stop]|e]; simpl; [|done..].
  by rewrite lookup_insert_ne.
Qed.

Lemma run_in_flight_frame in_flight tasks key : ∀ output_dir : gmap string Graph,
  Forall (λ task, key ≠ PyStr.split_last "/" task +:+ ".pkl") tasks →
  run_in_flight job' in_flight tasks output_dir !! key = output_dir !! key.
Proof.
  revert tasks. induction in_flight as [|n IH]; intros [|task rest] output_dir Hall;
    simpl; try done.
  apply Forall_cons in Hall as [Htask Hrest].
  rewrite IH by done. by apply job_frame.
Qed.

Lemma executor_map_frame in_flight tasks key : ∀ output_dir : gmap string Graph,
  Forall (λ task, key ≠ PyStr.split_last "/" task +:+ ".pkl") tasks →
  (executor_map job' in_flight tasks output_dir).1 !! key = output_dir !! key.
Proof.
  induction tasks as [|task rest IH]; intros output_dir Hall; simpl; [done|].
  apply Forall_cons in Hall as [Htask Hrest].
  pose proof (job_frame output_dir task key Htask) as Hjob.
  destruct (job' output_dir task) as [out' [r|e]]; simpl in *.
  - specialize (IH out' Hrest).
    destruct (executor_map job' in_flight rest out') as [out'' [results|e]];
      simpl in *; congruence.
  - rewrite run_in_flight_frame by done. done.
Qed.

(** When no task's graph construction raises, the batch returns. *)
Lemma executor_map_total in_flight tasks :
  Forall (λ task, ∃ r, build_graph (pydict_get (task +:+ ".pdb") input_dir)
                         (pydict_get (task +:+ ".json") input_dir) include_pae = Ok r)
         tasks →
  ∀ output_dir : gmap string Graph,
    ∃ out1 results, executor_map job' in_flight tasks output_dir = (out1, Ok results).
Proof.
  induction 1 as [|task rest [r Hr] _ IH]; intros output_dir; simpl; [by eexists _, _|].
  assert (∃ out' r', job' output_dir task = (out', Ok r')) as (out' & r' & ->).
  { destruct (output_dir !! (PyStr.split_last "/" task +:+ ".pkl")) as [G|] eqn:Hout.
    - rewrite job_skips_existing by (by rewrite Hout). by eexists _, _.
    - rewrite job_runs_absent, Hr by done. destruct r as [G|stop]; by eexists _, _. }
  destruct (IH out') as (out1 & results & ->). by eexists _, _.
Qed.

End batch_queue.

Lemma executor_map_length job in_flight tasks : ∀ (output_dir out1 : gmap string Graph) results,
  executor_map job in_flight tasks output_dir = (out1, Ok results) →
  length results = length tasks.
Proof.
  induction tasks as [|task rest IH]; intros output_dir out1 results; simpl.
  - by intros [= _ <-].
  - destruct (job output_dir task) as [out' [r|e]]; [|done].
    destruct (executor_map job in_flight rest out') as [out'' [results'|e]] eqn:Hrest;
      [|done].
    intros [= _ <-]. simpl. f_equal. by eapply IH.
Qed.

Lemma executor_map_app_inv job in_flight (l1 l2 : list string) :
  ∀ (output_dir out1 : gmap string Graph) results,
  executor_map job in_flight (l1 ++ l2) output_dir = (out1, Ok results) →
  ∃ out' rs1 rs2,
    executor_map job in_flight l1 output_dir = (out', Ok rs1) ∧
    executor_map job in_flight l2 out' = (out1, Ok rs2) ∧
    results = rs1 ++ rs2 ∧ length rs1 = length l1.
Proof.
  induction l1 as [|task l1 IH]; intros output_dir out1 results; simpl.
  - intros Hrun. by exists output_dir, [], results.
  - destruct (job output_dir task) as [out0 [r|e]]; [|done].
    destruct (executor_map job in_flight (l1 ++ l2) out0) as [out'' [rs|e]] eqn:Hrest;
      [|done].
    intros [= -> <-].
    destruct (IH _ _ _ Hrest) as (out' & rs1 & rs2 & H1 & H2 & -> & Hlen).
    exists out', (r :: rs1), rs2. rewrite H1. split_and!; [done..|]. simpl. by rewrite Hlen.
Qed.

Lemma executor_map_app_ok job in_flight (l1 l2 : list string) :
  ∀ (output_dir out' out1 : gmap string Graph) rs1 rs2,
  executor_map job in_flight l1 output_dir = (out', Ok rs1) →
  executor_map job in_flight l2 out' = (out1, Ok rs2) →
  executor_map job in_flight (l1 ++ l2) output_dir = (out1, Ok (rs1 ++ rs2)).
Proof.
  induction l1 as [|task l1 IH]; intros output_dir out' out1 rs1 rs2; simpl.
  - by intros [= -> <-].
  - destruct (job output_dir task) as [out0 [r|e]]; [|done].
    destruct (executor_map job in_flight l1 out0) as [out'' [rs|e]] eqn:H1; [|done].
    intros [= -> <-] H2. by rewrite (IH _ _ _ _ _ H1 H2).
Qed.

(** C6. With the PAE flag set, when the job gets as far as the PAE block
    (lines 25-106 raise nothing) and the side file cannot be read as
    JSON or its record lacks predicted_aligned_error, the job returns
    from the except clause with its message, raises nothing and leaves
    the output directory as it was. In a batch whose other tasks raise
    nothing, wherever the failing task stands in the queue, the batch
    returns one result per task, the failure at its place; the jobs
    before and after it run as they do without it and leave the same
    output directory, in which the failing protein has no artifact and
    every other task has its artifact or ended in an except clause of
    its own. *)
Theorem pae_failure_skips_protein (input_dir : list (string * file_content))
    (output_dir : gmap string Graph) (file_name : string)
    (pdb : file_content) (G3 : Graph) (r2ca : list (Z * nat)) :
  let job := λ out name, protein_molecule_graphs input_dir out name true in
  let artifact := PyStr.split_last "/" file_name +:+ ".pkl" in
  let build := λ name,
    build_graph (pydict_get (name +:+ ".pdb") input_dir)
                (pydict_get (name +:+ ".json") input_dir) true in
  output_dir !! artifact = None →
  graph_before_pae (pydict_get (file_name +:+ ".pdb") input_dir) = Ok (pdb, G3, r2ca) →
  pae_input_malformed (read_json (pydict_get (file_name +:+ ".json") input_dir)) →
  ∃ e, pae_block (read_json (pydict_get (file_name +:+ ".json") input_dir)) r2ca G3
         = Raise e ∧
    job output_dir file_name = (output_dir, Ok (PaeFailed e)) ∧
    ∀ in_flight before after (out : gmap string Graph),
      out !! artifact = None →
      Forall (λ task, artifact ≠ PyStr.split_last "/" task +:+ ".pkl") (before ++ after) →
      Forall (λ task, ∃ r, build task = Ok r) (before ++ after) →
      ∃ out1 rs1 rs2,
        length rs1 = length before ∧ length rs2 = length after ∧
        executor_map job in_flight (before ++ file_name :: after) out =
          (out1, Ok (rs1 ++ PaeFailed e :: rs2)) ∧
        executor_map job in_flight (before ++ after) out = (out1, Ok (rs1 ++ rs2)) ∧
        out1 !! artifact = None ∧
        ∀ task, task ∈ before ++ after →
          is_Some (out1 !! (PyStr.split_last "/" task +:+ ".pkl")) ∨
          ∃ e', build task = Ok (inr (PaeFailed e')) ∨
                build task = Ok (inr (DsspFailed e')).
Proof.
  intros job artifact build Habsent Hbefore Hbad.
  destruct (pae_block_malformed _ r2ca G3 Hbad) as [e He].
  assert (∀ out : gmap string Graph, out !! artifact = None →
            job out file_name = (out, Ok (PaeFailed e))) as Hjob.
  { intros out Hout. unfold job. rewrite job_runs_absent by done.
    unfold build_graph. rewrite Hbefore; simpl.
    unfold graph_after_pae. by rewrite He. }
  exists e. split; [done|]. split; [by apply Hjob|].
  intros in_flight before after out Hout Hnames Hbuilds.
  unfold job, build in *.
  destruct (executor_map_total input_dir true in_flight _ Hbuilds out)
    as (out1 & results & Hrun).
  destruct (executor_map_app_inv _ _ _ _ _ _ _ Hrun)
    as (out' & rs1 & rs2 & H1 & H2 & -> & Hlen).
  assert (out' !! artifact = None) as Hout'.
  { pose proof (executor_map_frame input_dir true in_flight before artifact out) as Hfr.
    rewrite H1 in Hfr. simpl in Hfr. rewrite Hfr; [done|].
    by apply Forall_app in Hnames as [? _]. }
  exists out1, rs1, rs2. split; [done|].
  split; [by apply (executor_map_length _ _ _ _ _ _ H2)|].
  split; [|split; [done|split]].
  - apply (executor_map_app_ok _ _ _ _ _ out'); [done|].
    rewrite (executor_map_ok _ _ _ _ _ _ (Hjob out' Hout')). by rewrite H2.
  - pose proof (executor_map_frame input_dir true in_flight (before ++ after) artifact out
                  Hnames) as Hfr.
    rewrite Hrun in Hfr. simpl in Hfr. by rewrite Hfr.
  - intros task Htask.
    destruct (out1 !! (PyStr.split_last "/" task +:+ ".pkl")) as [G|] eqn:Hart;
      [left; by eexists|right].
    destruct (executor_map_no_artifact input_dir true in_flight _ _ _ _ Hrun task Htask Hart)
      as [stop Hstop].
    destruct (build_graph_stop _ _ _ _ Hstop) as [[e' ->]|[e' ->]];
      exists e'; [by left|by right].
Qed.

(** * Further properties of the job *)

(** ** The tables built by overwriting *)

(** A dictionary filled by [d[key(x)] = value(x)] over a list keeps, for
    each key, the value of the last element with that key. *)
Lemma foldl_insert_last {K A V : Type} `{Countable K} (key : A → K) (val : A → V)
    (l : list A) : ∀ (d : gmap K V) (k : K),
  foldl (λ d x, <[key x := val x]> d) d l !! k =
  match last (filter (λ x, key x = k) l) with
  | Some x => Some (val x)
  | None => d !! k
  end.
Proof.
  induction l as [|x l IH]; intros d k; simpl; [done|].
  rewrite IH, filter_cons. case_decide as Hk.
  - rewrite last_cons. destruct (last (filter _ l)); [done|].
    by rewrite <-Hk, lookup_insert_eq.
  - destruct (last (filter _ l)); [done|]. by rewrite lookup_insert_ne.
Qed.

(** X1. The name table maps a serial number to the stripped full name of
    the last atom of the structure (in file order) that carries this
    serial number, and has no entry for a serial number no atom
    carries. *)
Theorem serial_atom_dict_last (structure : PDBStructure) (serial : Z) :
  serial_atom_dict structure !! serial =
  (λ atom, PyStr.strip (fullname atom))
    <$> last (filter (λ atom, serial_number atom = serial) (structure_atoms structure)).
Proof.
  unfold serial_atom_dict.
  rewrite (foldl_insert_last serial_number (λ atom, PyStr.strip (fullname atom))).
  by destruct (last _).
Qed.

(** X2. [run_dssp] keys the analyzer's tuples by their first component:
    when it returns, the mapping holds under each key the last tuple of
    the analyzer's output with that first component; it raises KeyError
    for a structure without model, and the analyzer's exception when the
    analyzer raises. *)
Theorem run_dssp_last (get_st : result PDBStructure) (dssp_out : result (list dssp_tuple)) :
  match get_st, dssp_out with
  | Raise e, _ => run_dssp get_st dssp_out = Raise e
  | Ok [], _ => run_dssp get_st dssp_out = Raise KeyError
  | Ok (_ :: _), Raise e => run_dssp get_st dssp_out = Raise e
  | Ok (_ :: _), Ok dssp =>
      ∃ dssp_data, run_dssp get_st dssp_out = Ok dssp_data ∧
        ∀ key, dssp_data !! key = last (filter (λ res, dssp_index res = key) dssp)
  end.
Proof.
  destruct get_st as [[|model s]|e]; [done| |done].
  destruct dssp_out as [dssp|e]; [|done].
  eexists. split; [done|]. intros key. unfold dssp_dict.
  rewrite (foldl_insert_last dssp_index id). by destruct (last _).
Qed.

(** ** The representative-atom map *)

(** Atom [i] is named CA in the name table and belongs to residue number
    [r]. *)
Definition is_ca_of (names : gmap Z string) (atoms : list Atom) (r : Z) (i : nat)
  : Prop :=
  ∃ atom, atoms !! i = Some atom ∧
    names !! SerialNumber (MonomerInfo atom) = Some "CA" ∧
    ResidueNumber (MonomerInfo atom) = r.

Definition last_ca_of (names : gmap Z string) (atoms : list Atom)
    (r2ca : list (Z * nat)) : Prop :=
  ∀ r,
    (∀ i, pydict_get r r2ca = Some i ↔
          is_ca_of names atoms r i ∧ ∀ j, i < j → ¬ is_ca_of names atoms r j) ∧
    (∀ i, is_ca_of names atoms r i → is_Some (pydict_get r r2ca)).

Lemma is_ca_of_app_l names pre atom r i :
  i < length pre →
  is_ca_of names (pre ++ [atom]) r i ↔ is_ca_of names pre r i.
Proof.
  intros Hi. unfold is_ca_of. by rewrite lookup_app_l.
Qed.

Lemma is_ca_of_lt names atoms r i : is_ca_of names atoms r i → i < length atoms.
Proof. intros (atom & Hi & _). by eapply lookup_lt_Some. Qed.

Lemma is_ca_of_snoc names pre atom r :
  is_ca_of names (pre ++ [atom]) r (length pre) ↔
  names !! SerialNumber (MonomerInfo atom) = Some "CA" ∧
  ResidueNumber (MonomerInfo atom) = r.
Proof.
  unfold is_ca_of. rewrite list_lookup_middle by done. split.
  - by intros (a & [= <-] & ? & ?).
  - intros [? ?]. by exists atom.
Qed.

Lemma add_atom_nodes_last_ca names atoms : ∀ pre G r2ca,
  last_ca_of names pre r2ca →
  last_ca_of names (pre ++ atoms)
    (add_atom_nodes names atoms (length pre) G r2ca).2.
Proof.
  induction atoms as [|atom atoms IH]; intros pre G r2ca Hinv; simpl.
  { by rewrite app_nil_r. }
  set (name := names !! SerialNumber (MonomerInfo atom)).
  set (G1 := add_node G (length pre) (atom_attrs name atom)).
  set (r1 := if decide (name = Some "CA")
             then pydict_set (ResidueNumber (MonomerInfo atom)) (length pre) r2ca
             else r2ca).
  specialize (IH (pre ++ [atom]) G1 r1).
  rewrite length_app, Nat.add_1_r in IH. rewrite <-(assoc_L (++)) in IH. cbn [app] in IH.
  apply IH. clear IH. intros r. destruct (Hinv r) as [Hget Hsome].
  assert (∀ i, is_ca_of names (pre ++ [atom]) r i →
               i = length pre ∨ (i < length pre ∧ is_ca_of names pre r i)) as Hsplit.
  { intros i Hi. pose proof (is_ca_of_lt _ _ _ _ Hi) as Hlt.
    rewrite length_app in Hlt. simpl in Hlt.
    destruct (decide (i = length pre)) as [->|Hne]; [by left|right].
    split; [lia|]. apply is_ca_of_app_l in Hi; [done|lia]. }
  destruct (decide (name = Some "CA" ∧ ResidueNumber (MonomerInfo atom) = r))
    as [[Hname Hr]|Hnot].
  - (* the new atom is the CA of residue [r] *)
    assert (pydict_get r r1 = Some (length pre)) as Hr1.
    { unfold r1. rewrite decide_True by done. rewrite Hr. apply pydict_get_set_eq. }
    assert (is_ca_of names (pre ++ [atom]) r (length pre)) as Hnew
      by by apply is_ca_of_snoc.
    split.
    + intros i. rewrite Hr1. split.
      * intros [= <-]. split; [done|]. intros j Hj Hcaj.
        apply is_ca_of_lt in Hcaj. rewrite length_app in Hcaj. simpl in Hcaj. lia.
      * intros [Hi Hmax]. f_equal.
        destruct (Hsplit i Hi) as [->|[Hlt _]]; [done|].
        by destruct (Hmax (length pre) Hlt).
    + intros i _. by rewrite Hr1.
  - (* the new atom is not the CA of residue [r] *)
    assert (pydict_get r r1 = pydict_get r r2ca) as Hr1.
    { unfold r1. case_decide as Hname; [|done].
      rewrite pydict_get_set_ne; [done|]. intros Hr. by apply Hnot. }
    assert (¬ is_ca_of names (pre ++ [atom]) r (length pre)) as Hnew
      by by rewrite is_ca_of_snoc.
    assert (∀ i, is_ca_of names (pre ++ [atom]) r i ↔ is_ca_of names pre r i) as Hsame.
    { intros i. split.
      - intros Hi. by destruct (Hsplit i Hi) as [->|[_ ?]].
      - intros Hi. apply is_ca_of_app_l; [by eapply is_ca_of_lt|done]. }
    rewrite Hr1. split.
    + intros i. rewrite Hget, Hsame. by setoid_rewrite Hsame.
    + intros i Hi. apply (Hsome i). by apply Hsame.
Qed.

(** X3. After the atom loop, [residue_to_ca_atom] sends a residue number
    to the index of the last atom that is named CA and has this residue
    number - a later chain that restarts the numbering overwrites the
    entry of an earlier one - and has no entry for a residue number
    without such an atom. *)
Theorem residue_to_ca_atom_last (names : gmap Z string) (mol : Mol) (r : Z) :
  let r2ca := (assemble names mol).2 in
  (∀ i, pydict_get r r2ca = Some i ↔
        is_ca_of names (Atoms mol) r i ∧
        ∀ j, i < j → ¬ is_ca_of names (Atoms mol) r j) ∧
  (pydict_get r r2ca = None ↔ ∀ i, ¬ is_ca_of names (Atoms mol) r i).
Proof.
  intros r2ca.
  assert (last_ca_of names (Atoms mol) r2ca) as Hinv.
  { unfold r2ca, assemble.
    pose proof (add_atom_nodes_last_ca names (Atoms mol) [] empty_graph []) as H.
    simpl in H.
    destruct (add_atom_nodes names (Atoms mol) 0 empty_graph []) as [G0 r0].
    apply H. intros r'. split.
    - intros i. split; [done|]. intros [(atom & Hi & _) _].
      by rewrite lookup_nil in Hi.
    - intros i (atom & Hi & _). by rewrite lookup_nil in Hi. }
  destruct (Hinv r) as [Hget Hsome]. split; [done|]. split.
  - intros Hnone i Hi. destruct (Hsome i Hi) as [? ?]. congruence.
  - intros Hno. destruct (pydict_get r r2ca) as [i|] eqn:Hr; [|done].
    destruct (Hget i) as [Hi _]. destruct (Hi eq_refl) as [Hca _].
    by destruct (Hno i).
Qed.

(** ** The edges of the bonds *)

(** The bonds with their index [GetIdx]. *)
Definition indexed_bonds (bonds : list Bond) (first : nat) : list (nat * Bond) :=
  zip (seq first (length bonds)) bonds.

Definition bond_write (mol : Mol) (kb : nat * Bond) : option (nat * nat * attrs) :=
  Some (BeginAtomIdx kb.2, EndAtomIdx kb.2, bond_attrs mol kb.1 kb.2).

(** The bond joins [x] and [y], in either direction. *)
Definition bond_joins (x y : nat) (kb : nat * Bond) : Prop :=
  same_pair x y (BeginAtomIdx kb.2) (EndAtomIdx kb.2).

#[local] Instance bond_joins_dec x y kb : Decision (bond_joins x y kb).
Proof. unfold bond_joins. apply _. Defined.

Definition bond_keys : gset string := {[ "bond_idx"; "bond_order"; "bond_length" ]}.

Lemma bond_attrs_dom mol k bond : dom (bond_attrs mol k bond) = bond_keys.
Proof.
  unfold bond_attrs, bond_keys.
  rewrite !dom_insert_L, ?dom_singleton_L, ?dom_empty_L. set_solver.
Qed.

Lemma backbone_attrs_dom l : dom (backbone_attrs l) = bond_keys.
Proof.
  unfold backbone_attrs, bond_keys.
  rewrite !dom_insert_L, ?dom_singleton_L, ?dom_empty_L. set_solver.
Qed.

Lemma update_same_keys (d a : attrs) : dom d ⊆ dom a → update d a = a.
Proof.
  intros Hsub. unfold update. apply map_eq. intros k.
  destruct (a !! k) as [v|] eqn:Ha.
  - by apply lookup_union_Some_l.
  - apply lookup_union_None. split; [done|].
    apply not_elem_of_dom. intros Hk. apply Hsub in Hk.
    by apply not_elem_of_dom in Ha.
Qed.

Lemma add_bond_edges_foldl mol bonds : ∀ first G,
  add_bond_edges mol bonds first G =
  foldl (λ G kb, write_edge G (bond_write mol kb)) G (indexed_bonds bonds first).
Proof.
  unfold indexed_bonds. induction bonds as [|bond bonds IH]; intros first G; simpl; [done|].
  by rewrite IH.
Qed.

(** The fold of the bond writes on one pair keeps the attributes of the
    last bond that joins the pair. *)
Lemma bond_writes_last mol x y (l : list (nat * Bond)) : ∀ e0 : option attrs,
  (∀ d, e0 = Some d → dom d = bond_keys) →
  foldl (λ e kb, edge_write x y (bond_write mol kb) e) e0 l =
  match last (filter (bond_joins x y) l) with
  | Some kb => Some (bond_attrs mol kb.1 kb.2)
  | None => e0
  end.
Proof.
  induction l as [|kb l IH]; intros e0 He0; simpl; [done|].
  rewrite filter_cons. destruct (decide (bond_joins x y kb)) as [Hj|Hj].
  - rewrite decide_True by exact Hj. rewrite update_same_keys.
    + rewrite IH.
      * rewrite last_cons. by destruct (last (filter _ l)).
      * intros d [= <-]. apply bond_attrs_dom.
    + rewrite bond_attrs_dom. destruct e0 as [d|]; simpl.
      * by rewrite (He0 d).
      * by rewrite dom_empty_L.
  - rewrite decide_False by exact Hj. by apply IH.
Qed.

Lemma assemble_edge names mol x y :
  edge (assemble names mol).1 x y =
  (λ kb, bond_attrs mol kb.1 kb.2)
    <$> last (filter (bond_joins x y) (indexed_bonds (Bonds mol) 0)).
Proof.
  unfold assemble.
  pose proof (add_atom_nodes_spec names (Atoms mol) [] empty_graph []) as H.
  simpl in H.
  destruct (add_atom_nodes names (Atoms mol) 0 empty_graph []) as [G0 r2ca].
  simpl in *.
  destruct H as (_ & HG0 & _ & _ & Hedge0).
  - done.
  - apply empty_graph_simple.
  - intros i a Hi. by rewrite lookup_nil in Hi.
  - split; [apply NoDup_nil_2|]. by intros r i Hget.
  - rewrite add_bond_edges_foldl.
    destruct (foldl_edge (λ G kb, write_edge G (bond_write mol kb))
                (λ kb, edge_write x y (bond_write mol kb)) simple_graph x y
                (indexed_bonds (Bonds mol) 0) G0) as [_ ->].
    + intros G kb _ HG. split; [by apply write_edge_simple|by apply write_edge_edge].
    + done.
    + rewrite bond_writes_last.
      * rewrite Hedge0. by destruct (last _).
      * rewrite Hedge0. by intros d.
Qed.

Lemma indexed_bonds_lookup (bonds : list Bond) : ∀ first k bond,
  (k, bond) ∈ indexed_bonds bonds first →
  first ≤ k ∧ bonds !! (k - first) = Some bond.
Proof.
  unfold indexed_bonds. induction bonds as [|b bonds IH]; intros first k bond; simpl.
  - intros Hin. by apply elem_of_nil in Hin.
  - intros [[= -> ->]|Hin]%elem_of_cons.
    + split; [done|]. by rewrite Nat.sub_diag.
    + destruct (IH _ _ _ Hin) as [Hle Hk]. split; [lia|].
      replace (k - first) with (S (k - S first)) by lia. done.
Qed.

(** X4. After the assembly stage the edges are those of the bonds: a
    pair of nodes joined by a bond, in either direction, has one edge,
    whose attributes are exactly bond_idx, bond_order and bond_length
    with the index (the position in [GetBonds()]), the
    [GetBondTypeAsDouble] and the RDKit length between the two end atoms
    of the last such bond; and a pair no bond joins has no edge. *)
Theorem bond_edges_last (names : gmap Z string) (mol : Mol) (x y : nat) :
  match last (filter (bond_joins x y) (indexed_bonds (Bonds mol) 0)) with
  | Some (k, bond) =>
      Bonds mol !! k = Some bond ∧
      same_pair x y (BeginAtomIdx bond) (EndAtomIdx bond) ∧
      ∃ e, edge (assemble names mol).1 x y = Some e ∧
        dom e = {[ "bond_idx"; "bond_order"; "bond_length" ]} ∧
        e !! "bond_idx" = Some (PInt (Z.of_nat k)) ∧
        e !! "bond_order" = Some (PFloat (BondTypeAsDouble bond)) ∧
        e !! "bond_length" =
          Some (PFloat (GetBondLength mol (BeginAtomIdx bond) (EndAtomIdx bond)))
  | None => edge (assemble names mol).1 x y = None
  end.
Proof.
  rewrite assemble_edge.
  destruct (last (filter (bond_joins x y) (indexed_bonds (Bonds mol) 0)))
    as [[k bond]|] eqn:Hlast; [|done].
  apply last_Some_elem_of, list_elem_of_filter in Hlast as [Hjoins Hin].
  apply indexed_bonds_lookup in Hin as [_ Hk]. rewrite Nat.sub_0_r in Hk.
  split; [done|]. split; [exact Hjoins|].
  eexists. split; [reflexivity|]. simpl.
  split; [apply bond_attrs_dom|].
  unfold bond_attrs. split_and!; by simplify_map_eq.
Qed.

(** ** The attribute names on the edges *)

Definition bond_keyed (e : option attrs) : Prop :=
  ∀ d, e = Some d → dom d = bond_keys.

Lemma edge_adj G G' x y : adj G' = adj G → edge G' x y = edge G x y.
Proof. unfold edge. by intros ->. Qed.

Lemma assemble_bond_keyed names mol x y : bond_keyed (edge (assemble names mol).1 x y).
Proof.
  rewrite assemble_edge. intros d.
  destruct (last _) as [kb|]; simpl; [|done].
  intros [= <-]. apply bond_attrs_dom.
Qed.

Lemma edge_write_bond_keyed x y w e :
  (∀ u v d, w = Some (u, v, d) → dom d = bond_keys) →
  bond_keyed e → bond_keyed (edge_write x y w e).
Proof.
  intros Hw He. destruct w as [[[u v] d]|]; simpl; [|done].
  case_decide; [|done]. intros d' [= <-]. unfold update.
  rewrite dom_union_L, (Hw u v d eq_refl).
  destruct e as [d0|]; simpl; [rewrite (He d0 eq_refl)|rewrite dom_empty_L]; set_solver.
Qed.

Lemma backbone_edge_dom atoms r2ca item u v d :
  backbone_edge atoms r2ca item = Some (u, v, d) → dom d = bond_keys.
Proof.
  unfold backbone_edge.
  destruct (pydict_get _ r2ca) as [next|]; simpl; [|done].
  destruct (atoms !! item.2) as [a1|]; simpl; [|done].
  destruct (atoms !! next) as [a2|]; simpl; [|done].
  intros [= _ _ <-]. apply backbone_attrs_dom.
Qed.

(** The edges up to the PAE block carry the three bond attributes. *)
Lemma before_pae_bond_keyed names mol plddt G2 G3 x y :
  add_backbone_edges (assemble names mol).2 (assemble names mol).1 = Ok G2 →
  add_plddt plddt (Atoms mol) 0 G2 = Ok G3 →
  bond_keyed (edge G3 x y).
Proof.
  intros Hbb Hpl.
  destruct (before_pae_spec _ _ _ _ _ Hbb Hpl) as (_ & _ & Hca & _ & Hadj & _).
  destruct (assemble_spec names mol) as (HG1 & Hnodes & _ & _).
  destruct (add_backbone_edges_spec _ _ _ _ Hca Hnodes HG1) as (Hbb' & _ & _ & Hedge).
  rewrite Hbb in Hbb'. injection Hbb' as Heq.
  rewrite (edge_adj G2 G3) by done. rewrite Heq, Hedge.
  generalize (assemble_bond_keyed names mol x y).
  generalize (edge (assemble names mol).1 x y).
  induction (assemble names mol).2 as [|item l IH] at 2; intros e He; simpl; [done|].
  apply IH. apply edge_write_bond_keyed; [|done].
  intros u v d. apply backbone_edge_dom.
Qed.

(** What the PAE block can do to the edge of a pair. *)
Definition pae_touched (r2ca : list (Z * nat)) (G0 G : Graph) (x y : nat) : Prop :=
  x ≠ y ∧
  ∃ i j u v e,
    i ≠ j ∧
    pydict_get (Z.of_nat i + 1)%Z r2ca = Some u ∧
    pydict_get (Z.of_nat j + 1)%Z r2ca = Some v ∧
    same_pair x y u v ∧
    edge G x y = Some e ∧ is_Some (e !! "pae") ∧
    dom e = dom (default ∅ (edge G0 x y)) ∪ {[ "pae" ]}.

Definition pae_edges_inv (r2ca : list (Z * nat)) (G0 G : Graph) : Prop :=
  pae_inv G0 G ∧ ∀ x y, edge G x y = edge G0 x y ∨ pae_touched r2ca G0 G x y.

Lemma pae_step_edges_inv names atoms r2ca row i j G0 G G' :
  ca_atoms names atoms r2ca → atom_keys atoms G0 →
  pae_edges_inv r2ca G0 G → pae_step r2ca row i G j = Ok G' →
  pae_edges_inv r2ca G0 G'.
Proof.
  intros Hca Hkeys [Hinv Hedges] Hstep.
  split; [by eapply pae_step_inv|].
  unfold pae_step in Hstep. case_decide as Hij; [|by injection Hstep as <-].
  destruct (py_getitem row j) as [pae|]; simpl in Hstep; [|done].
  destruct (pydict_get (Z.of_nat i + 1)%Z r2ca) as [u|] eqn:Hu;
    [|by injection Hstep as <-].
  destruct (pydict_get (Z.of_nat j + 1)%Z r2ca) as [v|] eqn:Hv;
    [|by injection Hstep as <-].
  injection Hstep as <-. intros x y.
  destruct Hinv as [HG _].
  pose proof (add_edge_simple' G u v {[ "pae" := pae ]} x y HG) as Hnew.
  destruct (decide (same_pair x y u v)) as [Hp|Hp].
  - right.
    assert (u ≠ v) as Huv.
    { intros ->. pose proof (ca_atoms_inj _ _ _ _ _ _ Hca Hu Hv). lia. }
    split; [destruct Hp as [[-> ->]|[-> ->]]; congruence|].
    eexists i, j, u, v, _. split; [done|]. split; [done|]. split; [done|].
    split; [done|]. split; [exact Hnew|]. unfold update. split.
    + exists pae. apply lookup_union_Some_l. apply lookup_singleton_eq.
    + rewrite dom_union_L, dom_singleton_L.
      destruct (Hedges x y) as [->|(_ & _ & _ & _ & _ & e & _ & _ & _ & _ & He & _ & Hdom)].
      * apply (comm_L (∪)).
      * rewrite He. simpl. rewrite Hdom.
        rewrite (comm_L (∪) {[ "pae" ]}), <-(assoc_L (∪)). by rewrite (idemp_L (∪)).
  - destruct (Hedges x y) as [Heq|(Hxy & i' & j' & u' & v' & e & ? & ? & ? & ? & ? & ? & ?)].
    + left. by rewrite Hnew.
    + right. split; [done|]. exists i', j', u', v', e. by rewrite Hnew.
Qed.

Lemma pae_block_edges_inv names atoms r2ca json G G' :
  ca_atoms names atoms r2ca → atom_keys atoms G → simple_graph G →
  pae_block json r2ca G = Ok G' → pae_edges_inv r2ca G G'.
Proof.
  intros Hca Hkeys HG. unfold pae_block.
  destruct json as [pae_data|]; simpl; [|done].
  destruct (py_getitem pae_data 0) as [record|]; simpl; [|done].
  destruct (py_contains record _) as [[]|]; simpl; [|done..].
  destruct (py_getitem_str record _) as [pae_matrix|]; simpl; [|done].
  unfold add_pae_edges. destruct (py_len pae_matrix) as [m|]; simpl; [|done].
  apply (for_each_inv _ (pae_edges_inv r2ca G)); [|split; [by split|by left]].
  intros G1 i G1' HG1. unfold pae_row.
  destruct (py_getitem pae_matrix i) as [row|]; simpl; [|done].
  destruct (py_len row) as [n|]; simpl; [|done].
  apply (for_each_inv _ (pae_edges_inv r2ca G)); [|done].
  intros G2 j G2' HG2. by eapply pae_step_edges_inv.
Qed.

(** The edges of the graph that is dumped are those the PAE block left
    (those of the backbone stage without the PAE flag). *)
Lemma dumped_edges pdb json_file include_pae mol structure plddt G2 G3 G4 G5 G6 x y :
  job_stages pdb json_file include_pae mol structure plddt G2 G3 G4 G5 G6 →
  edge G6 x y = edge G4 x y ∧ edge G3 x y = edge G2 x y.
Proof.
  intros [_ _ Hbb _ Hpl _ Hdssp Hco].
  destruct (before_pae_spec _ _ _ _ _ Hbb Hpl) as (_ & _ & _ & _ & Hadj3 & _).
  apply dssp_block_keys in Hdssp as [Hadj5 _].
  apply coords_to_str_keys in Hco as [Hadj6 _].
  split; [|by apply edge_adj].
  rewrite (edge_adj G5 G6) by done. by apply edge_adj.
Qed.

(** X5. Without the PAE flag, every edge of the graph a job dumps
    carries exactly the three attributes bond_idx, bond_order and
    bond_length, whether it comes from a bond or from the backbone
    stage. *)
Theorem dumped_edges_bond_keys (pdb : file_content) (json_file : option file_content)
    (mol : Mol) (structure : PDBStructure) (plddt : gmap Z float)
    (G2 G3 G4 G5 G6 : Graph) :
  job_stages pdb json_file false mol structure plddt G2 G3 G4 G5 G6 →
  ∀ x y e, edge G6 x y = Some e → dom e = bond_keys.
Proof.
  intros Hjob x y e.
  destruct (dumped_edges _ _ _ _ _ _ _ _ _ _ _ x y Hjob) as [-> _].
  destruct Hjob as [_ _ Hbb _ Hpl Hpae _ _]. injection Hpae as <-.
  apply (before_pae_bond_keyed _ _ _ _ _ x y Hbb Hpl).
Qed.

(** X6. With the PAE flag, an edge of the graph a job dumps carries the
    three bond attributes, or these and pae, or pae alone: the PAE loop
    adds pae to an edge that exists and creates an edge with no other
    attribute between representative atoms that were not joined. *)
Theorem dumped_edges_pae_keys (pdb : file_content) (json_file : option file_content)
    (mol : Mol) (structure : PDBStructure) (plddt : gmap Z float)
    (G2 G3 G4 G5 G6 : Graph) :
  job_stages pdb json_file true mol structure plddt G2 G3 G4 G5 G6 →
  ∀ x y e, edge G6 x y = Some e →
    dom e = bond_keys ∨ dom e = bond_keys ∪ {[ "pae" ]} ∨ dom e = {[ "pae" ]}.
Proof.
  intros Hjob x y e.
  destruct (dumped_edges _ _ _ _ _ _ _ _ _ _ _ x y Hjob) as [-> _].
  destruct Hjob as [_ _ Hbb _ Hpl Hpae _ _].
  destruct (before_pae_spec _ _ _ _ _ Hbb Hpl) as (_ & HG3 & Hca & Hkeys & _).
  pose proof (before_pae_bond_keyed _ _ _ _ _ x y Hbb Hpl) as H3.
  destruct (pae_block_edges_inv _ _ _ _ _ _ Hca Hkeys HG3 Hpae) as [_ Hedges].
  destruct (Hedges x y) as [->|(_ & _ & _ & _ & _ & e' & _ & _ & _ & _ & -> & _ & Hdom)].
  - intros He. left. by apply H3.
  - intros [= <-]. rewrite Hdom.
    destruct (edge G3 x y) as [d|]; simpl.
    + right. left. by rewrite (H3 d).
    + right. right. by rewrite dom_empty_L, (left_id_L ∅ (∪)).
Qed.

(** X7. Whatever the side file holds, a PAE block that completes leaves
    the nodes and their data as they were, and changes the edge of a pair
    of nodes only if the two are distinct and are the representative
    atoms of residues i+1 and j+1 for two different matrix indices; such
    an edge then has the attribute pae. *)
Theorem pae_block_only_ca_pairs (names : gmap Z string) (mol : Mol)
    (plddt : gmap Z float) (json : result pyval) (G2 G3 G4 : Graph) :
  let r2ca := (assemble names mol).2 in
  add_backbone_edges r2ca (assemble names mol).1 = Ok G2 →
  add_plddt plddt (Atoms mol) 0 G2 = Ok G3 →
  pae_block json r2ca G3 = Ok G4 →
  nodes G4 = nodes G3 ∧
  ∀ x y, edge G4 x y ≠ edge G3 x y →
    x ≠ y ∧
    ∃ i j u v e,
      i ≠ j ∧
      pydict_get (Z.of_nat i + 1)%Z r2ca = Some u ∧
      pydict_get (Z.of_nat j + 1)%Z r2ca = Some v ∧
      same_pair x y u v ∧ edge G4 x y = Some e ∧ is_Some (e !! "pae").
Proof.
  intros r2ca Hbb Hpl Hpae.
  destruct (before_pae_spec _ _ _ _ _ Hbb Hpl) as (_ & HG3 & Hca & Hkeys & _).
  destruct (pae_block_edges_inv _ _ _ _ _ _ Hca Hkeys HG3 Hpae) as [[_ Hn] Hedges].
  split; [done|]. intros x y Hne.
  destruct (Hedges x y)
    as [?|(Hxy & i & j & u & v & e & ? & ? & ? & ? & ? & ? & _)]; [done|].
  split; [done|]. by exists i, j, u, v, e.
Qed.

(** ** The nodes of the graph that is dumped *)

(** [f"{atom_coords.x},{atom_coords.y},{atom_coords.z}"] *)
Definition coords_text (p : Point3D) : string :=
  float_str (px p) +:+ "," +:+ float_str (py p) +:+ "," +:+ float_str (pz p).

(** The attributes of an atom's node after the pLDDT loop, after the DSSP
    loop and after the coordinate loop. *)
Definition plddt_node_data (names : gmap Z string) (plddt : gmap Z float)
    (atom : Atom) : attrs :=
  <["plddt" := plddt_value plddt atom]>
    (atom_attrs (names !! SerialNumber (MonomerInfo atom)) atom).

Definition dssp_node_data (names : gmap Z string) (plddt : gmap Z float)
    (dssp_data : gmap Z dssp_tuple) (atom : Atom) : attrs :=
  match dssp_data !! ResidueNumber (MonomerInfo atom) with
  | Some res => dssp_attrs res (plddt_node_data names plddt atom)
  | None => plddt_node_data names plddt atom
  end.

Definition dumped_node_data (names : gmap Z string) (plddt : gmap Z float)
    (dssp_data : gmap Z dssp_tuple) (atom : Atom) : attrs :=
  <["atom_coords" := PStr (coords_text (AtomPosition atom))]>
    (dssp_node_data names plddt dssp_data atom).

Lemma dssp_node_atom names plddt dssp_data atom :
  dssp_node dssp_data (plddt_node_data names plddt atom) =
  Ok (dssp_node_data names plddt dssp_data atom).
Proof.
  unfold dssp_node, attr_getitem, plddt_node_data, dssp_node_data.
  rewrite atom_attrs_residue_number; simpl.
  by destruct (dssp_data !! _).
Qed.

Lemma atom_coords_keys : "atom_coords" ∉ dssp_keys.
Proof. apply (bool_decide_unpack _). by vm_compute. Qed.

Lemma coords_node_atom names plddt dssp_data atom :
  coords_node (dssp_node_data names plddt dssp_data atom) =
  Ok (dumped_node_data names plddt dssp_data atom).
Proof.
  unfold coords_node, attr_getitem, dumped_node_data.
  assert (dssp_node_data names plddt dssp_data atom !! "atom_coords"
          = Some (PPoint (AtomPosition atom))) as ->; [|done].
  unfold dssp_node_data. destruct (dssp_data !! _) as [res|].
  - rewrite dssp_attrs_other by apply atom_coords_keys.
    unfold plddt_node_data, atom_attrs. by simplify_map_eq.
  - unfold plddt_node_data, atom_attrs. by simplify_map_eq.
Qed.

Lemma pae_stage_nodes names mol plddt json (include_pae : bool) G2 G3 G4 :
  add_backbone_edges (assemble names mol).2 (assemble names mol).1 = Ok G2 →
  add_plddt plddt (Atoms mol) 0 G2 = Ok G3 →
  (if include_pae then pae_block json (assemble names mol).2 G3 else Ok G3) = Ok G4 →
  nodes G4 = nodes G3.
Proof.
  intros Hbb Hpl Hpae.
  destruct (before_pae_spec _ _ _ _ _ Hbb Hpl) as (_ & HG3 & Hca & Hkeys & _).
  destruct include_pae; [|by injection Hpae as <-]. by eapply pae_block_inv.
Qed.

Lemma dssp_block_inv get_st dssp_out G G5 :
  dssp_block get_st dssp_out G = Ok G5 →
  ∃ dssp_data, run_dssp get_st dssp_out = Ok dssp_data ∧
    for_node_data (dssp_node dssp_data) (nodes G) = Ok (nodes G5).
Proof.
  unfold dssp_block.
  destruct (run_dssp get_st dssp_out) as [dssp_data|] eqn:Hrun; simpl; [|done].
  destruct (for_node_data _ (nodes G)) as [nodes'|] eqn:Hloop; simpl; [|done].
  intros [= <-]. exists dssp_data. split; [reflexivity|exact Hloop].
Qed.

Lemma dumped_node_data_base names plddt dssp_data atom key :
  key ∉ dssp_keys → key ≠ "atom_coords" →
  dumped_node_data names plddt dssp_data atom !! key =
  plddt_node_data names plddt atom !! key.
Proof.
  intros Hkey Hne. unfold dumped_node_data. rewrite lookup_insert_ne by done.
  unfold dssp_node_data. destruct (dssp_data !! _) as [res|]; [|done].
  by apply dssp_attrs_other.
Qed.

Lemma dssp_keys_not_coords key : key ∈ dssp_keys → key ≠ "atom_coords".
Proof. intros Hkey ->. by apply atom_coords_keys. Qed.

(** X8. In the graph a job dumps, the node of every atom carries the
    seven attributes of the atom loop - atom_name (looked up by serial
    number, None when the table has none), atomic_number, degree,
    aromatic, residue_number, residue_name and atom_coords, the last as
    the text "x,y,z" of the atom's position instead of the point - and
    plddt, the mapping's value for its residue number or None; when its
    residue number is a key of the mapping [run_dssp] returns it
    carries the twelve DSSP attributes of that entry, and otherwise
    none of the twelve. *)
Theorem dumped_nodes (pdb : file_content) (json_file : option file_content)
    (include_pae : bool) (mol : Mol) (structure : PDBStructure)
    (plddt : gmap Z float) (G2 G3 G4 G5 G6 : Graph) :
  job_stages pdb json_file include_pae mol structure plddt G2 G3 G4 G5 G6 →
  ∃ dssp_data, run_dssp (get_structure pdb) (DSSP pdb) = Ok dssp_data ∧
    ∀ i atom, Atoms mol !! i = Some atom →
      let info := MonomerInfo atom in
      let p := AtomPosition atom in
      ∃ data, pydict_get i (nodes G6) = Some data ∧
        data !! "atom_name" =
          Some (from_option PStr PNone
                  (serial_atom_dict structure !! SerialNumber info)) ∧
        data !! "atomic_number" = Some (PInt (AtomicNum atom)) ∧
        data !! "degree" = Some (PInt (Degree atom)) ∧
        data !! "aromatic" = Some (PBool (IsAromatic atom)) ∧
        data !! "residue_number" = Some (PInt (ResidueNumber info)) ∧
        data !! "residue_name" = Some (PStr (ResidueName info)) ∧
        data !! "plddt" =
          Some (from_option PFloat PNone (plddt !! ResidueNumber info)) ∧
        data !! "atom_coords" =
          Some (PStr (float_str (px p) +:+ "," +:+ float_str (py p) +:+ ","
                      +:+ float_str (pz p))) ∧
        match dssp_data !! ResidueNumber info with
        | Some res =>
            ∀ key value, (key, value) ∈ dssp_items res → data !! key = Some value
        | None => ∀ key, key ∈ dssp_keys → data !! key = None
        end.
Proof.
  intros [_ _ Hbb _ Hpl Hpae Hdssp Hco].
  destruct (before_pae_spec _ _ _ _ _ Hbb Hpl) as (_ & _ & _ & _ & _ & _ & Hdata3).
  pose proof (pae_stage_nodes _ _ _ _ _ _ _ _ Hbb Hpl Hpae) as Hn4.
  apply dssp_block_inv in Hdssp as (dssp_data & Hrun & Hloop5).
  unfold coords_to_str in Hco.
  destruct (for_node_data coords_node (nodes G5)) as [nodes6|] eqn:Hloop6;
    simpl in Hco; [|done].
  injection Hco as <-. simpl.
  exists dssp_data. split; [done|]. intros i atom Hatom.
  exists (dumped_node_data (serial_atom_dict structure) plddt dssp_data atom).
  split.
  { pose proof (for_node_data_get _ _ _ i Hloop5) as H5.
    rewrite Hn4, (Hdata3 i atom Hatom) in H5. destruct H5 as (data5 & Hbody5 & Hget5).
    fold (plddt_node_data (serial_atom_dict structure) plddt atom) in Hbody5.
    rewrite dssp_node_atom in Hbody5. injection Hbody5 as <-.
    pose proof (for_node_data_get _ _ _ i Hloop6) as H6.
    rewrite Hget5 in H6. destruct H6 as (data6 & Hbody6 & Hget6).
    rewrite coords_node_atom in Hbody6. by injection Hbody6 as <-. }
  assert (∀ key value,
            bool_decide (key ∉ dssp_keys) = true → key ≠ "atom_coords" →
            plddt_node_data (serial_atom_dict structure) plddt atom !! key = Some value →
            dumped_node_data (serial_atom_dict structure) plddt dssp_data atom !! key
              = Some value) as Hkeep.
  { intros key value Hkey%bool_decide_eq_true Hne <-. by apply dumped_node_data_base. }
  split_and!.
  - apply Hkeep; [done..|]. unfold plddt_node_data, atom_attrs. by simplify_map_eq.
  - apply Hkeep; [done..|]. unfold plddt_node_data, atom_attrs. by simplify_map_eq.
  - apply Hkeep; [done..|]. unfold plddt_node_data, atom_attrs. by simplify_map_eq.
  - apply Hkeep; [done..|]. unfold plddt_node_data, atom_attrs. by simplify_map_eq.
  - apply Hkeep; [done..|]. unfold plddt_node_data, atom_attrs. by simplify_map_eq.
  - apply Hkeep; [done..|]. unfold plddt_node_data, atom_attrs. by simplify_map_eq.
  - apply Hkeep; [done..|]. unfold plddt_node_data, plddt_value.
    by rewrite lookup_insert_eq.
  - unfold dumped_node_data. by rewrite lookup_insert_eq.
  - unfold dumped_node_data, dssp_node_data.
    destruct (dssp_data !! ResidueNumber (MonomerInfo atom)) as [res|].
    + intros key value Hin.
      assert (key ∈ dssp_keys) as Hkey.
      { rewrite <-(dssp_items_keys res). apply list_elem_of_fmap. by exists (key, value). }
      rewrite lookup_insert_ne by (symmetry; by apply dssp_keys_not_coords).
      pose proof (dssp_attrs_items res
                    (plddt_node_data (serial_atom_dict structure) plddt atom)) as Hall.
      rewrite Forall_forall in Hall. by apply (Hall (key, value)).
    + intros key Hkey.
      rewrite lookup_insert_ne by (symmetry; by apply dssp_keys_not_coords).
      pose proof (atom_attrs_no_dssp
                    (serial_atom_dict structure !! SerialNumber (MonomerInfo atom)) atom
                    (plddt_value plddt atom)) as Hall.
      rewrite Forall_forall in Hall. by apply Hall.
Qed.

(** ** Which exceptions leave a job *)

#[local] Instance has_ca_dec residue : Decision (has_ca residue).
Proof.
  unfold has_ca. destruct (residue_getitem residue "CA") as [ca|e].
  - left. by exists ca.
  - right. by intros [ca ?].
Defined.

Lemma residue_getitem_raise residue name e :
  residue_getitem residue name = Raise e → e = KeyError.
Proof.
  unfold residue_getitem. destruct (list_find _ _) as [[? ?]|]; [done|].
  by intros [= <-].
Qed.

Lemma plddt_loop_no_ca residues : ∀ d,
  ¬ Forall has_ca residues → for_each plddt_step residues d = Raise KeyError.
Proof.
  induction residues as [|residue residues IH]; intros d Hnot; simpl.
  - destruct Hnot. constructor.
  - destruct (residue_getitem residue "CA") as [ca|e] eqn:Hca.
    + assert (plddt_step d residue = Ok (<[resseq residue := bfactor ca]> d)) as ->
        by (unfold plddt_step; by rewrite Hca).
      simpl. apply IH. intros Hall. apply Hnot. constructor; [by exists ca|done].
    + assert (plddt_step d residue = Raise KeyError) as ->; [|done].
      unfold plddt_step. by rewrite Hca, (residue_getitem_raise _ _ _ Hca).
Qed.

Lemma setup_runs names mol plddt :
  ∃ G2 G3,
    add_backbone_edges (assemble names mol).2 (assemble names mol).1 = Ok G2 ∧
    add_plddt plddt (Atoms mol) 0 G2 = Ok G3.
Proof.
  destruct (assemble_spec names mol) as (HG1 & Hnodes & Hca & _).
  destruct (add_backbone_edges_spec names (Atoms mol) _ _ Hca Hnodes HG1)
    as (Hbb & _ & Hn2 & _).
  eexists. destruct (add_plddt_spec plddt (Atoms mol) 0
    (foldl (λ G item, write_edge G (backbone_edge (Atoms mol) (assemble names mol).2 item))
       (assemble names mol).1 (assemble names mol).2)) as (G3 & Hpl & _).
  { intros i Hi. simpl. rewrite Hn2.
    destruct (lookup_lt_is_Some_2 (Atoms mol) i Hi) as [atom Hatom].
    apply pydict_get_is_Some. rewrite (Hnodes i atom Hatom). by eexists. }
  exists G3. split; [exact Hbb|exact Hpl].
Qed.

Lemma graph_before_pae_cases (pdb_file : option file_content) :
  match pdb_file with
  | None => graph_before_pae pdb_file = Raise OSError
  | Some pdb =>
      match MolFromPDBFile pdb with
      | None => graph_before_pae pdb_file = Raise AttributeError
      | Some mol =>
          match NumConformers mol, get_structure pdb with
          | 0, _ => graph_before_pae pdb_file = Raise ValueError
          | S _, Raise e => graph_before_pae pdb_file = Raise e
          | S _, Ok structure =>
              if decide (Forall has_ca (structure_residues structure)) then
                ∃ plddt G2 G3,
                  plddt_dict structure = Ok plddt ∧
                  add_backbone_edges (assemble (serial_atom_dict structure) mol).2
                    (assemble (serial_atom_dict structure) mol).1 = Ok G2 ∧
                  add_plddt plddt (Atoms mol) 0 G2 = Ok G3 ∧
                  graph_before_pae pdb_file =
                    Ok (pdb, G3, (assemble (serial_atom_dict structure) mol).2)
              else graph_before_pae pdb_file = Raise KeyError
          end
      end
  end.
Proof.
  unfold graph_before_pae. destruct pdb_file as [pdb|]; simpl; [|done].
  destruct (MolFromPDBFile pdb) as [mol|]; simpl; [|done].
  unfold GetConformer. destruct (NumConformers mol) as [|n]; simpl; [done|].
  destruct (get_structure pdb) as [structure|e]; simpl; [|done].
  case_decide as Hall.
  - destruct (plddt_loop_spec _ ∅ Hall) as (plddt & Hpd & _).
    destruct (setup_runs (serial_atom_dict structure) mol plddt)
      as (G2 & G3 & Hbb & Hpl).
    exists plddt, G2, G3. split; [exact Hpd|]. split; [exact Hbb|]. split; [exact Hpl|].
    destruct (assemble (serial_atom_dict structure) mol) as [G1 r2ca].
    simpl in Hbb, Hpl |- *. rewrite Hbb. simpl.
    unfold plddt_dict in Hpd |- *. rewrite Hpd. simpl. by rewrite Hpl.
  - destruct (setup_runs (serial_atom_dict structure) mol ∅) as (G2 & _ & Hbb & _).
    destruct (assemble (serial_atom_dict structure) mol) as [G1 r2ca].
    simpl in Hbb |- *. rewrite Hbb. simpl.
    unfold plddt_dict. by rewrite (plddt_loop_no_ca _ ∅ Hall).
Qed.

(** X9. Before the PAE block a job raises in exactly five situations,
    tried in this order: the structure file is missing (the parser
    raises), RDKit returns None for it (AttributeError at
    [mol.UpdatePropertyCache]), the molecule has no conformer
    (ValueError at [mol.GetConformer]), the Biopython parser raises
    (the same exception), or some residue of the structure has no atom
    named CA (KeyError at [residue['CA']]). In every other case the
    assembly, the backbone loop with its distance computation and the
    pLDDT loop all complete. *)
Theorem setup_outcome (pdb_file : option file_content) :
  match pdb_file with
  | None => graph_before_pae pdb_file = Raise OSError
  | Some pdb =>
      match MolFromPDBFile pdb with
      | None => graph_before_pae pdb_file = Raise AttributeError
      | Some mol =>
          match NumConformers mol, get_structure pdb with
          | 0, _ => graph_before_pae pdb_file = Raise ValueError
          | S _, Raise e => graph_before_pae pdb_file = Raise e
          | S _, Ok structure =>
              if decide (Forall has_ca (structure_residues structure)) then
                ∃ plddt G2 G3,
                  plddt_dict structure = Ok plddt ∧
                  add_backbone_edges (assemble (serial_atom_dict structure) mol).2
                    (assemble (serial_atom_dict structure) mol).1 = Ok G2 ∧
                  add_plddt plddt (Atoms mol) 0 G2 = Ok G3 ∧
                  graph_before_pae pdb_file =
                    Ok (pdb, G3, (assemble (serial_atom_dict structure) mol).2)
              else graph_before_pae pdb_file = Raise KeyError
          end
      end
  end.
Proof. apply graph_before_pae_cases. Qed.

Lemma for_node_data_elem_of body l l' n d' :
  for_node_data body l = Ok l' → (n, d') ∈ l' →
  ∃ d, (n, d) ∈ l ∧ body d = Ok d'.
Proof.
  revert l'. induction l as [|[node data] l IH]; intros l'; simpl.
  - intros [= <-] Hin. by apply elem_of_nil in Hin.
  - destruct (body data) as [data'|] eqn:Hbody; simpl; [|done].
    destruct (for_node_data body l) as [l''|]; simpl; [|done].
    intros [= <-] [[= -> ->]|Hin]%elem_of_cons.
    + exists data. split; [left|done].
    + destruct (IH l'' eq_refl Hin) as (d & Hd & Hb). exists d. split; [by right|done].
Qed.

Lemma atom_items names mol plddt G2 G3 node data :
  bonds_in_range mol →
  add_backbone_edges (assemble names mol).2 (assemble names mol).1 = Ok G2 →
  add_plddt plddt (Atoms mol) 0 G2 = Ok G3 →
  (node, data) ∈ nodes G3 →
  ∃ atom, Atoms mol !! node = Some atom ∧ data = plddt_node_data names plddt atom.
Proof.
  intros Hbonds Hbb Hpl Hin.
  destruct (before_pae_spec _ _ _ _ _ Hbb Hpl) as (_ & _ & _ & _ & _ & Hkeys3 & Hdata3).
  destruct (assemble_spec names mol) as (_ & _ & _ & Hkeys1).
  rewrite (Hkeys1 Hbonds) in Hkeys3.
  assert (node ∈ pydict_keys (nodes G3)) as Hnode
    by (apply list_elem_of_fmap; by exists (node, data)).
  rewrite Hkeys3, elem_of_seq in Hnode.
  destruct (lookup_lt_is_Some_2 (Atoms mol) node) as [atom Hatom]; [lia|].
  exists atom. split; [done|].
  apply pydict_elem_of_get in Hin; [|rewrite Hkeys3; apply NoDup_seq].
  rewrite (Hdata3 node atom Hatom) in Hin. by injection Hin.
Qed.

Lemma node_loops_run names mol plddt G2 G3 G4 dssp_data :
  bonds_in_range mol →
  add_backbone_edges (assemble names mol).2 (assemble names mol).1 = Ok G2 →
  add_plddt plddt (Atoms mol) 0 G2 = Ok G3 →
  nodes G4 = nodes G3 →
  ∃ nodes5 nodes6,
    for_node_data (dssp_node dssp_data) (nodes G4) = Ok nodes5 ∧
    for_node_data coords_node nodes5 = Ok nodes6.
Proof.
  intros Hbonds Hbb Hpl Hn4.
  destruct (for_node_data_total (dssp_node dssp_data) (nodes G4)) as [nodes5 Hloop5].
  { intros node data Hin. rewrite Hn4 in Hin.
    destruct (atom_items _ _ _ _ _ _ _ Hbonds Hbb Hpl Hin) as (atom & _ & ->).
    rewrite dssp_node_atom. by eexists. }
  destruct (for_node_data_total coords_node nodes5) as [nodes6 Hloop6].
  { intros node data5 Hin.
    destruct (for_node_data_elem_of _ _ _ _ _ Hloop5 Hin) as (data & Hin4 & Hbody).
    rewrite Hn4 in Hin4.
    destruct (atom_items _ _ _ _ _ _ _ Hbonds Hbb Hpl Hin4) as (atom & _ & ->).
    rewrite dssp_node_atom in Hbody. injection Hbody as <-.
    rewrite coords_node_atom. by eexists. }
  by exists nodes5, nodes6.
Qed.

Lemma graph_after_pae_cases names mol plddt G2 G3 pdb json_file (include_pae : bool) :
  bonds_in_range mol →
  add_backbone_edges (assemble names mol).2 (assemble names mol).1 = Ok G2 →
  add_plddt plddt (Atoms mol) 0 G2 = Ok G3 →
  let after := graph_after_pae pdb G3 (assemble names mol).2 json_file include_pae in
  match (if include_pae
         then pae_block (read_json json_file) (assemble names mol).2 G3
         else Ok G3) with
  | Raise e => after = Ok (inr (PaeFailed e))
  | Ok G4 =>
      match run_dssp (get_structure pdb) (DSSP pdb) with
      | Raise e => after = Ok (inr (DsspFailed e))
      | Ok dssp_data => ∃ G6, after = Ok (inl G6)
      end
  end.
Proof.
  intros Hbonds Hbb Hpl after. subst after. unfold graph_after_pae.
  destruct (if include_pae then _ else _) as [G4|e] eqn:Hpae; [|done].
  pose proof (pae_stage_nodes _ _ _ _ _ _ _ _ Hbb Hpl Hpae) as Hn4.
  unfold dssp_block.
  destruct (run_dssp (get_structure pdb) (DSSP pdb)) as [dssp_data|e]; simpl; [|done].
  destruct (node_loops_run _ _ _ _ _ G4 dssp_data Hbonds Hbb Hpl Hn4)
    as (nodes5 & nodes6 & Hloop5 & Hloop6).
  rewrite Hloop5. simpl. unfold coords_to_str. simpl. rewrite Hloop6. simpl.
  by eexists.
Qed.

(** X10. After the pLDDT loop nothing raises out of a job (for a
    molecule whose bonds join atoms of the molecule): an exception of
    the PAE block ends the job at its except clause, an exception of
    [run_dssp] at the DSSP except clause, and otherwise the DSSP node
    loop and the coordinate loop both complete, so the function reaches
    the dump. In particular the DSSP except clause is entered only for
    an exception of [run_dssp], never for one of the node loop. *)
Theorem job_ends_after_setup (names : gmap Z string) (mol : Mol)
    (plddt : gmap Z float) (G2 G3 : Graph) (pdb : file_content)
    (json_file : option file_content) (include_pae : bool) :
  bonds_in_range mol →
  add_backbone_edges (assemble names mol).2 (assemble names mol).1 = Ok G2 →
  add_plddt plddt (Atoms mol) 0 G2 = Ok G3 →
  let after := graph_after_pae pdb G3 (assemble names mol).2 json_file include_pae in
  match (if include_pae
         then pae_block (read_json json_file) (assemble names mol).2 G3
         else Ok G3) with
  | Raise e => after = Ok (inr (PaeFailed e))
  | Ok G4 =>
      match run_dssp (get_structure pdb) (DSSP pdb) with
      | Raise e => after = Ok (inr (DsspFailed e))
      | Ok dssp_data => ∃ G6, after = Ok (inl G6)
      end
  end.
Proof. apply graph_after_pae_cases. Qed.

Lemma job_raise_iff_setup (input_dir : list (string * file_content))
    (output_dir : gmap string Graph) (file_name : string) (include_pae : bool)
    (e : exn) :
  (∀ pdb mol, pydict_get (file_name +:+ ".pdb") input_dir = Some pdb →
     MolFromPDBFile pdb = Some mol → bonds_in_range mol) →
  (protein_molecule_graphs input_dir output_dir file_name include_pae).2 = Raise e ↔
  output_dir !! (PyStr.split_last "/" file_name +:+ ".pkl") = None ∧
  graph_before_pae (pydict_get (file_name +:+ ".pdb") input_dir) = Raise e.
Proof.
  intros Hbonds.
  destruct (output_dir !! (PyStr.split_last "/" file_name +:+ ".pkl")) as [G|] eqn:Hout.
  { rewrite job_skips_existing by (rewrite Hout; by eexists). simpl.
    split; [done|]. by intros [? _]. }
  rewrite (job_runs_absent _ _ _ _ Hout). unfold build_graph.
  pose proof (graph_before_pae_cases (pydict_get (file_name +:+ ".pdb") input_dir))
    as Hcases.
  destruct (pydict_get (file_name +:+ ".pdb") input_dir) as [pdb|] eqn:Hpdb.
  2: { rewrite Hcases. simpl. split; [by intros [= <-]|by intros [_ [= <-]]]. }
  destruct (MolFromPDBFile pdb) as [mol|] eqn:Hmol.
  2: { rewrite Hcases. simpl. split; [by intros [= <-]|by intros [_ [= <-]]]. }
  destruct (NumConformers mol) as [|n].
  { rewrite Hcases. simpl. split; [by intros [= <-]|by intros [_ [= <-]]]. }
  destruct (get_structure pdb) as [structure|e0] eqn:Hst.
  2: { rewrite Hcases. simpl. split; [by intros [= <-]|by intros [_ [= <-]]]. }
  destruct (decide (Forall has_ca (structure_residues structure))) as [Hall|Hall].
  2: { rewrite Hcases. simpl. split; [by intros [= <-]|by intros [_ [= <-]]]. }
  destruct Hcases as (plddt & G2 & G3 & _ & Hbb & Hpl & ->). simpl.
  pose proof (graph_after_pae_cases _ _ _ _ _ pdb
                (pydict_get (file_name +:+ ".json") input_dir) include_pae
                (Hbonds pdb mol eq_refl Hmol) Hbb Hpl) as Hafter.
  simpl in Hafter.
  split; [|by intros [_ ?]]. intros Hraise. exfalso.
  destruct (if include_pae then _ else _) as [G4|e1].
  - destruct (run_dssp (get_structure pdb) (DSSP pdb)) as [dssp_data|e1].
    + destruct Hafter as [G6 Hafter]. by rewrite Hafter in Hraise.
    + by rewrite Hafter in Hraise.
  - by rewrite Hafter in Hraise.
Qed.

(** X11. A job raises only in its setup: for a task whose structure
    file, when RDKit parses it, gives a molecule whose bonds join atoms
    of the molecule, the job raises [e] exactly when the artifact is
    absent and one of five things happens before the PAE block: the
    structure file is missing ([e] is OSError), RDKit returns None
    (AttributeError), the molecule has no conformer (ValueError), the
    Biopython parser raises [e], or some residue has no atom named CA
    (KeyError). Past the pLDDT loop a job only returns. *)
Theorem job_raises_only_in_setup (input_dir : list (string * file_content))
    (output_dir : gmap string Graph) (file_name : string) (include_pae : bool)
    (e : exn) :
  (∀ pdb mol, pydict_get (file_name +:+ ".pdb") input_dir = Some pdb →
     MolFromPDBFile pdb = Some mol → bonds_in_range mol) →
  (protein_molecule_graphs input_dir output_dir file_name include_pae).2 = Raise e ↔
  output_dir !! (PyStr.split_last "/" file_name +:+ ".pkl") = None ∧
  match pydict_get (file_name +:+ ".pdb") input_dir with
  | None => e = OSError
  | Some pdb =>
      match MolFromPDBFile pdb with
      | None => e = AttributeError
      | Some mol =>
          match NumConformers mol, get_structure pdb with
          | 0, _ => e = ValueError
          | S _, Raise e' => e = e'
          | S _, Ok structure =>
              ¬ Forall has_ca (structure_residues structure) ∧ e = KeyError
          end
      end
  end.
Proof.
  intros Hbonds. rewrite (job_raise_iff_setup _ _ _ _ _ Hbonds).
  pose proof (graph_before_pae_cases (pydict_get (file_name +:+ ".pdb") input_dir))
    as Hcases.
  assert (∀ e1 : exn,
            @Raise (file_content * Graph * list (Z * nat)) e1 = Raise e ↔ e = e1) as Hinj.
  { intros e1. split; [by intros [= ->]|by intros ->]. }
  destruct (pydict_get (file_name +:+ ".pdb") input_dir) as [pdb|];
    [|by rewrite Hcases, Hinj].
  destruct (MolFromPDBFile pdb) as [mol|]; [|by rewrite Hcases, Hinj].
  destruct (NumConformers mol) as [|n]; [by rewrite Hcases, Hinj|].
  destruct (get_structure pdb) as [structure|e0]; [|by rewrite Hcases, Hinj].
  destruct (decide (Forall has_ca (structure_residues structure))) as [Hall|Hall].
  - destruct Hcases as (plddt & G2 & G3 & _ & _ & _ & ->).
    split; [by intros [_ ?]|]. by intros [_ [? _]].
  - rewrite Hcases, Hinj. split; intros [? ?]; [by split|by destruct_and!].
Qed.

(** ** The batch and the output directory *)

(** X12. A batch never deletes or rewrites a file of the output
    directory: whatever the jobs do, whether the collector raises or
    not and however many jobs were in flight, every artifact present
    before the batch is present and unchanged after it. *)
Theorem batch_keeps_artifacts (input_dir : list (string * file_content))
    (output_dir : gmap string Graph) (include_pae : bool) (in_flight : nat) :
  output_dir ⊆ (alpha_nx input_dir output_dir include_pae in_flight).1.
Proof.
  apply map_subseteq_spec. intros key G Hkey.
  by apply executor_map_keeps_artifacts.
Qed.

(** X13. After a batch in which no job raised, a second batch on the
    same directories raises nothing and leaves the output directory
    exactly as the first one left it, with as many results as structure
    files still without artifact. *)
Theorem batch_rerun_writes_nothing (input_dir : list (string * file_content))
    (output_dir out1 : gmap string Graph) (include_pae : bool)
    (in_flight in_flight' : nat) (results : list job_end) :
  alpha_nx input_dir output_dir include_pae in_flight = (out1, Ok results) →
  ∃ results',
    alpha_nx input_dir out1 include_pae in_flight' = (out1, Ok results') ∧
    length results' = length (pending_tasks input_dir out1).
Proof.
  intros Hrun.
  destruct (alpha_nx_rerun _ _ _ _ _ in_flight' _ Hrun) as [results' Hrerun].
  exists results'. split; [exact Hrerun|].
  unfold alpha_nx in Hrerun. by eapply executor_map_length.
Qed.

(** X14. A batch in which no job raised returns one result per task,
    and afterwards every structure file listed in the input directory
    either has its artifact in the output directory or its job ended in
    the except clause of the PAE block or of the DSSP block. *)
Theorem batch_complete_run (input_dir : list (string * file_content))
    (output_dir out1 : gmap string Graph) (include_pae : bool)
    (in_flight : nat) (results : list job_end) :
  alpha_nx input_dir output_dir include_pae in_flight = (out1, Ok results) →
  length results = length (pending_tasks input_dir output_dir) ∧
  ∀ file, file ∈ listdir input_dir → PyStr.endswith file ".pdb" = true →
    let file_name := PyStr.splitext_root file in
    is_Some (out1 !! (file_name +:+ ".pkl")) ∨
    ∃ e, build_graph (pydict_get (file_name +:+ ".pdb") input_dir)
           (pydict_get (file_name +:+ ".json") input_dir) include_pae
         = Ok (inr (PaeFailed e)) ∨
         build_graph (pydict_get (file_name +:+ ".pdb") input_dir)
           (pydict_get (file_name +:+ ".json") input_dir) include_pae
         = Ok (inr (DsspFailed e)).
Proof.
  intros Hrun. split; [unfold alpha_nx in Hrun; by eapply executor_map_length|].
  intros file Hfile Hpdb file_name.
  destruct (out1 !! (file_name +:+ ".pkl")) as [G|] eqn:Hout1; [left; by eexists|].
  right.
  assert (PyStr.split_last "/" file_name +:+ ".pkl" = file_name +:+ ".pkl") as Hname.
  { f_equal. apply task_output_name.
    unfold listdir in Hfile. by apply list_elem_of_filter in Hfile as [? _]. }
  destruct (executor_map_no_artifact input_dir include_pae in_flight _ _ _ _ Hrun file_name)
    as [stop Hstop].
  - apply pending_tasks_spec. exists file. split_and!; try done.
    destruct (output_dir !! (file_name +:+ ".pkl")) as [G|] eqn:Hout; [|done].
    pose proof (executor_map_keeps_artifacts input_dir include_pae in_flight
                  (pending_tasks input_dir output_dir) output_dir _ G Hout) as Hkeep.
    unfold alpha_nx in Hrun. rewrite Hrun in Hkeep. simpl in Hkeep. congruence.
  - by rewrite Hname.
  - destruct (build_graph_stop _ _ _ _ Hstop) as [[e ->]|[e ->]];
      exists e; [by left|by right].
Qed.

Lemma rindex_dot_app l1 l2 : ∀ i found,
  "."%char ∉ l2 →
  PyStr.rindex_dot (l1 ++ "."%char :: l2) i found = Some (i + length l1).
Proof.
  induction l1 as [|c l1 IH]; intros i found Hl2; cbn [app PyStr.rindex_dot length].
  - rewrite decide_True by done. rewrite Nat.add_0_r.
    clear found. generalize (S i). revert Hl2.
    induction l2 as [|c l2 IH2]; intros Hl2 k; cbn [PyStr.rindex_dot]; [done|].
    apply not_elem_of_cons in Hl2 as [Hc Hl2].
    rewrite decide_False by done. by apply IH2.
  - rewrite IH by done. f_equal. lia.
Qed.

(** X15. The task of a structure file: [os.path.splitext] of a listed
    name [n + ".pdb"] (a listed name holds no directory separator) is
    [n], so that the job reads the very file that was listed, unless
    [n] consists of dots only (or is empty): then the whole name is the
    root, and the job looks for [n + ".pdb.pdb"]. *)
Theorem splitext_pdb (n : string) :
  PyStr.splitext_root (n +:+ ".pdb") =
  if forallb (λ c, bool_decide (c = "."%char)) (PyStr.chars n)
  then n +:+ ".pdb" else n.
Proof.
  unfold PyStr.splitext_root. rewrite chars_app.
  change (PyStr.chars ".pdb") with ("."%char :: PyStr.chars "pdb").
  rewrite rindex_dot_app.
  2: { apply (bool_decide_unpack _). by vm_compute. }
  simpl. rewrite take_app_length.
  destruct (forallb _ (PyStr.chars n)); [done|]. apply of_chars_chars.
Qed.

(** X16. The tasks of a batch are exactly the roots of the names listed
    in the input directory that end in ".pdb" and whose pickle (root +
    ".pkl") is not in the output directory: filtering the listing of the
    output directory for ".pkl" names first loses nothing. *)
Theorem pending_tasks_iff (input_dir : list (string * file_content))
    (output_dir : gmap string Graph) (file_name : string) :
  file_name ∈ pending_tasks input_dir output_dir ↔
  ∃ file, file ∈ listdir input_dir ∧ PyStr.endswith file ".pdb" = true ∧
    file_name = PyStr.splitext_root file ∧
    output_dir !! (file_name +:+ ".pkl") = None.
Proof. apply pending_tasks_spec. Qed.

(** X22. The batch and the job agree on the name of the artifact: for a
    name listed in the input directory, the pickle name [alpha_nx]
    looks for among the processed files (root + ".pkl") is the name
    under which the job of that task checks and writes its artifact
    ([file_name.split("/")[-1] + ".pkl"]). *)
Theorem batch_and_job_artifact_name (input_dir : list (string * file_content))
    (file : string) :
  file ∈ listdir input_dir →
  PyStr.split_last "/" (PyStr.splitext_root file) +:+ ".pkl" =
  PyStr.splitext_root file +:+ ".pkl".
Proof.
  intros Hfile. f_equal. apply task_output_name.
  unfold listdir in Hfile. by apply list_elem_of_filter in Hfile as [? _].
Qed.

End Model.

Arguments PNone {float}.
Arguments PBool {float} b.
Arguments PInt {float} z.
Arguments PFloat {float} f.
Arguments PStr {float} s.
Arguments PList {float} l.
Arguments PDict {float} d.
Arguments PPoint {float} p.
Arguments Build_Point3D {float} px py pz.
Arguments Build_Atom {float} AtomicNum Degree IsAromatic MonomerInfo AtomPosition.
Arguments Build_Bond {float} BeginAtomIdx EndAtomIdx BondTypeAsDouble.
Arguments Build_Mol {float} Atoms Bonds NumConformers.
Arguments Build_PDBAtom {float} serial_number fullname atom_id bfactor.
Arguments Build_PDBResidue {float} resseq child_list.
Arguments Build_file_content {float} MolFromPDBFile get_structure DSSP json_load.
Arguments nodes {float} g.
Arguments adj {float} g.
Arguments edge {float} G u v.
Arguments Atoms {float} m.

(** * A two-residue protein

    The floats of the example are integers: coordinates and confidence
    values in tenths, the norm as the sum of the squares. *)

Definition ex_sub : Z → Z → Z := Z.sub.
Definition ex_norm (v : list Z) : Z := foldr (λ c acc, c * c + acc)%Z 0%Z v.
Definition ex_str (f : Z) : string := pretty f.

Definition ex_atom (serial residue_number atomic_num : Z) (x y z : Z) : Atom Z :=
  Build_Atom atomic_num 2 false
    (Build_AtomPDBResidueInfo serial residue_number "ALA") (Build_Point3D x y z).

(** N, CA, C of residue 1 and N, CA, C of residue 2, bonded in a chain. *)
Definition ex_mol : Mol Z :=
  Build_Mol
    [ ex_atom 1 1 7 0 0 0; ex_atom 2 1 6 15 0 0; ex_atom 3 1 6 30 0 0;
      ex_atom 4 2 7 30 13 0; ex_atom 5 2 6 30 28 0; ex_atom 6 2 6 30 43 0 ]
    [ Build_Bond 0 1 10%Z; Build_Bond 1 2 10%Z; Build_Bond 2 3 10%Z;
      Build_Bond 3 4 10%Z; Build_Bond 4 5 10%Z ]
    1.

Definition ex_bond_length (mol : Mol Z) (i j : nat) : Z :=
  match Atoms mol !! i, Atoms mol !! j with
  | Some a, Some b =>
      ex_norm [ (px Z (AtomPosition Z a) - px Z (AtomPosition Z b))%Z;
                (py Z (AtomPosition Z a) - py Z (AtomPosition Z b))%Z;
                (pz Z (AtomPosition Z a) - pz Z (AtomPosition Z b))%Z ]
  | _, _ => 0%Z
  end.

Definition ex_pdb_atom (serial : Z) (fullname : string) (b : Z) : PDBAtom Z :=
  Build_PDBAtom serial fullname (PyStr.strip fullname) b.

Definition ex_structure : list (list (list (PDBResidue Z))) :=
  [[[ Build_PDBResidue 1
        [ex_pdb_atom 1 " N  " 905; ex_pdb_atom 2 " CA " 910; ex_pdb_atom 3 " C  " 915];
      Build_PDBResidue 2
        [ex_pdb_atom 4 " N  " 805; ex_pdb_atom 5 " CA " 810; ex_pdb_atom 6 " C  " 815] ]]].

(** The analyzer reports the first residue only. *)
Definition ex_dssp : list (dssp_tuple Z) :=
  [ Build_dssp_tuple Z 1 (PStr "A") (PStr "H") (PInt 5) (PInt (-600)) (PInt (-450))
      (PInt (-4)) (PInt (-20)) (PInt 4) (PInt (-18)) (PInt 0) (PInt 0) (PInt 0)
      (PInt 0) ].

(** An error matrix that is not symmetric. *)
Definition ex_rows : list (pyval Z) :=
  [ PList [PInt 0; PInt 15]; PList [PInt 25; PInt 0] ].

Definition ex_entry (i j : nat) : pyval Z :=
  match ex_rows !! i with
  | Some (PList row) => default PNone (row !! j)
  | _ => PNone
  end.

Definition ex_json : pyval Z :=
  PList [ PDict {[ "predicted_aligned_error" := PList ex_rows ]} ].

Definition ex_pdb_file : file_content Z :=
  Build_file_content (Some ex_mol) (Ok ex_structure) (Ok ex_dssp) (Raise JSONDecodeError).

Definition ex_json_file (v : pyval Z) : file_content Z :=
  Build_file_content None (Raise OtherError) (Raise OtherError) (Ok v).

(** A file that is not a structure file, under a [.pdb] name. *)
Definition ex_bad_file : file_content Z :=
  Build_file_content None (Raise OtherError) (Raise OtherError) (Raise JSONDecodeError).

Definition ex_names : gmap Z string := serial_atom_dict Z ex_structure.
Definition ex_G1 : Graph Z := (assemble Z ex_bond_length ex_names ex_mol).1.
Definition ex_r2ca : list (Z * nat) := (assemble Z ex_bond_length ex_names ex_mol).2.

Definition ex_graph (r : result (Graph Z)) : Graph Z :=
  match r with
  | Ok G => G
  | Raise _ => empty_graph Z
  end.

Definition ex_plddt : gmap Z Z :=
  match plddt_dict Z ex_structure with
  | Ok d => d
  | Raise _ => ∅
  end.

Definition ex_G2 : Graph Z := ex_graph (add_backbone_edges Z ex_sub ex_norm ex_r2ca ex_G1).
Definition ex_G3 : Graph Z := ex_graph (add_plddt Z ex_plddt (Atoms ex_mol) 0 ex_G2).
Definition ex_G4 : Graph Z := ex_graph (add_pae_edges Z ex_r2ca (PList ex_rows) ex_G3).

Definition ex_job (input_dir : list (string * file_content Z)) (include_pae : bool)
    (out : gmap string (Graph Z)) (name : string) :=
  protein_molecule_graphs Z ex_bond_length ex_sub ex_norm ex_str input_dir out name
    include_pae.

Definition ex_alpha_nx (input_dir : list (string * file_content Z))
    (out : gmap string (Graph Z)) (include_pae : bool) (in_flight : nat) :=
  alpha_nx Z ex_bond_length ex_sub ex_norm ex_str input_dir out include_pae in_flight.

Definition is_ok {A : Type} (r : result A) : bool :=
  match r with
  | Ok _ => true
  | Raise _ => false
  end.

Lemma ex_graph_ok (r : result (Graph Z)) : is_ok r = true → r = Ok (ex_graph r).
Proof. by destruct r. Defined.

Example ex_r2ca_value : ex_r2ca = [(1%Z, 1); (2%Z, 4)].
Proof. vm_compute. reflexivity. Defined.

Example ex_backbone_runs : add_backbone_edges Z ex_sub ex_norm ex_r2ca ex_G1 = Ok ex_G2.
Proof. apply ex_graph_ok. vm_compute. reflexivity. Defined.

Example ex_plddt_runs : add_plddt Z ex_plddt (Atoms ex_mol) 0 ex_G2 = Ok ex_G3.
Proof. apply ex_graph_ok. vm_compute. reflexivity. Defined.

Example ex_pae_runs : add_pae_edges Z ex_r2ca (PList ex_rows) ex_G3 = Ok ex_G4.
Proof. apply ex_graph_ok. vm_compute. reflexivity. Defined.

Lemma ex_bonds_in_range : bonds_in_range Z ex_mol.
Proof. unfold bonds_in_range. repeat constructor; simpl; lia. Defined.

Lemma ex_square_matrix : square_matrix Z 2 (PList ex_rows) ex_entry.
Proof.
  exists ex_rows. split; [reflexivity|]. split; [reflexivity|].
  intros [|[|i]] Hi; [| |lia].
  - exists [PInt 0; PInt 15]. split; [reflexivity|]. split; [reflexivity|].
    intros [|[|j]] Hj; [reflexivity..|lia].
  - exists [PInt 25; PInt 0]. split; [reflexivity|]. split; [reflexivity|].
    intros [|[|j]] Hj; [reflexivity..|lia].
Defined.

Lemma Ok_inj {A : Type} (a b : A) : Ok a = Ok b → a = b.
Proof. intros H. injection H as ->. reflexivity. Defined.

Definition ex_pae_block : result (Graph Z) := pae_block Z (Ok ex_json) ex_r2ca ex_G3.

Example ex_pae_block_runs :
  pae_block Z (Ok ex_json) ex_r2ca ex_G3 = Ok (ex_graph ex_pae_block).
Proof. apply ex_graph_ok. vm_compute. reflexivity. Defined.

Definition ex_G5 : Graph Z :=
  ex_graph (dssp_block Z (Ok ex_structure) (Ok ex_dssp) ex_G4).

(** The attribute names on a node. *)
Definition ex_node_keys (G : Graph Z) (node : nat) : gset string :=
  dom (default ∅ (pydict_get node (nodes G))).

(** The side file of [p1] holds a record without the field. *)
Definition ex_json_no_field : pyval Z :=
  PList [ PDict {[ "max_predicted_aligned_error" := PInt 31 ]} ].

(** Three proteins with their side files; that of [p1] lacks the
    field. *)
Definition ex_dir_pae : list (string * file_content Z) :=
  [ ("p0.pdb", ex_pdb_file); ("p0.json", ex_json_file ex_json);
    ("p1.pdb", ex_pdb_file); ("p1.json", ex_json_file ex_json_no_field);
    ("p2.pdb", ex_pdb_file); ("p2.json", ex_json_file ex_json) ].

Definition is_dumped (r : result (Graph Z + job_end)) : bool :=
  match r with
  | Ok (inl _) => true
  | _ => false
  end.

(** A third residue, a water molecule: one oxygen atom and no CA. *)
Definition ex_water_mol : Mol Z :=
  Build_Mol (Atoms ex_mol ++ [ex_atom 7 3 8 60 60 0]) (Bonds Z ex_mol) 1.

Definition ex_water_structure : list (list (list (PDBResidue Z))) :=
  [[[ Build_PDBResidue 1
        [ex_pdb_atom 1 " N  " 905; ex_pdb_atom 2 " CA " 910; ex_pdb_atom 3 " C  " 915];
      Build_PDBResidue 2
        [ex_pdb_atom 4 " N  " 805; ex_pdb_atom 5 " CA " 810; ex_pdb_atom 6 " C  " 815];
      Build_PDBResidue 3 [ex_pdb_atom 7 " O  " 300] ]]].

Definition ex_water_dir : list (string * file_content Z) :=
  [ ("w1.pdb", Build_file_content (Some ex_water_mol) (Ok ex_water_structure)
                 (Ok ex_dssp) (Raise JSONDecodeError)) ].

(** The structure with the water molecule, listed before a good file. *)
Definition ex_water_batch : list (string * file_content Z) :=
  ex_water_dir ++ [ ("p1.pdb", ex_pdb_file) ].

Definition ex_water_r2ca : list (Z * nat) :=
  (assemble Z ex_bond_length (serial_atom_dict Z ex_water_structure) ex_water_mol).2.

(** An input directory with a file RDKit cannot parse listed first. *)
Definition ex_dir_bad_first : list (string * file_content Z) :=
  [ ("bad.pdb", ex_bad_file); ("p1.pdb", ex_pdb_file) ].

(** The same with seven good files after the bad one. *)
Definition ex_dir_eight : list (string * file_content Z) :=
  [ ("bad.pdb", ex_bad_file); ("p1.pdb", ex_pdb_file); ("p2.pdb", ex_pdb_file);
    ("p3.pdb", ex_pdb_file); ("p4.pdb", ex_pdb_file); ("p5.pdb", ex_pdb_file);
    ("p6.pdb", ex_pdb_file); ("p7.pdb", ex_pdb_file) ].

(** Two runs of the batch on [ex_dir_eight], the first from an empty
    output directory: [in_flight] later jobs have been handed to the
    workers when the failure of [bad] is collected in the first run,
    [in_flight'] in the second. *)
Definition ex_first_run (in_flight : nat)
  : gmap string (Graph Z) * result (list job_end) :=
  ex_alpha_nx ex_dir_eight ∅ false in_flight.

Definition ex_second_run (in_flight in_flight' : nat)
  : gmap string (Graph Z) * result (list job_end) :=
  ex_alpha_nx ex_dir_eight (ex_first_run in_flight).1 false in_flight'.

(** ** Instances of the theorems *)

(** C7 on the example: the CA atoms 1 and 4 of residues 1 and 2, at
    (15,0,0) and (30,28,0), are joined by one backbone edge whose
    bond_length is the norm of (-15,-28,0), which for the norm of the
    example is 225 + 784 + 0. *)
Lemma backbone_edge_correct_witness :
  ∃ e, edge ex_G2 1 4 = Some e ∧ edge ex_G2 4 1 = Some e ∧
       e !! "bond_idx" = Some (PInt 0) ∧ e !! "bond_order" = Some (PInt 0) ∧
       e !! "bond_length" = Some (PFloat 1009%Z).
Proof.
  destruct (backbone_edge_correct Z ex_bond_length ex_sub ex_norm ex_names ex_mol)
    as (G2 & Hrun & _ & _ & Hedge & _).
  fold ex_G1 ex_r2ca in Hrun, Hedge.
  rewrite ex_backbone_runs in Hrun. apply Ok_inj in Hrun. subst G2.
  destruct (Hedge 1%Z 1 4)
    as (atom_u & atom_v & data_u & data_v & pu & pv & e & _ & Hu & Hv & Hpu & Hpv &
        _ & _ & _ & _ & H14 & H41 & Hidx & Hord & Hlen & _).
  - vm_compute. reflexivity.
  - vm_compute. reflexivity.
  - change (Some (ex_atom 2 1 6 15 0 0) = Some atom_u) in Hu. apply (inj Some) in Hu.
    change (Some (ex_atom 5 2 6 30 28 0) = Some atom_v) in Hv. apply (inj Some) in Hv.
    subst atom_u atom_v pu pv.
    exists e. split; [exact H14|]. split; [exact H41|]. split; [exact Hidx|].
    split; [exact Hord|exact Hlen].
Defined.

(** X23 on the example: both residues have a CA atom, and the mapping
    holds the B-factor of the CA atom of residue 1. *)
Lemma confidence_broadcast_witness :
  (∀ i, i < length (Atoms ex_mol) → i ∈ pydict_keys (nodes ex_G2)) ∧
  Forall (has_ca Z) (structure_residues Z ex_structure) ∧
  ∃ plddt G3, plddt_dict Z ex_structure = Ok plddt ∧
    add_plddt Z plddt (Atoms ex_mol) 0 ex_G2 = Ok G3 ∧
    plddt !! 1%Z = Some 910%Z ∧ plddt !! 3%Z = None.
Proof.
  assert (∀ i, i < length (Atoms ex_mol) → i ∈ pydict_keys (nodes ex_G2)) as Hkeys.
  { intros i Hi.
    assert (pydict_keys (nodes ex_G2) = seq 0 6) as -> by (vm_compute; reflexivity).
    apply elem_of_seq. simpl in Hi. lia. }
  assert (Forall (has_ca Z) (structure_residues Z ex_structure)) as Hca.
  { repeat constructor; eexists; vm_compute; reflexivity. }
  split; [exact Hkeys|]. split; [exact Hca|].
  destruct (confidence_broadcast Z ex_structure ex_mol ex_G2 Hkeys Hca)
    as (plddt & G3 & Hdict & Hrun & Hmap & _).
  exists plddt, G3. split; [exact Hdict|]. split; [exact Hrun|].
  rewrite !Hmap. split; vm_compute; reflexivity.
Defined.

(** C4 (amended) on the example, with the PAE flag set: the node of
    atom 0, of residue 1, gets the secondary structure of the one
    record of the analyzer's output; the node of atom 3, of residue 2,
    gets none. *)
Lemma secondary_structure_twelve_witness :
  bonds_in_range Z ex_mol ∧
  ∃ G5 data0 data3,
    dssp_block Z (Ok ex_structure) (Ok ex_dssp) (ex_graph ex_pae_block) = Ok G5 ∧
    pydict_keys (nodes G5) = pydict_keys (nodes (ex_graph ex_pae_block)) ∧
    pydict_get 0 (nodes G5) = Some data0 ∧
    data0 !! "secondary_structure" = Some (PStr "H") ∧
    pydict_get 3 (nodes G5) = Some data3 ∧
    data3 !! "secondary_structure" = None.
Proof.
  split; [exact ex_bonds_in_range|].
  destruct (secondary_structure_twelve Z ex_bond_length ex_sub ex_norm ex_names ex_mol
              ex_plddt (Ok ex_json) true ex_G2 ex_G3 (ex_graph ex_pae_block)
              (Ok ex_structure) (Ok ex_dssp) (dssp_dict Z ex_dssp))
    as (_ & _ & records & G5 & Hout & Hrun & Hkeys & Hnodes).
  - exact ex_bonds_in_range.
  - exact ex_backbone_runs.
  - exact ex_plddt_runs.
  - exact ex_pae_block_runs.
  - reflexivity.
  - apply Ok_inj in Hout. subst records.
    destruct (Hnodes 0 (ex_atom 1 1 7 0 0 0) eq_refl) as (d0 & data0 & _ & Hget0 & Hin).
    destruct (Hnodes 3 (ex_atom 4 2 7 30 13 0) eq_refl) as (d3 & data3 & _ & Hget3 & Hout).
    rewrite decide_True in Hin by (apply elem_of_dom; eexists; reflexivity).
    rewrite decide_False in Hout by (apply not_elem_of_dom; reflexivity).
    destruct Hin as (res & Hres & _ & Hitems & _).
    apply list_elem_of_singleton in Hres. subst res.
    destruct Hout as [_ Hnone].
    exists G5, data0, data3. split; [exact Hrun|]. split; [exact Hkeys|].
    split; [exact Hget0|]. split; [apply Hitems; left|].
    split; [exact Hget3|]. apply Hnone. left.
Defined.

(** C5 (amended) on the example: for the indices 0 and 1 the edge
    between the CA atoms 1 and 4 carries matrix[1][0]. *)
Lemma pae_edges_lower_triangle_witness :
  square_matrix Z 2 (PList ex_rows) ex_entry ∧
  ∃ G4 e, add_pae_edges Z ex_r2ca (PList ex_rows) ex_G3 = Ok G4 ∧
    edge G4 1 4 = Some e ∧ edge G4 4 1 = Some e ∧ e !! "pae" = Some (PInt 25).
Proof.
  split; [exact ex_square_matrix|].
  destruct (pae_edges_lower_triangle Z ex_bond_length ex_sub ex_norm ex_names ex_mol
              ex_plddt ex_G2 ex_G3 2 (PList ex_rows) ex_entry
              ex_backbone_runs ex_plddt_runs ex_square_matrix)
    as (G4 & Hrun & _ & Hedge & _).
  destruct (Hedge 0 1 1 4) as (_ & e & H14 & H41 & Hpae);
    [lia|lia|lia|vm_compute; reflexivity..|].
  exists G4, e. split; [exact Hrun|]. split; [exact H14|]. split; [exact H41|exact Hpae].
Defined.

(** C10 on the example: the PAE loop puts pae on the backbone edge
    between the CA atoms 1 and 4. *)
Lemma simple_graph_pae_merge_witness :
  square_matrix Z 2 (PList ex_rows) ex_entry ∧
  ∃ G4, add_pae_edges Z ex_r2ca (PList ex_rows) ex_G3 = Ok G4 ∧
    simple_graph Z G4 ∧
    edge G4 1 4 = Some (<["pae" := ex_entry 1 0]> (default ∅ (edge ex_G3 1 4))) ∧
    edge G4 4 1 = edge G4 1 4.
Proof.
  split; [exact ex_square_matrix|].
  destruct (simple_graph_pae_merge Z ex_bond_length ex_sub ex_norm ex_str ex_names ex_mol
              ex_plddt ex_G2 ex_G3 2 (PList ex_rows) ex_entry
              ex_backbone_runs ex_plddt_runs ex_square_matrix)
    as (G4 & Hrun & _ & _ & _ & HG4 & _ & Hedge).
  destruct (Hedge 0 1 1 4) as (H14 & H41 & _);
    [lia|lia|vm_compute; reflexivity..|].
  exists G4. split; [exact Hrun|]. split; [exact HG4|]. split; [exact H14|exact H41].
Defined.

(** C8 on the example: six atoms, nodes 0 to 5. *)
Lemma node_coverage_witness :
  bonds_in_range Z ex_mol ∧
  length (nodes ex_G1) = 6 ∧ pydict_keys (nodes ex_G1) = [0; 1; 2; 3; 4; 5].
Proof.
  split; [exact ex_bonds_in_range|].
  destruct (node_coverage Z ex_bond_length ex_sub ex_norm ex_str ex_names ex_mol
              ex_bonds_in_range) as (Hlen & Hkeys & _).
  split; [exact Hlen|exact Hkeys].
Defined.

Lemma is_ok_ex {A : Type} (r : result A) : is_ok r = true → ∃ a, r = Ok a.
Proof. destruct r as [a|e]; [by exists a|discriminate]. Defined.

(** C6 on the example: in the queue p0, p1, p2 the side file of p1
    lacks the field; the batch returns three results, the second the
    failure of p1, and leaves no artifact for p1 and one for p2. *)
Lemma pae_failure_skips_protein_witness :
  pae_input_malformed Z (read_json Z (pydict_get "p1.json" ex_dir_pae)) ∧
  ∃ e out1 results,
    ex_job ex_dir_pae true ∅ "p1" = (∅, Ok (PaeFailed e)) ∧
    executor_map Z (ex_job ex_dir_pae true) 0 ["p0"; "p1"; "p2"] ∅ = (out1, Ok results) ∧
    length results = 3 ∧ results !! 1 = Some (PaeFailed e) ∧
    out1 !! "p1.pkl" = None ∧ is_Some (out1 !! "p2.pkl").
Proof.
  assert (pae_input_malformed Z (read_json Z (pydict_get "p1.json" ex_dir_pae)))
    as Hbad.
  { right.
    exists ex_json_no_field, (PDict {[ "max_predicted_aligned_error" := PInt 31 ]}).
    split; [reflexivity|]. split; [reflexivity|]. vm_compute. reflexivity. }
  split; [exact Hbad|].
  assert (is_ok (graph_before_pae Z ex_bond_length ex_sub ex_norm
                   (pydict_get ("p1" +:+ ".pdb") ex_dir_pae)) = true) as Hok
    by (vm_compute; reflexivity).
  destruct (graph_before_pae Z ex_bond_length ex_sub ex_norm
              (pydict_get ("p1" +:+ ".pdb") ex_dir_pae))
    as [[[pdb G3] r2ca]|e0] eqn:Hbefore; [|discriminate Hok].
  assert (∀ name, name ∈ ["p0"; "p2"] →
            is_dumped (build_graph Z ex_bond_length ex_sub ex_norm ex_str
                         (pydict_get (name +:+ ".pdb") ex_dir_pae)
                         (pydict_get (name +:+ ".json") ex_dir_pae) true) = true)
    as Hgood.
  { intros name Hname. rewrite !elem_of_cons, elem_of_nil in Hname.
    destruct Hname as [->|[->|[]]]; vm_compute; reflexivity. }
  destruct (pae_failure_skips_protein Z ex_bond_length ex_sub ex_norm ex_str
              ex_dir_pae ∅ "p1" pdb G3 r2ca) as (e & _ & Hjob & Hbatch).
  - reflexivity.
  - exact Hbefore.
  - exact Hbad.
  - destruct (Hbatch 0 ["p0"] ["p2"] ∅)
      as (out1 & rs1 & rs2 & Hlen1 & Hlen2 & Hlong & _ & Hnone & Hothers).
    + reflexivity.
    + repeat constructor; discriminate.
    + apply Forall_forall. intros name Hname. apply is_ok_ex.
      specialize (Hgood name Hname).
      by destruct (build_graph _ _ _ _ _ _ _ _) as [[G|stop]|e0].
    + exists e, out1, (rs1 ++ PaeFailed e :: rs2).
      split; [exact Hjob|]. split; [exact Hlong|].
      split; [rewrite length_app; simpl; rewrite Hlen1, Hlen2; reflexivity|].
      split; [apply list_lookup_middle; by rewrite Hlen1|].
      split; [exact Hnone|].
      destruct (Hothers "p2") as [Hsome|[e' [Hstop|Hstop]]].
      * right. left.
      * exact Hsome.
      * pose proof (Hgood "p2" ltac:(right; left)) as Hp2.
        rewrite Hstop in Hp2. discriminate Hp2.
      * pose proof (Hgood "p2" ltac:(right; left)) as Hp2.
        rewrite Hstop in Hp2. discriminate Hp2.
Defined.

(** ** Where the program departs from the specification *)

(** C4 as stated fails: the node of atom 0, whose residue number is a
    key of the analyzer's mapping, gets twelve new attributes, not
    eleven. *)
Lemma dssp_writes_twelve_not_eleven :
  is_ok (dssp_block Z (Ok ex_structure) (Ok ex_dssp) ex_G4) = true ∧
  size (ex_node_keys ex_G5 0 ∖ ex_node_keys ex_G4 0) = 12 ∧
  size (ex_node_keys ex_G5 0 ∖ ex_node_keys ex_G4 0) ≠ 11.
Proof.
  split; [vm_compute; reflexivity|].
  assert (size (ex_node_keys ex_G5 0 ∖ ex_node_keys ex_G4 0) = 12) as ->
    by (vm_compute; reflexivity).
  split; [reflexivity|lia].
Qed.

(** C5 as stated fails: for i = 0 and j = 1 the representative atoms are
    1 and 4, matrix[0][1] is 15, and the edge between them carries 25,
    which is matrix[1][0]. *)
Lemma pae_upper_entry_overwritten :
  pydict_get 1%Z ex_r2ca = Some 1 ∧ pydict_get 2%Z ex_r2ca = Some 4 ∧
  ex_entry 0 1 = PInt 15 ∧
  edge ex_G4 1 4 ≫= (λ e, e !! "pae") = Some (PInt 25) ∧
  edge ex_G4 1 4 ≫= (λ e, e !! "pae") ≠ Some (ex_entry 0 1).
Proof.
  assert (edge ex_G4 1 4 ≫= (λ e, e !! "pae") = Some (PInt 25)) as Hpae
    by (vm_compute; reflexivity).
  split; [vm_compute; reflexivity|]. split; [vm_compute; reflexivity|].
  split; [reflexivity|]. split; [exact Hpae|].
  rewrite Hpae. intros H. discriminate H.
Qed.

(** C2, the program at a failing input: [bad.pdb] cannot be parsed and
    [p1.pdb] is a good file. The job of [bad] raises AttributeError, the
    orchestrator raises it in turn whatever the pool has started, and
    when nothing else had started no artifact exists afterwards, although
    the batch on [p1.pdb] alone writes [p1.pkl]. *)
Theorem parse_failure_stops_batch :
  pending_tasks Z ex_dir_bad_first ∅ = ["bad"; "p1"] ∧
  (∀ in_flight,
     (ex_alpha_nx ex_dir_bad_first ∅ false in_flight).2 = Raise AttributeError) ∧
  ex_alpha_nx ex_dir_bad_first ∅ false 0 = (∅, Raise AttributeError) ∧
  dom (ex_alpha_nx [("p1.pdb", ex_pdb_file)] ∅ false 0).1 = {["p1.pkl"]}.
Proof.
  assert (pending_tasks Z ex_dir_bad_first ∅ = ["bad"; "p1"]) as Htasks
    by (vm_compute; reflexivity).
  split; [exact Htasks|]. split; [|split; vm_compute; reflexivity].
  intros in_flight. unfold ex_alpha_nx, alpha_nx. rewrite Htasks.
  rewrite (executor_map_parse_failure Z ex_bond_length ex_sub ex_norm ex_str
             ex_dir_bad_first ∅ "bad" false ex_bad_file in_flight ["p1"]);
    reflexivity.
Qed.

(** C3, the program at a failing input: the structure of [w1.pdb] has
    a third residue, a water molecule, without CA atom. The
    representative-atom map has no entry for it and the backbone loop,
    which looks residues up with [.get], completes; a lookup with
    [.get] in a confidence mapping without residue 3 gives None, as
    line 105 does. But line 99 reads [residue['CA']]: it raises
    KeyError, outside any [try]; the job of [w1] ends with that
    exception, and so does the batch, whatever the pool has started. *)
Theorem missing_ca_aborts_job :
  ¬ Forall (has_ca Z) (structure_residues Z ex_water_structure) ∧
  pydict_get 3%Z ex_water_r2ca = None ∧
  is_ok (add_backbone_edges Z ex_sub ex_norm ex_water_r2ca
           (assemble Z ex_bond_length (serial_atom_dict Z ex_water_structure)
              ex_water_mol).1) = true ∧
  plddt_value Z ex_plddt (ex_atom 7 3 8 60 60 0) = PNone ∧
  plddt_dict Z ex_water_structure = Raise KeyError ∧
  ex_job ex_water_batch false ∅ "w1" = (∅, Raise KeyError) ∧
  pending_tasks Z ex_water_batch ∅ = ["w1"; "p1"] ∧
  ∀ in_flight, (ex_alpha_nx ex_water_batch ∅ false in_flight).2 = Raise KeyError.
Proof.
  assert (ex_job ex_water_batch false ∅ "w1" = (∅, Raise KeyError)) as Hjob
    by (vm_compute; reflexivity).
  assert (pending_tasks Z ex_water_batch ∅ = ["w1"; "p1"]) as Htasks
    by (vm_compute; reflexivity).
  split.
  { intros Hall. unfold structure_residues in Hall. simpl in Hall.
    apply Forall_cons in Hall as [_ Hall]. apply Forall_cons in Hall as [_ Hall].
    apply Forall_cons in Hall as [[ca Hca] _]. vm_compute in Hca. discriminate Hca. }
  split; [vm_compute; reflexivity|]. split; [vm_compute; reflexivity|].
  split; [vm_compute; reflexivity|]. split; [vm_compute; reflexivity|].
  split; [exact Hjob|]. split; [exact Htasks|].
  intros in_flight. unfold ex_alpha_nx, alpha_nx. rewrite Htasks.
  unfold ex_job in Hjob.
  by rewrite (executor_map_raise Z
                (λ out name, protein_molecule_graphs Z ex_bond_length ex_sub ex_norm
                               ex_str ex_water_batch out name false)
                in_flight "w1" ["p1"] ∅ ∅ KeyError Hjob).
Qed.

(** The second run of the batch on [ex_dir_eight]: [bad] fails again,
    and the first good file still without artifact is processed when at
    least one later job has started. *)
Lemma ex_rerun_step (in_flight in_flight' : nat) (next : string) (rest : list string) :
  pending_tasks Z ex_dir_eight (ex_first_run in_flight).1 = "bad" :: next :: rest →
  (ex_first_run in_flight).1 !! "bad.pkl" = None →
  is_Some ((ex_job ex_dir_eight false (ex_first_run in_flight).1 next).1
             !! (next +:+ ".pkl")) →
  0 < in_flight' →
  (ex_second_run in_flight in_flight').2 = Raise AttributeError ∧
  is_Some ((ex_second_run in_flight in_flight').1 !! (next +:+ ".pkl")).
Proof.
  intros Htasks Hbad [G Hnext] Hpos.
  unfold ex_second_run, ex_alpha_nx, alpha_nx. rewrite Htasks.
  rewrite (executor_map_parse_failure Z ex_bond_length ex_sub ex_norm ex_str
             ex_dir_eight (ex_first_run in_flight).1 "bad" false ex_bad_file in_flight'
             (next :: rest) Hbad eq_refl eq_refl).
  split; [reflexivity|]. simpl.
  destruct in_flight' as [|n]; [lia|]. simpl. exists G.
  by apply run_in_flight_keeps_artifacts.
Qed.

(** C1, the program at a failing input: [bad.pdb] cannot be parsed and
    is listed first, seven good files follow, and the pool has handed
    fewer than seven later jobs to its workers when the failure of
    [bad] is collected. Both runs of the batch raise; the first leaves
    [in_flight] artifacts, and the second, if it starts any later job
    at all, writes the artifact of a good file the first run left
    without one: the set of artifacts after the second run differs
    from the set after the first. *)
Theorem rerun_after_parse_failure_adds_artifact (in_flight in_flight' : nat) :
  in_flight < 7 → 0 < in_flight' →
  (ex_first_run in_flight).2 = Raise AttributeError ∧
  (ex_second_run in_flight in_flight').2 = Raise AttributeError ∧
  size (dom (ex_first_run in_flight).1) = in_flight ∧
  (∃ name, (ex_first_run in_flight).1 !! name = None ∧
           is_Some ((ex_second_run in_flight in_flight').1 !! name)) ∧
  dom (ex_second_run in_flight in_flight').1 ≠ dom (ex_first_run in_flight).1.
Proof.
  intros Hlt Hpos.
  assert (∃ next rest,
            (ex_first_run in_flight).2 = Raise AttributeError ∧
            size (dom (ex_first_run in_flight).1) = in_flight ∧
            (ex_first_run in_flight).1 !! (next +:+ ".pkl") = None ∧
            pending_tasks Z ex_dir_eight (ex_first_run in_flight).1
              = "bad" :: next :: rest ∧
            (ex_first_run in_flight).1 !! "bad.pkl" = None ∧
            is_Some ((ex_job ex_dir_eight false (ex_first_run in_flight).1 next).1
                       !! (next +:+ ".pkl")))
    as (next & rest & Hraise & Hsize & Hnone & Htasks & Hbad & Hnext).
  { destruct in_flight as [|[|[|[|[|[|[|k]]]]]]]; [..|lia].
    - exists "p1", ["p2"; "p3"; "p4"; "p5"; "p6"; "p7"].
      split_and!; [vm_compute; reflexivity..|].
      apply (bool_decide_unpack _). vm_compute. reflexivity.
    - exists "p2", ["p3"; "p4"; "p5"; "p6"; "p7"].
      split_and!; [vm_compute; reflexivity..|].
      apply (bool_decide_unpack _). vm_compute. reflexivity.
    - exists "p3", ["p4"; "p5"; "p6"; "p7"].
      split_and!; [vm_compute; reflexivity..|].
      apply (bool_decide_unpack _). vm_compute. reflexivity.
    - exists "p4", ["p5"; "p6"; "p7"].
      split_and!; [vm_compute; reflexivity..|].
      apply (bool_decide_unpack _). vm_compute. reflexivity.
    - exists "p5", ["p6"; "p7"].
      split_and!; [vm_compute; reflexivity..|].
      apply (bool_decide_unpack _). vm_compute. reflexivity.
    - exists "p6", ["p7"].
      split_and!; [vm_compute; reflexivity..|].
      apply (bool_decide_unpack _). vm_compute. reflexivity.
    - exists "p7", [].
      split_and!; [vm_compute; reflexivity..|].
      apply (bool_decide_unpack _). vm_compute. reflexivity. }
  destruct (ex_rerun_step in_flight in_flight' next rest Htasks Hbad Hnext Hpos)
    as [Hraise2 Hsome].
  assert (next +:+ ".pkl" ∉ dom (ex_first_run in_flight).1) as Hout
    by (by apply not_elem_of_dom).
  assert (next +:+ ".pkl" ∈ dom (ex_second_run in_flight in_flight').1) as Hin
    by (by apply elem_of_dom).
  split; [exact Hraise|]. split; [exact Hraise2|]. split; [exact Hsize|].
  split; [by exists (next +:+ ".pkl")|].
  intros Heq. apply Hout. by rewrite <-Heq.
Qed.

(** C1 at two later jobs in flight in each run: the first run leaves
    the artifacts of p1 and p2, the second adds those of p3 and p4. *)
Lemma rerun_after_parse_failure_adds_artifact_witness :
  dom (ex_first_run 2).1 = {[ "p1.pkl"; "p2.pkl" ]} ∧
  dom (ex_second_run 2 2).1 = {[ "p1.pkl"; "p2.pkl"; "p3.pkl"; "p4.pkl" ]} ∧
  dom (ex_second_run 2 2).1 ≠ dom (ex_first_run 2).1.
Proof.
  split; [vm_compute; reflexivity|]. split; [vm_compute; reflexivity|].
  destruct (rerun_after_parse_failure_adds_artifact 2 2) as (_ & _ & _ & _ & Hne);
    [lia|lia|exact Hne].
Defined.

(** * The dataset [Alphafold] (alphafold_dataset.py)

    The root directory maps a name to what [torch.load] gives on that
    file. Names are ASCII, as the digits of [\d] are taken to be. *)

Section Dataset.
Context {Data : Type}.

(** [c] is matched by [\d]. *)
Definition is_digit (c : ascii) : bool :=
  let n := nat_of_ascii c in ((48 <=? n) && (n <=? 57))%nat.

Fixpoint digits_prefix (l : list ascii) : list ascii :=
  match l with
  | c :: l' => if is_digit c then c :: digits_prefix l' else []
  | [] => []
  end.

(** [re.findall(r'\d+', x)[0]]: the first maximal run of digits. *)
Fixpoint first_digits (l : list ascii) : result (list ascii) :=
  match l with
  | [] => Raise IndexError
  | c :: l' => if is_digit c then Ok (c :: digits_prefix l') else first_digits l'
  end.

(** [int(s)] on a string of digits. *)
Definition int_of_digits (ds : list ascii) : N :=
  foldl (λ acc c, 10 * acc + (N_of_ascii c - 48))%N 0%N ds.

(** [lambda x: int(re.findall(r'\d+', x)[0])] *)
Definition sort_key (x : string) : result N :=
  ds ← first_digits (PyStr.chars x);
  Ok (int_of_digits ds).

(** [sorted(names, key=...)]: the keys are computed first, one per
    name; the sort is stable. *)
Fixpoint sort_keys (names : list string) : result (list (N * string)) :=
  match names with
  | [] => Ok []
  | x :: rest => k ← sort_key x; keyed ← sort_keys rest; Ok ((k, x) :: keyed)
  end.

Fixpoint insert_by_key (kx : N * string) (l : list (N * string)) : list (N * string) :=
  match l with
  | [] => [kx]
  | ky :: l' => if (kx.1 <=? ky.1)%N then kx :: l else ky :: insert_by_key kx l'
  end.

Definition sorted_by_key (l : list (N * string)) : list (N * string) :=
  foldr insert_by_key [] l.

(** Lines 14-19. *)
Definition processed_file_names (root : list (string * result Data))
  : result (list string) :=
  keyed ← sort_keys (filter (λ f, PyStr.endswith f ".pt" = true) (listdir root));
  Ok (sorted_by_key keyed).*2.

(** Lines 21-22. *)
Definition dataset_len (root : list (string * result Data)) : result nat :=
  names ← processed_file_names root;
  Ok (length names).

(** [l[idx]] on a list, for an integer index. *)
Definition list_getitem {A : Type} (l : list A) (idx : Z) : result A :=
  let i := if (idx <? 0)%Z then (idx + Z.of_nat (length l))%Z else idx in
  if (i <? 0)%Z then Raise IndexError
  else match l !! Z.to_nat i with
       | Some a => Ok a
       | None => Raise IndexError
       end.

(** [torch.load(osp.join(self.root, name))] *)
Definition torch_load (root : list (string * result Data)) (name : string)
  : result Data :=
  match pydict_get name root with
  | Some content => content
  | None => Raise OSError
  end.

(** Lines 24-27. *)
Definition dataset_getitem (root : list (string * result Data)) (idx : Z)
  : result Data :=
  names ← processed_file_names root;
  name ← list_getitem names idx;
  torch_load root name.

End Dataset.

(** ** The sort key *)

Lemma first_digits_raise l e :
  first_digits l = Raise e ↔ e = IndexError ∧ Forall (λ c, is_digit c = false) l.
Proof.
  induction l as [|c l IH]; simpl.
  - split; [intros [= <-]; by split|by intros [-> _]].
  - destruct (is_digit c) eqn:Hc.
    + split; [done|]. intros [_ Hall]. apply Forall_cons in Hall as [Hc' _]. congruence.
    + rewrite IH. split; intros [-> Hall]; (split; [done|]).
      * by constructor.
      * by apply Forall_cons in Hall as [_ ?].
Qed.

Lemma sort_key_raise x e :
  sort_key x = Raise e ↔
  e = IndexError ∧ Forall (λ c, is_digit c = false) (PyStr.chars x).
Proof.
  unfold sort_key. rewrite <-first_digits_raise.
  destruct (first_digits (PyStr.chars x)); simpl; (split; [by intros [= ->]..]).
Qed.

Lemma digits_prefix_app ds l :
  Forall (λ c, is_digit c = true) ds → digits_prefix (ds ++ l) = ds ++ digits_prefix l.
Proof.
  induction 1 as [|c ds Hc _ IH]; simpl; [done|]. by rewrite Hc, IH.
Qed.

Lemma first_digits_app pre ds suf :
  Forall (λ c, is_digit c = false) pre →
  Forall (λ c, is_digit c = true) ds → ds ≠ [] →
  digits_prefix suf = [] →
  first_digits (pre ++ ds ++ suf) = Ok ds.
Proof.
  intros Hpre Hds Hne Hsuf. induction Hpre as [|c pre Hc _ IH]; simpl.
  - destruct Hds as [|c ds Hc Hds]; [done|]. simpl. rewrite Hc.
    by rewrite digits_prefix_app, Hsuf, app_nil_r.
  - by rewrite Hc.
Qed.

Lemma pretty_N_char_digit x :
  (x < 10)%N →
  is_digit (pretty_N_char x) = true ∧ (N_of_ascii (pretty_N_char x) - 48)%N = x.
Proof.
  intros Hx.
  assert (x = 0 ∨ x = 1 ∨ x = 2 ∨ x = 3 ∨ x = 4 ∨ x = 5 ∨ x = 6 ∨ x = 7 ∨ x = 8 ∨ x = 9)%N
    as Hcases by lia.
  destruct_or!; subst x; by vm_compute.
Qed.

Lemma int_of_digits_snoc ds c :
  int_of_digits (ds ++ [c]) = (10 * int_of_digits ds + (N_of_ascii c - 48))%N.
Proof. unfold int_of_digits. by rewrite foldl_app. Qed.

Lemma pretty_N_go_digits x : ∀ s,
  ∃ ds, PyStr.chars (pretty_N_go x s) = ds ++ PyStr.chars s ∧
    Forall (λ c, is_digit c = true) ds ∧ int_of_digits ds = x ∧
    ((0 < x)%N → ds ≠ []).
Proof.
  induction (N.lt_wf_0 x) as [x _ IH]; intros s.
  assert (x = 0 ∨ 0 < x)%N as [->|Hpos] by lia.
  - rewrite pretty_N_go_0. exists []. split_and!; [done|constructor|done|lia].
  - rewrite pretty_N_go_step by done.
    destruct (IH (x `div` 10)%N) with (s := String (pretty_N_char (x `mod` 10)) s)
      as (ds & Hchars & Hds & Hint & _).
    { apply N.div_lt; lia. }
    destruct (pretty_N_char_digit (x `mod` 10)) as [Hc Hval].
    { apply N.mod_lt. lia. }
    exists (ds ++ [pretty_N_char (x `mod` 10)]). split_and!.
    + rewrite Hchars. by rewrite <-(assoc_L (++)).
    + apply Forall_app. split; [done|]. by constructor.
    + rewrite int_of_digits_snoc, Hint, Hval. symmetry. apply N.div_mod. lia.
    + intros _. by destruct ds.
Qed.

Lemma pretty_N_digits (n : N) :
  ∃ ds, PyStr.chars (pretty n) = ds ∧ ds ≠ [] ∧
    Forall (λ c, is_digit c = true) ds ∧ int_of_digits ds = n.
Proof.
  unfold pretty, pretty_N. case_decide as Hn.
  - subst n. eexists. split; [done|]. split; [done|]. split; [|done].
    by repeat constructor.
  - destruct (pretty_N_go_digits n "") as (ds & Hchars & Hds & Hint & Hne).
    exists ds. rewrite app_nil_r in Hchars. split_and!; [done| |done|done].
    apply Hne. lia.
Qed.

(** X17. The sort key reads back the number of a file name: for a name
    made of a prefix without digit, the decimal numeral of [n] and a
    suffix that does not start with a digit (such as ".pt"), the key is
    [n]. Digits after the first run are never looked at. *)
Theorem sort_key_numeral (pre suf : string) (n : N) :
  Forall (λ c, is_digit c = false) (PyStr.chars pre) →
  digits_prefix (PyStr.chars suf) = [] →
  sort_key (pre +:+ pretty n +:+ suf) = Ok n.
Proof.
  intros Hpre Hsuf. unfold sort_key. rewrite !chars_app.
  destruct (pretty_N_digits n) as (ds & -> & Hne & Hds & Hint).
  rewrite first_digits_app by done. simpl. by rewrite Hint.
Qed.

(** ** The sorted list of names *)

Lemma sort_keys_ok names keyed :
  sort_keys names = Ok keyed →
  keyed.*2 = names ∧ Forall (λ kx, sort_key kx.2 = Ok kx.1) keyed.
Proof.
  revert keyed. induction names as [|x names IH]; intros keyed; simpl.
  - intros [= <-]. split; [done|constructor].
  - destruct (sort_key x) as [k|] eqn:Hk; simpl; [|done].
    destruct (sort_keys names) as [keyed'|]; simpl; [|done].
    intros [= <-]. destruct (IH keyed' eq_refl) as [Hnames Hall].
    split; [by rewrite fmap_cons, Hnames|]. by constructor.
Qed.

Lemma sort_keys_raise names e :
  sort_keys names = Raise e ↔ ∃ x, x ∈ names ∧ sort_key x = Raise e.
Proof.
  induction names as [|x names IH]; simpl.
  - split; [done|]. intros (x & Hx & _). by apply elem_of_nil in Hx.
  - destruct (sort_key x) as [k|e0] eqn:Hk; simpl.
    + destruct (sort_keys names) as [keyed|e0]; simpl.
      * split; [done|]. intros (y & [->|Hy]%elem_of_cons & Hraise); [congruence|].
        assert (Ok keyed = Raise e) as Habs by (apply IH; by exists y). done.
      * split.
        -- intros [= ->]. destruct (proj1 IH eq_refl) as (y & Hy & Hraise).
           exists y. split; [by right|done].
        -- intros (y & [->|Hy]%elem_of_cons & Hraise); [congruence|].
           assert (Raise e0 = @Raise (list (N * string)) e) as Heq
             by (apply IH; by exists y).
           by injection Heq as ->.
    + split.
      * intros [= ->]. exists x. split; [left|done].
      * intros (y & Hy & Hraise). f_equal.
        apply sort_key_raise in Hk as [-> _]. by apply sort_key_raise in Hraise as [-> _].
Qed.

Lemma insert_by_key_perm kx l : insert_by_key kx l ≡ₚ kx :: l.
Proof.
  induction l as [|ky l IH]; simpl; [done|].
  destruct (kx.1 <=? ky.1)%N; [done|]. rewrite IH. apply perm_swap.
Qed.

Lemma sorted_by_key_perm l : sorted_by_key l ≡ₚ l.
Proof.
  induction l as [|kx l IH]; simpl; [done|]. by rewrite insert_by_key_perm, IH.
Qed.

Definition key_le (a b : N * string) : Prop := (a.1 ≤ b.1)%N.

Lemma insert_by_key_sorted kx l :
  Sorted key_le l → Sorted key_le (insert_by_key kx l).
Proof.
  induction 1 as [|ky l Hl IH Hhd]; simpl; [by repeat constructor|].
  destruct (kx.1 <=? ky.1)%N eqn:Hle.
  - constructor; [by constructor|]. constructor. by apply N.leb_le.
  - apply N.leb_gt in Hle. constructor; [done|].
    destruct Hhd as [|kz l Hkz]; simpl.
    + constructor. unfold key_le. lia.
    + destruct (kx.1 <=? kz.1)%N; constructor; [unfold key_le; lia|done].
Qed.

Lemma sorted_by_key_sorted l : Sorted key_le (sorted_by_key l).
Proof.
  induction l as [|kx l IH]; simpl; [constructor|]. by apply insert_by_key_sorted.
Qed.

Lemma insert_by_key_filter (k : N) kx l :
  filter (λ ky, ky.1 = k) (insert_by_key kx l) = filter (λ ky, ky.1 = k) (kx :: l).
Proof.
  induction l as [|ky l IH]; cbn [insert_by_key]; [done|].
  destruct (kx.1 <=? ky.1)%N eqn:Hle; [done|]. apply N.leb_gt in Hle.
  rewrite (filter_cons _ ky), IH, !filter_cons.
  destruct (decide (ky.1 = k)) as [Hky|Hky]; [|done].
  destruct (decide (kx.1 = k)) as [Hkx|Hkx]; [lia|done].
Qed.

Lemma sorted_by_key_filter (k : N) l :
  filter (λ ky, ky.1 = k) (sorted_by_key l) = filter (λ ky, ky.1 = k) l.
Proof.
  induction l as [|kx l IH]; [done|]. cbn [sorted_by_key foldr].
  fold (sorted_by_key l). by rewrite insert_by_key_filter, !filter_cons, IH.
Qed.

Lemma filter_keyed (k : N) (l : list (N * string)) :
  Forall (λ kx, sort_key kx.2 = Ok kx.1) l →
  filter (λ x, sort_key x = Ok k) l.*2 = (filter (λ kx, kx.1 = k) l).*2.
Proof.
  induction 1 as [|kx l Hkx _ IH]; [done|].
  rewrite fmap_cons, !filter_cons, IH, Hkx.
  destruct (decide (kx.1 = k)) as [Hk|Hk].
  - rewrite decide_True by by rewrite Hk. done.
  - rewrite decide_False; [done|]. by intros [= ?].
Qed.

Section Dataset_facts.
Context {Data : Type}.
Implicit Types root : list (string * result Data).

#[local] Abbreviation pt_files root :=
  (filter (λ f, PyStr.endswith f ".pt" = true) (listdir root)).

Lemma processed_file_names_ok root names :
  processed_file_names root = Ok names →
  ∃ keyed, sort_keys (pt_files root) = Ok keyed ∧ names = (sorted_by_key keyed).*2 ∧
    keyed.*2 = pt_files root ∧ Forall (λ kx, sort_key kx.2 = Ok kx.1) keyed.
Proof.
  unfold processed_file_names.
  destruct (sort_keys (pt_files root)) as [keyed|] eqn:Hkeys; simpl; [|done].
  intros [= <-]. exists keyed. destruct (sort_keys_ok _ _ Hkeys). by split_and!.
Qed.

(** X18. When [processed_file_names] returns, the list holds exactly
    the names of the root directory that end in ".pt", each as often as
    it is listed; their keys are in ascending order; and names with the
    same key keep the order in which [os.listdir] reported them (the
    sort is stable). *)
Theorem processed_file_names_sorted (root : list (string * result Data))
    (names : list string) :
  processed_file_names root = Ok names →
  names ≡ₚ filter (λ f, PyStr.endswith f ".pt" = true) (listdir root) ∧
  (∃ keys, Forall2 (λ x k, sort_key x = Ok k) names keys ∧ Sorted N.le keys) ∧
  ∀ k : N,
    filter (λ x, sort_key x = Ok k) names =
    filter (λ x, sort_key x = Ok k)
      (filter (λ f, PyStr.endswith f ".pt" = true) (listdir root)).
Proof.
  intros (keyed & _ & -> & Hnames & Hall)%processed_file_names_ok.
  assert (Forall (λ kx, sort_key kx.2 = Ok kx.1) (sorted_by_key keyed)) as Hall'.
  { by rewrite sorted_by_key_perm. }
  split_and!.
  - by rewrite sorted_by_key_perm, Hnames.
  - exists (sorted_by_key keyed).*1. split.
    + apply Forall2_fmap, Forall_Forall2_diag. exact Hall'.
    + apply (Sorted_fmap _ key_le); [done|]. apply sorted_by_key_sorted.
  - intros k. rewrite <-Hnames.
    by rewrite !filter_keyed, sorted_by_key_filter.
Qed.

(** X19. [processed_file_names] raises exactly when the root directory
    lists a name that ends in ".pt" and contains no digit: the
    exception is then the IndexError of [re.findall(...)[0]], and one
    such file makes the whole dataset unusable. *)
Theorem processed_file_names_raises (root : list (string * result Data)) (e : exn) :
  processed_file_names root = Raise e ↔
  e = IndexError ∧
  ∃ x, x ∈ listdir root ∧ PyStr.endswith x ".pt" = true ∧
    Forall (λ c, is_digit c = false) (PyStr.chars x).
Proof.
  unfold processed_file_names.
  destruct (sort_keys (pt_files root)) as [keyed|e0] eqn:Hkeys; simpl.
  - split; [done|]. intros [-> (x & Hx & Hpt & Hno)].
    assert (sort_keys (pt_files root) = Raise IndexError) as Habs; [|congruence].
    apply sort_keys_raise. exists x. split.
    + by apply list_elem_of_filter.
    + by apply sort_key_raise.
  - split.
    + intros [= ->]. apply sort_keys_raise in Hkeys as (x & Hx & Hraise).
      apply list_elem_of_filter in Hx as [Hpt Hx].
      apply sort_key_raise in Hraise as [-> Hno]. split; [done|]. by exists x.
    + intros [-> (x & Hx & Hpt & Hno)]. f_equal.
      assert (sort_keys (pt_files root) = Raise IndexError) as Habs; [|congruence].
      apply sort_keys_raise. exists x. split.
      * by apply list_elem_of_filter.
      * by apply sort_key_raise.
Qed.

(** ** Indexing *)

Lemma list_getitem_nat {A : Type} (l : list A) (i : nat) (a : A) :
  l !! i = Some a →
  list_getitem l (Z.of_nat i) = Ok a ∧
  list_getitem l (Z.of_nat i - Z.of_nat (length l)) = Ok a.
Proof.
  intros Hi. pose proof (lookup_lt_Some _ _ _ Hi) as Hlt.
  unfold list_getitem. split.
  - assert ((Z.of_nat i <? 0)%Z = false) as -> by (apply Z.ltb_ge; lia).
    assert ((Z.of_nat i <? 0)%Z = false) as -> by (apply Z.ltb_ge; lia).
    by rewrite Nat2Z.id, Hi.
  - assert ((Z.of_nat i - Z.of_nat (length l) <? 0)%Z = true) as ->
      by (apply Z.ltb_lt; lia).
    replace (Z.of_nat i - Z.of_nat (length l) + Z.of_nat (length l))%Z
      with (Z.of_nat i) by lia.
    assert ((Z.of_nat i <? 0)%Z = false) as -> by (apply Z.ltb_ge; lia).
    by rewrite Nat2Z.id, Hi.
Qed.

Lemma list_getitem_range {A : Type} (l : list A) (idx : Z) :
  (idx < - Z.of_nat (length l) ∨ Z.of_nat (length l) ≤ idx)%Z →
  list_getitem l idx = Raise IndexError.
Proof.
  intros Hidx. unfold list_getitem.
  destruct (idx <? 0)%Z eqn:Hneg.
  - apply Z.ltb_lt in Hneg.
    assert ((idx + Z.of_nat (length l) <? 0)%Z = true) as -> by (apply Z.ltb_lt; lia).
    done.
  - rewrite Hneg. apply Z.ltb_ge in Hneg.
    rewrite lookup_ge_None_2; [done|]. lia.
Qed.

(** X20. With [names] the list [processed_file_names] returns,
    [len(dataset)] is the number of ".pt" names of the root directory;
    an index [i] below it loads the file of [names[i]], and so does the
    negative index [i - len]; every index outside [-len, len) raises
    IndexError. *)
Theorem dataset_getitem_index (root : list (string * result Data))
    (names : list string) :
  processed_file_names root = Ok names →
  dataset_len root = Ok (length names) ∧
  length names =
    length (filter (λ f, PyStr.endswith f ".pt" = true) (listdir root)) ∧
  (∀ (i : nat) name, names !! i = Some name →
     dataset_getitem root (Z.of_nat i) = torch_load root name ∧
     dataset_getitem root (Z.of_nat i - Z.of_nat (length names)) =
       torch_load root name) ∧
  (∀ idx : Z,
     (idx < - Z.of_nat (length names) ∨ Z.of_nat (length names) ≤ idx)%Z →
     dataset_getitem root idx = Raise IndexError).
Proof.
  intros Hnames. unfold dataset_len, dataset_getitem. rewrite Hnames. simpl.
  split; [done|]. split.
  { destruct (processed_file_names_ok _ _ Hnames) as (keyed & _ & -> & <- & _).
    by rewrite !length_fmap, sorted_by_key_perm. }
  split.
  - intros i name Hi. destruct (list_getitem_nat _ _ _ Hi) as [-> ->]. done.
  - intros idx Hidx. by rewrite list_getitem_range.
Qed.

(** X21. Every ".pt" file of the root directory is an item of the
    dataset: when [processed_file_names] returns, each such name has an
    index below [len(dataset)] at which [__getitem__] loads that
    file. *)
Theorem dataset_reaches_every_file (root : list (string * result Data))
    (names : list string) (name : string) :
  processed_file_names root = Ok names →
  name ∈ listdir root → PyStr.endswith name ".pt" = true →
  ∃ i : nat, i < length names ∧
    dataset_getitem root (Z.of_nat i) = torch_load root name.
Proof.
  intros Hnames Hin Hpt.
  assert (name ∈ names) as Hname.
  { destruct (processed_file_names_ok _ _ Hnames) as (keyed & _ & -> & Hk & _).
    rewrite sorted_by_key_perm, Hk. by apply list_elem_of_filter. }
  apply list_elem_of_lookup in Hname as [i Hi]. exists i.
  split; [by eapply lookup_lt_Some|].
  unfold dataset_getitem. rewrite Hnames. simpl.
  by destruct (list_getitem_nat _ _ _ Hi) as [-> _].
Qed.

End Dataset_facts.

(** * Instances on the example: the dumped graph, the batch, the dataset *)

(** The graph a job builds for the two-residue protein, without and
    with the PAE block. *)
Definition ex_build (include_pae : bool) : result (Graph Z + job_end) :=
  build_graph Z ex_bond_length ex_sub ex_norm ex_str (Some ex_pdb_file)
    (Some (ex_json_file ex_json)) include_pae.

Definition ex_dumped (include_pae : bool) : Graph Z :=
  match ex_build include_pae with
  | Ok (inl G) => G
  | _ => empty_graph Z
  end.

Lemma ex_build_dumps (include_pae : bool) :
  is_dumped (ex_build include_pae) = true →
  ex_build include_pae = Ok (inl (ex_dumped include_pae)).
Proof. unfold ex_dumped. by destruct (ex_build include_pae) as [[G|stop]|e]. Defined.

Lemma ex_job_stages (include_pae : bool) :
  is_dumped (ex_build include_pae) = true →
  ∃ mol structure plddt G2 G3 G4 G5,
    job_stages Z ex_bond_length ex_sub ex_norm ex_str ex_pdb_file
      (Some (ex_json_file ex_json)) include_pae mol structure plddt G2 G3 G4 G5
      (ex_dumped include_pae).
Proof.
  intros Hok.
  destruct (build_graph_inl Z ex_bond_length ex_sub ex_norm ex_str _ _ _ _
              (ex_build_dumps include_pae Hok))
    as (pdb & mol & structure & plddt & G2 & G3 & G4 & G5 & Hpdb & Hstages).
  apply (inj Some) in Hpdb. subst pdb.
  by exists mol, structure, plddt, G2, G3, G4, G5.
Defined.

(** X5 on the example: without PAE the edge of the first bond carries
    the three bond keys. *)
Lemma dumped_edges_bond_keys_witness :
  ∃ e, edge (ex_dumped false) 0 1 = Some e ∧ dom e = bond_keys.
Proof.
  destruct (ex_job_stages false) as (mol & structure & plddt & G2 & G3 & G4 & G5 & Hst).
  { vm_compute. reflexivity. }
  assert (is_Some (edge (ex_dumped false) 0 1)) as [e He].
  { apply (bool_decide_unpack _). vm_compute. reflexivity. }
  exists e. split; [exact He|].
  exact (dumped_edges_bond_keys Z ex_bond_length ex_sub ex_norm ex_str _ _ _ _ _
           _ _ _ _ _ Hst 0 1 e He).
Defined.

(** X6 on the example: with PAE the edge between the CA atoms 1 and 4
    carries one of the three key sets. *)
Lemma dumped_edges_pae_keys_witness :
  ∃ e, edge (ex_dumped true) 1 4 = Some e ∧
    (dom e = bond_keys ∨ dom e = bond_keys ∪ {["pae"]} ∨ dom e = {["pae"]}).
Proof.
  destruct (ex_job_stages true) as (mol & structure & plddt & G2 & G3 & G4 & G5 & Hst).
  { vm_compute. reflexivity. }
  assert (is_Some (edge (ex_dumped true) 1 4)) as [e He].
  { apply (bool_decide_unpack _). vm_compute. reflexivity. }
  exists e. split; [exact He|].
  exact (dumped_edges_pae_keys Z ex_bond_length ex_sub ex_norm ex_str _ _ _ _ _
           _ _ _ _ _ Hst 1 4 e He).
Defined.

(** X7 on the example: the PAE block keeps the nodes. *)
Lemma pae_block_only_ca_pairs_witness :
  nodes (ex_graph ex_pae_block) = nodes ex_G3.
Proof.
  exact (proj1 (pae_block_only_ca_pairs Z ex_bond_length ex_sub ex_norm ex_names ex_mol
                  ex_plddt (Ok ex_json) ex_G2 ex_G3 (ex_graph ex_pae_block)
                  ex_backbone_runs ex_plddt_runs ex_pae_block_runs)).
Defined.

(** X8 on the example: the node of the CA atom of residue 1 in the
    dumped graph. *)
Lemma dumped_nodes_witness :
  ∃ data, pydict_get 1 (nodes (ex_dumped true)) = Some data ∧
    data !! "atomic_number" = Some (PInt 6) ∧
    data !! "residue_number" = Some (PInt 1) ∧
    data !! "residue_name" = Some (PStr "ALA") ∧
    data !! "atom_coords" = Some (PStr "15,0,0").
Proof.
  destruct (ex_job_stages true) as (mol & structure & plddt & G2 & G3 & G4 & G5 & Hst).
  { vm_compute. reflexivity. }
  destruct (dumped_nodes Z ex_bond_length ex_sub ex_norm ex_str _ _ _ _ _ _ _ _ _ _ _ Hst)
    as (dssp_data & _ & Hnodes).
  pose proof (stage_mol _ _ _ _ _ _ _ _ _ _ _ _ _ _ _ _ Hst) as Hmol.
  apply (inj Some) in Hmol. subst mol.
  destruct (Hnodes 1 (ex_atom 2 1 6 15 0 0) eq_refl)
    as (data & Hget & _ & Hnum & _ & _ & Hres & Hname & _ & Hcoords & _).
  exists data. split; [exact Hget|]. split; [exact Hnum|]. split; [exact Hres|].
  split; [exact Hname|exact Hcoords].
Defined.

(** X10 on the example: without PAE and with a DSSP result, the job of
    the two-residue protein reaches the dump. *)
Lemma job_ends_after_setup_witness :
  bonds_in_range Z ex_mol ∧
  ∃ G6, graph_after_pae Z ex_str ex_pdb_file ex_G3 ex_r2ca None false = Ok (inl G6).
Proof.
  split; [exact ex_bonds_in_range|].
  pose proof (job_ends_after_setup Z ex_bond_length ex_sub ex_norm ex_str ex_names ex_mol
                ex_plddt ex_G2 ex_G3 ex_pdb_file None false
                ex_bonds_in_range ex_backbone_runs ex_plddt_runs) as Hend.
  cbv beta iota zeta in Hend.
  change (run_dssp Z (get_structure Z ex_pdb_file) (DSSP Z ex_pdb_file))
    with (Ok (dssp_dict Z ex_dssp)) in Hend.
  exact Hend.
Defined.

(** A structure file without atoms: RDKit returns a molecule without
    conformer. *)
Definition ex_empty_dir : list (string * file_content Z) :=
  [ ("e1.pdb", Build_file_content (Some (Build_Mol [] [] 0)) (Ok [[]]) (Ok [])
                 (Raise JSONDecodeError)) ].

(** X11 on the examples: the molecule of [w1.pdb] has its bonds between
    its own atoms, its structure has a residue without CA atom, and the
    job raises the KeyError of the setup; the job of [e1.pdb] raises the
    ValueError of [mol.GetConformer]. *)
Lemma job_raises_only_in_setup_witness :
  bonds_in_range Z ex_water_mol ∧
  (ex_job ex_water_dir false ∅ "w1").2 = Raise KeyError ∧
  (ex_job ex_empty_dir false ∅ "e1").2 = Raise ValueError.
Proof.
  assert (bonds_in_range Z ex_water_mol) as Hbonds.
  { unfold bonds_in_range. repeat constructor; simpl; lia. }
  split; [exact Hbonds|]. split.
  - apply (job_raises_only_in_setup Z ex_bond_length ex_sub ex_norm ex_str
             ex_water_dir ∅ "w1" false KeyError).
    + intros pdb mol Hpdb Hmol. vm_compute in Hpdb.
      apply (inj Some) in Hpdb. subst pdb. simpl in Hmol.
      apply (inj Some) in Hmol. subst mol. exact Hbonds.
    + split; [reflexivity|].
      change (¬ Forall (has_ca Z) (structure_residues Z ex_water_structure)
              ∧ KeyError = KeyError).
      split; [|reflexivity].
      intros Hall. unfold structure_residues in Hall. simpl in Hall.
      apply Forall_cons in Hall as [_ Hall]. apply Forall_cons in Hall as [_ Hall].
      apply Forall_cons in Hall as [[ca Hca] _]. vm_compute in Hca. discriminate Hca.
  - apply (job_raises_only_in_setup Z ex_bond_length ex_sub ex_norm ex_str
             ex_empty_dir ∅ "e1" false ValueError).
    + intros pdb mol Hpdb Hmol. vm_compute in Hpdb.
      apply (inj Some) in Hpdb. subst pdb. simpl in Hmol.
      apply (inj Some) in Hmol. subst mol. constructor.
    + split; reflexivity.
Defined.

(** A directory with the two-residue protein only. *)
Definition ex_dir_one : list (string * file_content Z) := [ ("p1.pdb", ex_pdb_file) ].

Lemma ex_complete_run :
  ∃ out1 results, ex_alpha_nx ex_dir_one ∅ false 0 = (out1, Ok results).
Proof.
  assert (is_ok (ex_alpha_nx ex_dir_one ∅ false 0).2 = true) as Hok
    by (vm_compute; reflexivity).
  destruct (ex_alpha_nx ex_dir_one ∅ false 0) as [out1 [results|e]].
  - by exists out1, results.
  - discriminate Hok.
Defined.

(** X13 on the example: a second batch after a complete one. *)
Lemma batch_rerun_writes_nothing_witness :
  ∃ out1 results',
    ex_alpha_nx ex_dir_one out1 false 2 = (out1, Ok results') ∧
    length results' = length (pending_tasks Z ex_dir_one out1).
Proof.
  destruct ex_complete_run as (out1 & results & Hrun).
  destruct (batch_rerun_writes_nothing Z ex_bond_length ex_sub ex_norm ex_str
              ex_dir_one ∅ out1 false 0 2 results Hrun) as (results' & Hrerun & Hlen).
  exists out1, results'. split; [exact Hrerun|exact Hlen].
Defined.

(** X14 on the example: one task, one result. *)
Lemma batch_complete_run_witness :
  ∃ results, (ex_alpha_nx ex_dir_one ∅ false 0).2 = Ok results ∧
    length results = length (pending_tasks Z ex_dir_one ∅).
Proof.
  destruct ex_complete_run as (out1 & results & Hrun).
  destruct (batch_complete_run Z ex_bond_length ex_sub ex_norm ex_str
              ex_dir_one ∅ out1 false 0 results Hrun) as [Hlen _].
  exists results. split; [by rewrite Hrun|exact Hlen].
Defined.

(** X22 on the example: the task of "p1.pdb" writes "p1.pkl". *)
Lemma batch_and_job_artifact_name_witness :
  PyStr.split_last "/" (PyStr.splitext_root "p1.pdb") +:+ ".pkl" =
  PyStr.splitext_root "p1.pdb" +:+ ".pkl".
Proof.
  apply (batch_and_job_artifact_name Z ex_dir_one "p1.pdb").
  apply (bool_decide_unpack _). vm_compute. reflexivity.
Defined.

(** A dataset directory: two graphs and a file that is none. *)
Definition ex_root : list (string * result nat) :=
  [ ("graph_10.pt", Ok 10); ("graph_2.pt", Ok 2); ("notes.txt", Raise OtherError) ].

Example ex_processed_file_names :
  processed_file_names ex_root = Ok ["graph_2.pt"; "graph_10.pt"].
Proof. vm_compute. reflexivity. Defined.

(** X17 on a name: the key of "graph_12.pt" is 12. *)
Lemma sort_key_numeral_witness : sort_key ("graph_" +:+ pretty 12%N +:+ ".pt") = Ok 12%N.
Proof.
  apply sort_key_numeral.
  - apply (bool_decide_unpack _). vm_compute. reflexivity.
  - vm_compute. reflexivity.
Defined.

(** X18 on the example: the two names, by ascending number. *)
Lemma processed_file_names_sorted_witness :
  ["graph_2.pt"; "graph_10.pt"] ≡ₚ
  filter (λ f, PyStr.endswith f ".pt" = true) (listdir ex_root).
Proof.
  exact (proj1 (processed_file_names_sorted ex_root _ ex_processed_file_names)).
Defined.

(** X20 on the example: two items. *)
Lemma dataset_getitem_index_witness :
  dataset_len ex_root = Ok 2 ∧ dataset_getitem ex_root 2 = Raise IndexError.
Proof.
  destruct (dataset_getitem_index ex_root _ ex_processed_file_names)
    as (Hlen & _ & _ & Hout).
  split; [exact Hlen|]. apply Hout. right. simpl. lia.
Defined.

(** X21 on the example: the file "graph_10.pt" is an item. *)
Lemma dataset_reaches_every_file_witness :
  ∃ i : nat, i < 2 ∧
    dataset_getitem ex_root (Z.of_nat i) = torch_load ex_root "graph_10.pt".
Proof.
  apply (dataset_reaches_every_file ex_root _ "graph_10.pt" ex_processed_file_names).
  - apply (bool_decide_unpack _). vm_compute. reflexivity.
  - vm_compute. reflexivity.
Defined.
